(** * unisys: a shallow embedding of the daemon's configuration loading,
      PID-file bookkeeping, stop command and periodic resource collection.

    Source files embedded here:
    - [config/config.go]                                   (Module [config])
    - [cmd] package: [IsRunning], [unisysOperation.stop]   (Module [cmd])
    - [internal/resourcecollecter/resource_collecter.go]   (Module [resourcecollecter])
    - [cmd/operation.go]: [start], [initialization], [finalization],
      [panicHandler]                                       (Module [operation])
    - [internal/server]: [Run], [newGinRouterEngine],
      [ginLoggerMiddleware]                                (Module [server])

    Conventions of the embedding:
    - Go [int], [int64] and [time.Duration] are integers in [Z]; the one
      operation of the embedded code that could wrap, the product that gives
      the shutdown timeout of [server.Run], is wrapped to 64 bits.
    - Go [error] values are messages; a nil error is [None].
    - A call that returns [(T, error)] and whose value is only used when the
      error is nil is a [result T].
    - Everything the operating system, the file system or an absent package
      answers is an explicit input of the embedded function. *)

From Stdlib Require Import ZArith QArith Qround List String Ascii Lia Lqa Bool.
From stdpp Require Import base option list gmap strings pretty.

Open Scope Z_scope.

(** ** Go basics *)

Definition error := string.

Inductive result (A : Type) : Type :=
| Ok (a : A)
| Err (e : error).
Arguments Ok {A} a.
Arguments Err {A} e.

(** [time.Duration] counts nanoseconds. *)
Definition Duration := Z.
Definition Nanosecond : Duration := 1.
Definition Second : Duration := 1000000000 * Nanosecond.

(** ** Package config *)

Module config.

Definition ConfFilePath : string := "conf/unisys.yaml".
Definition PidFilePath : string := "var/unisys.pid".
Definition LogFilePath : string := "log/unisys.log".

Record AutoTLSYaml := mkAutoTLS {
  Enabled : bool;
  CertPath : string;
  Host : string
}.

Record ServerConf := mkServer {
  Port : Z;
  ShutdownTimeout : Z;
  TLSEnabled : bool;
  TLSCertificateFile : string;
  TLSPrivateKeyFile : string;
  AutoTLS : AutoTLSYaml
}.

Record APIConf := mkAPI {
  MetricURI : string;
  HealthURI : string;
  SysStatURI : string
}.

Record LogConf := mkLog {
  MaxLogFileSize : Z;
  MaxLogFileBackup : Z;
  MaxLogFileAge : Z;
  CompBakLogFile : bool
}.

Record Config := mkConfig {
  Server : ServerConf;
  API : APIConf;
  Log : LogConf
}.

Record RunConfig := mkRunConfig {
  DebugMode : bool;
  Pid : Z
}.

(** The value of [Conf] once the package's [init] has run. *)
Definition init : Config :=
  {| Server := {| Port := 8443; ShutdownTimeout := 5; TLSEnabled := false;
                  TLSCertificateFile := ""; TLSPrivateKeyFile := "";
                  AutoTLS := {| Enabled := false; CertPath := ".cache"; Host := "" |} |};
     API := {| MetricURI := "/metrics"; HealthURI := "/health";
               SysStatURI := "/sys/stats" |};
     Log := {| MaxLogFileSize := 100; MaxLogFileBackup := 10;
               MaxLogFileAge := 90; CompBakLogFile := true |} |}.

(** Field assignments [c.Server.Port = v] and the like. *)
Definition set_Port (v : Z) (c : Config) : Config :=
  let s := Server c in
  {| Server := {| Port := v; ShutdownTimeout := ShutdownTimeout s;
                  TLSEnabled := TLSEnabled s;
                  TLSCertificateFile := TLSCertificateFile s;
                  TLSPrivateKeyFile := TLSPrivateKeyFile s;
                  AutoTLS := AutoTLS s |};
     API := API c; Log := Log c |}.

Definition set_ShutdownTimeout (v : Z) (c : Config) : Config :=
  let s := Server c in
  {| Server := {| Port := Port s; ShutdownTimeout := v;
                  TLSEnabled := TLSEnabled s;
                  TLSCertificateFile := TLSCertificateFile s;
                  TLSPrivateKeyFile := TLSPrivateKeyFile s;
                  AutoTLS := AutoTLS s |};
     API := API c; Log := Log c |}.

Definition set_MaxLogFileSize (v : Z) (c : Config) : Config :=
  let l := Log c in
  {| Server := Server c; API := API c;
     Log := {| MaxLogFileSize := v; MaxLogFileBackup := MaxLogFileBackup l;
               MaxLogFileAge := MaxLogFileAge l;
               CompBakLogFile := CompBakLogFile l |} |}.

Definition set_MaxLogFileBackup (v : Z) (c : Config) : Config :=
  let l := Log c in
  {| Server := Server c; API := API c;
     Log := {| MaxLogFileSize := MaxLogFileSize l; MaxLogFileBackup := v;
               MaxLogFileAge := MaxLogFileAge l;
               CompBakLogFile := CompBakLogFile l |} |}.

Definition set_MaxLogFileAge (v : Z) (c : Config) : Config :=
  let l := Log c in
  {| Server := Server c; API := API c;
     Log := {| MaxLogFileSize := MaxLogFileSize l;
               MaxLogFileBackup := MaxLogFileBackup l;
               MaxLogFileAge := v;
               CompBakLogFile := CompBakLogFile l |} |}.

(** What [LoadConfig] asks of the outside world: [os.Open] on a path, and
    the YAML decoder, which writes into the [Config] it is handed (fields
    absent from the document keep their value) and may fail. *)
Record Env := mkEnv {
  File : Type;
  os_Open : string -> result File;
  yaml_Decode : File -> Config -> Config * option error
}.

(** The receiver [c *Config] either is [&Conf] (the call
    [config.Conf.LoadConfig(...)] of [cmd.initialization]) or points to some
    other [Config] variable. *)
Inductive Receiver :=
| RecvConf
| RecvOther (v : Config).

Definition deref (Conf : Config) (c : Receiver) : Config :=
  match c with RecvConf => Conf | RecvOther v => v end.

Definition assign (f : Config -> Config) (st : Config * Receiver) : Config * Receiver :=
  match snd st with
  | RecvConf => (f (fst st), RecvConf)
  | RecvOther v => (fst st, RecvOther (f v))
  end.

(** The five range checks that end [LoadConfig], on the receiver. *)
Definition validate (st : Config * Receiver) : Config * Receiver :=
  let c st := deref (fst st) (snd st) in
  let st := if (Port (Server (c st)) <? 0) || (Port (Server (c st)) >? 65535)
            then assign (set_Port 8443) st else st in
  let st := if (ShutdownTimeout (Server (c st)) <? 0) || (ShutdownTimeout (Server (c st)) >? 20)
            then assign (set_ShutdownTimeout 5) st else st in
  let st := if (MaxLogFileSize (Log (c st)) <? 1) || (MaxLogFileSize (Log (c st)) >? 1000)
            then assign (set_MaxLogFileSize 100) st else st in
  let st := if (MaxLogFileBackup (Log (c st)) <? 1) || (MaxLogFileBackup (Log (c st)) >? 100)
            then assign (set_MaxLogFileBackup 10) st else st in
  let st := if (MaxLogFileAge (Log (c st)) <? 1) || (MaxLogFileAge (Log (c st)) >? 365)
            then assign (set_MaxLogFileAge 90) st else st in
  st.

(** [func (c *Config) LoadConfig(filePath string) error].  The state is the
    package variable [Conf] together with the receiver; [filePath] is not
    used by the source, which opens [ConfFilePath] and decodes into [&Conf]. *)
Definition LoadConfig (env : Env) (c : Receiver) (filePath : string) (Conf : Config)
  : (Config * Receiver) * option error :=
  match os_Open env ConfFilePath with
  | Err e => ((Conf, c), Some ("failed to open file: " ++ e)%string)
  | Ok file =>
      match yaml_Decode env file Conf with
      | (Conf', Some e) => ((Conf', c), Some ("failed to parse config: " ++ e)%string)
      | (Conf', None) => (validate (Conf', c), None)
      end
  end.

(** The replacement rule of one checked field. *)
Definition checked (lo hi def v : Z) : Z :=
  if (v <? lo) || (v >? hi) then def else v.

End config.

(** ** Package strconv (Go standard library): [Atoi]

    [strconv.Atoi(s)] is [ParseInt(s, 10, 0)] with a 64-bit [int]; its fast
    path for short strings computes the same answers.  A syntax error yields
    the value 0, a range error the nearest representable value. *)

Module strconv.

Definition maxUint64 : Z := 18446744073709551615.
Definition maxInt64 : Z := 9223372036854775807.
Definition minInt64 : Z := -9223372036854775808.

Inductive NumErr := ErrSyntax | ErrRange.

Definition numError (fn s : string) (k : NumErr) : error :=
  ("strconv." ++ fn ++ ": parsing " ++ s ++ ": " ++
   match k with
   | ErrSyntax => "invalid syntax"
   | ErrRange => "value out of range"
   end)%string.

Definition digit (c : ascii) : option Z :=
  let n := Z.of_N (N_of_ascii c) in
  if (48 <=? n) && (n <=? 57) then Some (n - 48) else None.

(** The digit loop of [ParseUint] in base 10: it stops at the first byte that
    is not a digit, and at the first overflow. *)
Fixpoint ParseUint_loop (s : string) (n : Z) : Z * option NumErr :=
  match s with
  | EmptyString => (n, None)
  | String c s' =>
      match digit c with
      | None => (0, Some ErrSyntax)
      | Some d =>
          if n >=? maxUint64 / 10 + 1 then (maxUint64, Some ErrRange)
          else
            let n1 := n * 10 + d in
            if n1 >? maxUint64 then (maxUint64, Some ErrRange)
            else ParseUint_loop s' n1
      end
  end.

Definition ParseUint (s : string) : Z * option NumErr :=
  match s with
  | EmptyString => (0, Some ErrSyntax)
  | _ => ParseUint_loop s 0
  end.

Definition ParseInt (s : string) : Z * option NumErr :=
  match s with
  | EmptyString => (0, Some ErrSyntax)
  | String c rest =>
      let neg := Ascii.eqb c "-" in
      let body := if Ascii.eqb c "+" || Ascii.eqb c "-" then rest else s in
      match ParseUint body with
      | (_, Some ErrSyntax) => (0, Some ErrSyntax)
      | (un, _) =>
          let cutoff := 9223372036854775808 in
          if negb neg && (un >=? cutoff) then (cutoff - 1, Some ErrRange)
          else if neg && (un >? cutoff) then (- cutoff, Some ErrRange)
          else (if neg then - un else un, None)
      end
  end.

Definition Atoi (s : string) : Z * option error :=
  match ParseInt s with
  | (n, None) => (n, None)
  | (n, Some k) => (n, Some (numError "Atoi" s k))
  end.

End strconv.

(** ** Package cmd: [IsRunning] and the stop command *)

Module cmd.

Inductive Signal := SIGINT | SIGTERM | SIGUSR1.

(** What the package asks of the operating system and of the absent helper
    packages [pkg/util/process] and [pkg/util/file]: each answer is a field. *)
Record OS := mkOS {
  FileHandle : Type;
  os_Open : string -> result FileHandle;
  io_ReadAll : FileHandle -> result string;
  (** [process.IsProcessRun(pid)]: does [pid] name a running process *)
  process_IsProcessRun : Z -> bool;
  (** [process.SendSignal(pid, sig)] *)
  process_SendSignal : Z -> Signal -> option error;
  (** [file.ChangeWorkPathToModulePath()] *)
  file_ChangeWorkPathToModulePath : option error
}.

(** [func IsRunning(pid *int, pidFilePath string) bool].  The pointer is
    [None] when nil and [Some v] when it points to an [int] holding [v]; the
    second component is the pointer's target after the call.  (The deferred
    [file.Close()] has no part in the result.) *)
Definition IsRunning (os : OS) (pid : option Z) (pidFilePath : string)
  : bool * option Z :=
  match pid with
  | None => (false, None)
  | Some v =>
      match os_Open os pidFilePath with
      | Err _ => (false, Some v)
      | Ok file =>
          match io_ReadAll os file with
          | Err _ => (false, Some v)
          | Ok pidStr =>
              match strconv.Atoi pidStr with
              | (n, Some _) => (false, Some n)
              | (n, None) => (process_IsProcessRun os n, Some n)
              end
          end
      end
  end.

(** What a command does to the outside: signals it asks to be sent and lines
    it prints on the standard error stream. *)
Inductive Effect :=
| CallSendSignal (pid : Z) (sig : Signal)
| Fprintf_Stderr (format : string) (err : error).

Record Command := mkCommand { Use : string }.

(** The signals a command asked to be sent, in order. *)
Definition signals (effs : list Effect) : list (Z * Signal) :=
  omap (fun e => match e with
                 | CallSendSignal pid sig => Some (pid, sig)
                 | Fprintf_Stderr _ _ => None
                 end) effs.

(** [func (u *unisysOperation) stop(cmd *cobra.Command) error] *)
Definition stop (os : OS) (cmd : Command) : option error * list Effect :=
  match file_ChangeWorkPathToModulePath os with
  | Some err => (Some err, [Fprintf_Stderr "[ERROR] %v\n" err])
  | None =>
      (* var pid int *)
      let pid := 0 in
      let '(running, pid') := IsRunning os (Some pid) config.PidFilePath in
      let pid := default pid pid' in
      if negb running then (None, [])
      else
        match process_SendSignal os pid SIGTERM with
        | Some err =>
            (Some err, [CallSendSignal pid SIGTERM; Fprintf_Stderr "[WARNING] %v\n" err])
        | None => (None, [CallSendSignal pid SIGTERM])
        end
  end.

End cmd.

(** ** Numbers of the resource metrics

    The metrics are Go [float64] values.  The collector stores, copies and
    compares them; the arithmetic on them belongs to package [resource].
    They are embedded as exact rationals: rounding, infinities and NaN are
    outside the embedding, and no statement below relies on a quotient whose
    denominator is zero. *)

Definition float64 := Q.
Bind Scope Q_scope with float64.

(** [int64(f)] for a [float64]: the fraction is discarded (truncation towards
    zero). *)
Definition int64_of_float64 (f : float64) : Z := Z.quot (Qnum f) (Z.pos (Qden f)).

(** ** Package pkg/util/resource

    The collector calls this package; its source is not part of the
    repository files at hand.  The counter records and the four rate
    computations follow section 4.3 and section 8 of the specification; the
    result record [NetworkTraffic] has the three fields the collector reads. *)

Module resource.

(** Modelled from the spec: the CPU counter snapshot of
    [resource.GetCPUStat], with the busy and total times that the CPU rate
    formula subtracts. *)
Record CPUStat := mkCPUStat { busyTime : N; totalTime : N }.

(** Modelled from the spec: the memory counters of [resource.GetMemStat]
    (total and available, as in the memory rate formula). *)
Record MemStat := mkMemStat { memTotal : N; memAvailable : N }.

(** Modelled from the spec: the disk counters of [resource.GetDiskStat]
    (total and free, as in the disk rate formula). *)
Record DiskStat := mkDiskStat { diskTotal : N; diskFree : N }.

(** Modelled from the spec: the per-interface byte counters returned by
    [resource.GetAllNetworkTraffic], inbound and outbound. *)
Record ByteCounters := mkByteCounters { bytesIn : N; bytesOut : N }.

(** [resource.NetworkTraffic]: the collector reads [Interface], [InboundBps]
    and [OutboundBps] of each entry. *)
Record NetworkTraffic := mkNetworkTraffic {
  Interface : string;
  InboundBps : float64;
  OutboundBps : float64
}.

Definition counter (n : N) : float64 := inject_Z (Z.of_N n).

(** Modelled from the spec: "clamped to [0,100]". *)
Definition clamp (x : float64) : float64 :=
  if Qle_bool x 0 then 0%Q else if Qle_bool 100 x then 100%Q else x.

(** Modelled from the spec: [resource.CalculateCPURate] is absent; "compute
    utilization as (busyTimeB - busyTimeA) / (totalTimeB - totalTimeA) x 100,
    clamped to [0,100]". *)
Definition CalculateCPURate (prev curr : CPUStat) : float64 :=
  clamp ((counter (busyTime curr) - counter (busyTime prev))
         / (counter (totalTime curr) - counter (totalTime prev)) * 100)%Q.

(** Modelled from the spec: [resource.CalculateMemRate] is absent;
    "utilization = (total - available) / total x 100". *)
Definition CalculateMemRate (m : MemStat) : float64 :=
  ((counter (memTotal m) - counter (memAvailable m)) / counter (memTotal m) * 100)%Q.

(** Modelled from the spec: [resource.CalculateDiskRate] is absent;
    "utilization = (total - free) / total x 100". *)
Definition CalculateDiskRate (d : DiskStat) : float64 :=
  ((counter (diskTotal d) - counter (diskFree d)) / counter (diskTotal d) * 100)%Q.

(** Modelled from the spec: one entry of the traffic list; "bitsPerSec =
    (bytesB - bytesA) x 8 / elapsedSeconds, separately for inbound and
    outbound". *)
Definition traffic (name : string) (a b : ByteCounters) (elapsed : float64)
  : NetworkTraffic :=
  {| Interface := name;
     InboundBps := ((counter (bytesIn b) - counter (bytesIn a)) * 8 / elapsed)%Q;
     OutboundBps := ((counter (bytesOut b) - counter (bytesOut a)) * 8 / elapsed)%Q |}.

(** Modelled from the spec: [resource.CalculateNetworkTraffic] is absent;
    "for each interface present in both snapshots ...; interfaces that
    disappear between samples are dropped from the result".  The order is
    that of the enumeration of the second snapshot; the spec names no failure
    of this computation, so the error of the signature is never raised. *)
Definition CalculateNetworkTraffic (prev current : gmap string ByteCounters)
    (intervalSec : float64) : result (list NetworkTraffic) :=
  Ok (omap (fun entry : string * ByteCounters =>
              match prev !! fst entry with
              | Some a => Some (traffic (fst entry) a (snd entry) intervalSec)
              | None => None
              end)
           (map_to_list current)).

End resource.

(** ** Package internal/resourcecollecter *)

Module resourcecollecter.

(** *** Slices and their backing arrays

    A Go slice is a window (offset, length, capacity) on a backing array that
    other slices may share; the nil slice has no array.  The heap maps the
    address of each backing array to its cells. *)

Definition loc := positive.

Inductive Slice :=
| NilSlice
| MkSlice (arr : loc) (off len cap : nat).

Definition slice_len (s : Slice) : nat :=
  match s with NilSlice => 0 | MkSlice _ _ len _ => len end.

Definition slice_cap (s : Slice) : nat :=
  match s with NilSlice => 0 | MkSlice _ _ _ cap => cap end.

Definition zeroTraffic : resource.NetworkTraffic :=
  {| resource.Interface := ""; resource.InboundBps := 0%Q;
     resource.OutboundBps := 0%Q |}.

(** The elements a slice shows in a heap. *)
Definition elems (h : gmap loc (list resource.NetworkTraffic)) (s : Slice)
  : list resource.NetworkTraffic :=
  match s with
  | NilSlice => []
  | MkSlice a off len _ => take len (drop off (default [] (h !! a)))
  end.

(** A new backing array at an address not in use. *)
Definition alloc (h : gmap loc (list resource.NetworkTraffic))
    (cells : list resource.NetworkTraffic)
  : gmap loc (list resource.NetworkTraffic) * loc :=
  let l := fresh (dom h) in (<[l := cells]> h, l).

(** The composite literal [[]resource.NetworkTraffic{}]: not nil, length and
    capacity 0.  (Go points every such slice at one zero-sized base, which
    cannot be written; a new empty array is indistinguishable.) *)
Definition empty_literal (h : gmap loc (list resource.NetworkTraffic))
  : gmap loc (list resource.NetworkTraffic) * Slice :=
  let '(h', l) := alloc h [] in (h', MkSlice l 0 0 0).

(** [Resource] as the source declares it. *)
Record Resource := mkResource {
  CPUUsageRate : float64;
  MemUsageRate : float64;
  DiskUsageRate : float64;
  NetworkTraffic : Slice
}.

(** The zero value of [var res Resource]. *)
Definition zeroResource : Resource :=
  {| CPUUsageRate := 0%Q; MemUsageRate := 0%Q; DiskUsageRate := 0%Q;
     NetworkTraffic := NilSlice |}.

(** The process memory the package works on: the backing arrays and the
    package variable [GlobalResource].  ([GlobalResMutex] serialises the two
    accessors; the embedding runs them one at a time.) *)
Record State := mkState {
  heap : gmap loc (list resource.NetworkTraffic);
  GlobalResource : Resource
}.

(** What a [Resource] holds in a heap, with the traffic list spelled out. *)
Record Snapshot := mkSnapshot {
  cpu : float64;
  mem : float64;
  disk : float64;
  net : list resource.NetworkTraffic
}.

Definition view (h : gmap loc (list resource.NetworkTraffic)) (r : Resource)
  : Snapshot :=
  {| cpu := CPUUsageRate r; mem := MemUsageRate r; disk := DiskUsageRate r;
     net := elems h (NetworkTraffic r) |}.

Definition initState : State := {| heap := ∅; GlobalResource := zeroResource |}.

Section runtime.

(** The capacity the Go runtime gives a slice that has to grow, from the old
    capacity and the length needed; the language leaves it to the runtime. *)
Variable growslice_cap : nat -> nat -> nat.

(** The builtin [append(s, vs...)]: in place when the capacity suffices, in
    a new array otherwise. *)
Definition append (h : gmap loc (list resource.NetworkTraffic)) (s : Slice)
    (vs : list resource.NetworkTraffic)
  : gmap loc (list resource.NetworkTraffic) * Slice :=
  let n := (slice_len s + length vs)%nat in
  if (n <=? slice_cap s)%nat then
    match s with
    | NilSlice => (h, NilSlice)
    | MkSlice a off len cap =>
        (alter (list_inserts (off + len) vs) a h, MkSlice a off n cap)
    end
  else
    let c := growslice_cap (slice_cap s) n in
    let '(h', l) := alloc h (elems h s ++ vs ++ replicate (c - n) zeroTraffic) in
    (h', MkSlice l 0 n c).

(** [func SetGlobalResource(r *Resource)], on the value [r] points to. *)
Definition SetGlobalResource (r : Resource) (st : State) : State :=
  let '(h1, e) := empty_literal (heap st) in
  let '(h2, s) := append h1 e (elems h1 (NetworkTraffic r)) in
  {| heap := h2;
     GlobalResource := {| CPUUsageRate := CPUUsageRate r;
                          MemUsageRate := MemUsageRate r;
                          DiskUsageRate := DiskUsageRate r;
                          NetworkTraffic := s |} |}.

(** [func GetGlobalResource() Resource] *)
Definition GetGlobalResource (st : State) : Resource * State :=
  let g := GlobalResource st in
  let '(h1, e) := empty_literal (heap st) in
  let '(h2, s) := append h1 e (elems h1 (NetworkTraffic g)) in
  ({| CPUUsageRate := CPUUsageRate g;
      MemUsageRate := MemUsageRate g;
      DiskUsageRate := DiskUsageRate g;
      NetworkTraffic := s |},
   {| heap := h2; GlobalResource := g |}).

(** *** What a holder of a [Resource] can do to it

    Field assignments, element assignment, [append], reslicing, and
    assignment of a slice literal or of nil to the traffic list, with Go's
    run-time checks: [None] is a panic, which leaves the memory as it was. *)
Inductive Mutation :=
| SetCPUUsageRate (v : float64)
| SetMemUsageRate (v : float64)
| SetDiskUsageRate (v : float64)
| SetElem (i : nat) (v : resource.NetworkTraffic)
| AppendElems (vs : list resource.NetworkTraffic)
| Reslice (lo hi : nat)
| SetLiteral (vs : list resource.NetworkTraffic)
| SetNil.

Definition with_traffic (s : Slice) (r : Resource) : Resource :=
  {| CPUUsageRate := CPUUsageRate r; MemUsageRate := MemUsageRate r;
     DiskUsageRate := DiskUsageRate r; NetworkTraffic := s |}.

Definition mutate (m : Mutation)
    (rh : Resource * gmap loc (list resource.NetworkTraffic))
  : option (Resource * gmap loc (list resource.NetworkTraffic)) :=
  let '(r, h) := rh in
  match m with
  | SetCPUUsageRate v =>
      Some ({| CPUUsageRate := v; MemUsageRate := MemUsageRate r;
               DiskUsageRate := DiskUsageRate r;
               NetworkTraffic := NetworkTraffic r |}, h)
  | SetMemUsageRate v =>
      Some ({| CPUUsageRate := CPUUsageRate r; MemUsageRate := v;
               DiskUsageRate := DiskUsageRate r;
               NetworkTraffic := NetworkTraffic r |}, h)
  | SetDiskUsageRate v =>
      Some ({| CPUUsageRate := CPUUsageRate r; MemUsageRate := MemUsageRate r;
               DiskUsageRate := v;
               NetworkTraffic := NetworkTraffic r |}, h)
  | SetElem i v =>
      match NetworkTraffic r with
      | NilSlice => None
      | MkSlice a off len cap =>
          if (i <? len)%nat
          then Some (r, alter (fun cells => <[(off + i)%nat := v]> cells) a h)
          else None
      end
  | AppendElems vs =>
      let '(h', s) := append h (NetworkTraffic r) vs in
      Some (with_traffic s r, h')
  | Reslice lo hi =>
      if (lo <=? hi)%nat && (hi <=? slice_cap (NetworkTraffic r))%nat then
        match NetworkTraffic r with
        | NilSlice => Some (r, h)
        | MkSlice a off len cap =>
            Some (with_traffic (MkSlice a (off + lo) (hi - lo) (cap - lo)) r, h)
        end
      else None
  | SetLiteral vs =>
      let '(h', a) := alloc h vs in
      Some (with_traffic (MkSlice a 0 (length vs) (length vs)) r, h')
  | SetNil => Some (with_traffic NilSlice r, h)
  end.

(** *** Holders of snapshots

    The party that published and the readers that called [GetGlobalResource]
    each hold a [Resource] of their own and may mutate it at any time, in any
    order; [Share who from] assigns the traffic list of holder [from] to that
    of holder [who], after which the two share a backing array; [Read] is one
    more call of [GetGlobalResource], whose result becomes a new holder's
    value.  A mutation that panics, or that names a holder that does not
    exist, changes nothing. *)
Record World := mkWorld {
  store : State;
  holders : list Resource
}.

Inductive Action :=
| Mutate (who : nat) (m : Mutation)
| Share (who from : nat)
| Read.

Definition act (w : World) (a : Action) : World :=
  match a with
  | Read =>
      let '(c, st') := GetGlobalResource (store w) in
      {| store := st'; holders := holders w ++ [c] |}
  | Share who from =>
      match holders w !! who, holders w !! from with
      | Some r, Some r0 =>
          {| store := store w;
             holders := <[who := with_traffic (NetworkTraffic r0) r]> (holders w) |}
      | _, _ => w
      end
  | Mutate who m =>
      match holders w !! who with
      | None => w
      | Some r =>
          match mutate m (r, heap (store w)) with
          | None => w
          | Some (r', h') =>
              {| store := {| heap := h'; GlobalResource := GlobalResource (store w) |};
                 holders := <[who := r']> (holders w) |}
          end
      end
  end.

Definition acts (w : World) (l : list Action) : World := foldl act w l.

End runtime.

(** *** The four samplers

    Each sampler reads operating-system counters through package [resource];
    the answers of one Collection Cycle are its [Readings].  A sampler
    returns its value, its error, and the calls it made, in order. *)

Record Readings := mkReadings {
  cpuStat1 : result resource.CPUStat;
  cpuStat2 : result resource.CPUStat;
  memStat : result resource.MemStat;
  diskStat : string -> result resource.DiskStat;
  netTraffic1 : result (gmap string resource.ByteCounters);
  netTraffic2 : result (gmap string resource.ByteCounters)
}.

Inductive Call :=
| GetCPUStat
| GetMemStat
| GetDiskStat (path : string)
| GetAllNetworkTraffic
| Sleep (d : Duration)
| LogWarn (format : string) (err : error).

(** [func (rc *ResourceCollecter) getCPUUsageRate() (float64, error)] *)
Definition getCPUUsageRate (rd : Readings) : (float64 * option error) * list Call :=
  match cpuStat1 rd with
  | Err err => ((0%Q, Some err), [GetCPUStat])
  | Ok prevStat =>
      match cpuStat2 rd with
      | Err err => ((0%Q, Some err), [GetCPUStat; Sleep (1 * Second); GetCPUStat])
      | Ok currStat =>
          ((resource.CalculateCPURate prevStat currStat, None),
           [GetCPUStat; Sleep (1 * Second); GetCPUStat])
      end
  end.

(** [func (rc *ResourceCollecter) getMemUsageRate() (float64, error)] *)
Definition getMemUsageRate (rd : Readings) : (float64 * option error) * list Call :=
  match memStat rd with
  | Err err => ((0%Q, Some err), [GetMemStat])
  | Ok memStat => ((resource.CalculateMemRate memStat, None), [GetMemStat])
  end.

(** [func (rc *ResourceCollecter) getDiskUsageRate() (float64, error)] *)
Definition getDiskUsageRate (rd : Readings) : (float64 * option error) * list Call :=
  match diskStat rd "/" with
  | Err err => ((0%Q, Some err), [GetDiskStat "/"])
  | Ok diskStat => ((resource.CalculateDiskRate diskStat, None), [GetDiskStat "/"])
  end.

(** [func (rc *ResourceCollecter) getNetworkTraffic() ([]resource.NetworkTraffic, error)];
    the returned slice is given by its elements, [None] being the nil slice. *)
Definition getNetworkTraffic (rd : Readings)
  : (option (list resource.NetworkTraffic) * option error) * list Call :=
  match netTraffic1 rd with
  | Err err => ((None, Some err), [GetAllNetworkTraffic])
  | Ok prev =>
      let intervalSec : float64 := 1%Q in
      let calls := [GetAllNetworkTraffic;
                    Sleep (int64_of_float64 intervalSec * Second);
                    GetAllNetworkTraffic] in
      match netTraffic2 rd with
      | Err err => ((None, Some err), calls)
      | Ok current =>
          match resource.CalculateNetworkTraffic prev current intervalSec with
          | Err err => ((None, Some err), calls)
          | Ok trafficList => ((Some trafficList, None), calls)
          end
      end
  end.

(** *** The collection loop *)

Inductive Sampler := CPU | Mem | Disk | Net.

(** The error a sampler returned in a cycle, and the value it returned (the
    nil slice shows no elements). *)
Definition sampler_error (s : Sampler) (rd : Readings) : option error :=
  match s with
  | CPU => snd (fst (getCPUUsageRate rd))
  | Mem => snd (fst (getMemUsageRate rd))
  | Disk => snd (fst (getDiskUsageRate rd))
  | Net => snd (fst (getNetworkTraffic rd))
  end.

Inductive FieldValue :=
| Rate (v : float64)
| Traffic (l : list resource.NetworkTraffic).

Definition sampler_value (s : Sampler) (rd : Readings) : FieldValue :=
  match s with
  | CPU => Rate (fst (fst (getCPUUsageRate rd)))
  | Mem => Rate (fst (fst (getMemUsageRate rd)))
  | Disk => Rate (fst (fst (getDiskUsageRate rd)))
  | Net => Traffic (default [] (fst (fst (getNetworkTraffic rd))))
  end.

(** The samplers that failed in a cycle. *)
Definition failures (rd : Readings) : list Sampler :=
  List.filter (fun s => match sampler_error s rd with Some _ => true | None => false end)
    [CPU; Mem; Disk; Net].

Inductive LogArg :=
| ArgFloat (f : float64)
| ArgString (s : string).

(** What the loop does, in program order.  [Go s calls] is the goroutine of
    sampler [s] with the calls it made; the four goroutines of a cycle run
    concurrently, write four different fields of [res] and are joined by
    [wg.Wait()], so they are listed in launch order and the interleaving of
    their calls is not recorded. *)
Inductive Event :=
| WaitCancelWithTimeout (timeout : Duration)
| Go (s : Sampler) (calls : list Call)
| WgWait
| Publish (snap : Snapshot)
| LogDebug (format : string) (args : list LogArg).

(** Modelled from the spec: the outcome type of
    [goroutine.WaitCancelWithTimeout] is declared in the absent package
    [pkg/util/goroutine]; the source names [WaitTimeout], the spec describes
    a "tri-state return (timeout/cancel/error)". *)
Inductive WaitResult := WaitTimeout | WaitCancel | WaitError.

(** How a run over a finite script of answers ends: the function returned,
    or it is blocked in a wait the script does not answer. *)
Inductive Status := Returned | Waiting.

Definition warn (format : string) (err : option error) : list Call :=
  match err with
  | Some e => [LogWarn format e]
  | None => []
  end.

Definition debug_lines (snap : Snapshot) : list Event :=
  [LogDebug "CPU Usage Rate: %.2f%%" [ArgFloat (cpu snap)];
   LogDebug "Memory Usage Rate: %.2f%%" [ArgFloat (mem snap)];
   LogDebug "Disk Usage Rate: %.2f%%" [ArgFloat (disk snap)]]
  ++ map (fun t : resource.NetworkTraffic =>
            LogDebug "Network Traffic - Interface: %s, InboundBps: %.2fbps, OutboundBps: %.2fbps"
              [ArgString (resource.Interface t);
               ArgFloat (resource.InboundBps t);
               ArgFloat (resource.OutboundBps t)])
         (net snap).

(** The slice a call into package [resource] hands back: nil, or a window on
    a new array holding exactly the elements. *)
Definition returned_slice (h : gmap loc (list resource.NetworkTraffic))
    (l : option (list resource.NetworkTraffic))
  : gmap loc (list resource.NetworkTraffic) * Slice :=
  match l with
  | None => (h, NilSlice)
  | Some cells =>
      let '(h', a) := alloc h cells in
      (h', MkSlice a 0 (length cells) (length cells))
  end.

Section loop.

Variable growslice_cap : nat -> nat -> nat.

(** The body of the [for] loop of [CollectResource]: one Collection Cycle.
    The four goroutines each assign one field of [res]; [wg.Wait()] joins
    them before [res] is read. *)
Definition cycle (rd : Readings) (debug : bool) (st : State) : list Event * State :=
  (* var res Resource *)
  let res := zeroResource in
  let '((v, err), calls_cpu) := getCPUUsageRate rd in
  let calls_cpu := calls_cpu ++ warn "failed to get CPU usage rate: %v" err in
  let res := {| CPUUsageRate := v; MemUsageRate := MemUsageRate res;
                DiskUsageRate := DiskUsageRate res;
                NetworkTraffic := NetworkTraffic res |} in
  let '((v, err), calls_mem) := getMemUsageRate rd in
  let calls_mem := calls_mem ++ warn "failed to get memory usage rate: %v" err in
  let res := {| CPUUsageRate := CPUUsageRate res; MemUsageRate := v;
                DiskUsageRate := DiskUsageRate res;
                NetworkTraffic := NetworkTraffic res |} in
  let '((v, err), calls_disk) := getDiskUsageRate rd in
  let calls_disk := calls_disk ++ warn "failed to get disk usage rate: %v" err in
  let res := {| CPUUsageRate := CPUUsageRate res; MemUsageRate := MemUsageRate res;
                DiskUsageRate := v;
                NetworkTraffic := NetworkTraffic res |} in
  let '((l, err), calls_net) := getNetworkTraffic rd in
  let calls_net := calls_net ++ warn "failed to get network traffic: %v" err in
  let '(h, s) := returned_slice (heap st) l in
  let res := with_traffic s res in
  (* wg.Wait(); SetGlobalResource(&res) *)
  let st' := SetGlobalResource growslice_cap res
               {| heap := h; GlobalResource := GlobalResource st |} in
  ([Go CPU calls_cpu; Go Mem calls_mem; Go Disk calls_disk; Go Net calls_net;
    WgWait; Publish (view h res)]
   ++ (if debug then debug_lines (view h res) else []),
   st').

(** [for goroutine.WaitTimeout == goroutine.WaitCancelWithTimeout(ctx, timeout) { ... }]
    on a script that gives, for each wait, its outcome and the readings of
    the cycle that follows it. *)
Fixpoint loop (script : list (WaitResult * Readings)) (debug : bool)
    (timeout : Duration) (st : State) : Status * list Event * State :=
  match script with
  | [] => (Waiting, [WaitCancelWithTimeout timeout], st)
  | (WaitTimeout, rd) :: rest =>
      let timeout' := 3 * Second in
      let '(evs, st') := cycle rd debug st in
      let '(status, evs', st'') := loop rest debug timeout' st' in
      (status, WaitCancelWithTimeout timeout :: evs ++ evs', st'')
  | (_, _) :: _ => (Returned, [WaitCancelWithTimeout timeout], st)
  end.

(** [func (rc *ResourceCollecter) CollectResource(ctx context.Context)];
    [debug] is [config.RunConf.DebugMode]. *)
Definition CollectResource (script : list (WaitResult * Readings)) (debug : bool)
    (st : State) : Status * list Event * State :=
  let timeout : Duration := 0 in
  loop script debug timeout st.

End loop.

(** The snapshot a reader of the store sees. *)
Definition published (st : State) : Snapshot := view (heap st) (GlobalResource st).

(** The snapshot that one cycle assembles from what its samplers return. *)
Definition assembled (rd : Readings) : Snapshot :=
  {| cpu := fst (fst (getCPUUsageRate rd));
     mem := fst (fst (getMemUsageRate rd));
     disk := fst (fst (getDiskUsageRate rd));
     net := default [] (fst (fst (getNetworkTraffic rd))) |}.

(** The field of a snapshot that a sampler fills, and its zero value. *)
Definition field (s : Sampler) (p : Snapshot) : FieldValue :=
  match s with
  | CPU => Rate (cpu p)
  | Mem => Rate (mem p)
  | Disk => Rate (disk p)
  | Net => Traffic (net p)
  end.

(** A slice that does not look at the array at address [g]. *)
Definition apart (g : loc) (s : Slice) : Prop :=
  match s with
  | NilSlice => True
  | MkSlice a _ _ _ => a <> g
  end.

(** What every action of any holder preserves, for a store whose traffic
    list lives at [g]: the package variable, the array at [g], and the
    distance of every holder from it. *)
Definition isolated (G : Resource) (g : loc) (cells : list resource.NetworkTraffic)
    (w : World) : Prop :=
  GlobalResource (store w) = G
  /\ heap (store w) !! g = Some cells
  /\ Forall (fun r => apart g (NetworkTraffic r)) (holders w).

Definition zero_field (s : Sampler) : FieldValue :=
  match s with
  | Net => Traffic []
  | _ => Rate 0%Q
  end.

(** A slice that points into the heap, as every slice of a running program
    does. *)
Definition allocated (h : gmap loc (list resource.NetworkTraffic)) (s : Slice) : Prop :=
  match s with
  | NilSlice => True
  | MkSlice a _ _ _ => a ∈ dom h
  end.

(** The timeouts handed to the successive waits of a run. *)
Definition waits (tr : list Event) : list Duration :=
  omap (fun e => match e with WaitCancelWithTimeout d => Some d | _ => None end) tr.

(** The number of snapshots a run published. *)
Definition is_publish (e : Event) : bool :=
  match e with Publish _ => true | _ => false end.

Definition publishes (tr : list Event) : nat :=
  length (List.filter is_publish tr).

End resourcecollecter.

(** ** Runs of the collector: what they are measured by *)

Module collecting.

(** A heap that keeps every array of another, cell for cell. *)
Definition extends (h h' : gmap resourcecollecter.loc (list resource.NetworkTraffic))
  : Prop :=
  forall a, a ∈ dom h -> h' !! a = h !! a /\ a ∈ dom h'.

(** A store whose traffic list points into its heap. *)
Definition store_ok (st : resourcecollecter.State) : Prop :=
  resourcecollecter.allocated (resourcecollecter.heap st)
    (resourcecollecter.NetworkTraffic (resourcecollecter.GlobalResource st)).

(** The readings of the cycles that a script lets run: those that come with
    the waits that timed out, up to the first wait that did not. *)
Fixpoint cycles_run (script : list (resourcecollecter.WaitResult * resourcecollecter.Readings))
  : list resourcecollecter.Readings :=
  match script with
  | (resourcecollecter.WaitTimeout, rd) :: rest => rd :: cycles_run rest
  | _ => []
  end.

(** The calls of the goroutine that [CollectResource] launches for a
    sampler: those of the sampler, then the warning if it failed. *)
Definition go_calls (s : resourcecollecter.Sampler) (rd : resourcecollecter.Readings)
  : list resourcecollecter.Call :=
  match s with
  | resourcecollecter.CPU =>
      snd (resourcecollecter.getCPUUsageRate rd)
      ++ resourcecollecter.warn "failed to get CPU usage rate: %v"
           (snd (fst (resourcecollecter.getCPUUsageRate rd)))
  | resourcecollecter.Mem =>
      snd (resourcecollecter.getMemUsageRate rd)
      ++ resourcecollecter.warn "failed to get memory usage rate: %v"
           (snd (fst (resourcecollecter.getMemUsageRate rd)))
  | resourcecollecter.Disk =>
      snd (resourcecollecter.getDiskUsageRate rd)
      ++ resourcecollecter.warn "failed to get disk usage rate: %v"
           (snd (fst (resourcecollecter.getDiskUsageRate rd)))
  | resourcecollecter.Net =>
      snd (resourcecollecter.getNetworkTraffic rd)
      ++ resourcecollecter.warn "failed to get network traffic: %v"
           (snd (fst (resourcecollecter.getNetworkTraffic rd)))
  end.

(** The events of one cycle, from its readings. *)
Definition cycle_trace (rd : resourcecollecter.Readings) (debug : bool)
  : list resourcecollecter.Event :=
  [resourcecollecter.Go resourcecollecter.CPU (go_calls resourcecollecter.CPU rd);
   resourcecollecter.Go resourcecollecter.Mem (go_calls resourcecollecter.Mem rd);
   resourcecollecter.Go resourcecollecter.Disk (go_calls resourcecollecter.Disk rd);
   resourcecollecter.Go resourcecollecter.Net (go_calls resourcecollecter.Net rd);
   resourcecollecter.WgWait;
   resourcecollecter.Publish (resourcecollecter.assembled rd)]
  ++ (if debug then resourcecollecter.debug_lines (resourcecollecter.assembled rd)
      else []).

(** The order of events that the loop follows, as an automaton: a wait,
    then the four launches in the order CPU, memory, disk, network, the join,
    the publication, any number of debug lines, and the next wait. *)
Inductive Phase :=
| Idle
| Waited
| LaunchedCPU
| LaunchedMem
| LaunchedDisk
| LaunchedNet
| Joined
| Published.

Definition step (p : Phase) (e : resourcecollecter.Event) : option Phase :=
  match p, e with
  | Idle, resourcecollecter.WaitCancelWithTimeout _ => Some Waited
  | Waited, resourcecollecter.Go resourcecollecter.CPU _ => Some LaunchedCPU
  | LaunchedCPU, resourcecollecter.Go resourcecollecter.Mem _ => Some LaunchedMem
  | LaunchedMem, resourcecollecter.Go resourcecollecter.Disk _ => Some LaunchedDisk
  | LaunchedDisk, resourcecollecter.Go resourcecollecter.Net _ => Some LaunchedNet
  | LaunchedNet, resourcecollecter.WgWait => Some Joined
  | Joined, resourcecollecter.Publish _ => Some Published
  | Published, resourcecollecter.LogDebug _ _ => Some Published
  | Published, resourcecollecter.WaitCancelWithTimeout _ => Some Waited
  | _, _ => None
  end.

Fixpoint steps (p : Phase) (tr : list resourcecollecter.Event) : option Phase :=
  match tr with
  | [] => Some p
  | e :: tr' =>
      match step p e with
      | Some p' => steps p' tr'
      | None => None
      end
  end.

Definition is_warn (c : resourcecollecter.Call) : bool :=
  match c with resourcecollecter.LogWarn _ _ => true | _ => false end.

(** The number of warnings logged in a trace. *)
Fixpoint warnings (tr : list resourcecollecter.Event) : nat :=
  match tr with
  | [] => 0
  | resourcecollecter.Go _ calls :: tr' =>
      (length (List.filter is_warn calls) + warnings tr')%nat
  | _ :: tr' => warnings tr'
  end.

Definition is_debug (e : resourcecollecter.Event) : bool :=
  match e with resourcecollecter.LogDebug _ _ => true | _ => false end.

(** The snapshots published in a trace, in order. *)
Definition publications (tr : list resourcecollecter.Event)
  : list resourcecollecter.Snapshot :=
  omap (fun e => match e with resourcecollecter.Publish p => Some p | _ => None end) tr.

(** The goroutines launched in a trace, in order, each with its calls. *)
Definition launched (tr : list resourcecollecter.Event)
  : list (resourcecollecter.Sampler * list resourcecollecter.Call) :=
  omap (fun e => match e with resourcecollecter.Go s calls => Some (s, calls) | _ => None end)
       tr.

(** The events of the rounds that follow the first wait of a run: for the
    readings of each cycle, the events of the cycle and the wait after it. *)
Definition rounds (rds : list resourcecollecter.Readings) (debug : bool)
  : list resourcecollecter.Event :=
  List.flat_map
    (fun rd => cycle_trace rd debug
               ++ [resourcecollecter.WaitCancelWithTimeout (3 * Second)])
    rds.

(** The store after [n] further calls of [GetGlobalResource]. *)
Fixpoint after_reads (growslice_cap : nat -> nat -> nat) (n : nat)
    (st : resourcecollecter.State) : resourcecollecter.State :=
  match n with
  | O => st
  | S n' =>
      after_reads growslice_cap n'
        (snd (resourcecollecter.GetGlobalResource growslice_cap st))
  end.

End collecting.

(** ** Package config, continued: what the range checks amount to *)

Module config_checks.

(** The five numbers of a configuration within their ranges. *)
Definition in_range (c : config.Config) : Prop :=
  0 <= config.Port (config.Server c) <= 65535
  /\ 0 <= config.ShutdownTimeout (config.Server c) <= 20
  /\ 1 <= config.MaxLogFileSize (config.Log c) <= 1000
  /\ 1 <= config.MaxLogFileBackup (config.Log c) <= 100
  /\ 1 <= config.MaxLogFileAge (config.Log c) <= 365.

(** A configuration with each of the five numbers replaced by its default
    where it is out of range, and everything else as it is. *)
Definition clamp_to_defaults (c : config.Config) : config.Config :=
  {| config.Server :=
       {| config.Port := config.checked 0 65535 8443 (config.Port (config.Server c));
          config.ShutdownTimeout :=
            config.checked 0 20 5 (config.ShutdownTimeout (config.Server c));
          config.TLSEnabled := config.TLSEnabled (config.Server c);
          config.TLSCertificateFile := config.TLSCertificateFile (config.Server c);
          config.TLSPrivateKeyFile := config.TLSPrivateKeyFile (config.Server c);
          config.AutoTLS := config.AutoTLS (config.Server c) |};
     config.API := config.API c;
     config.Log :=
       {| config.MaxLogFileSize :=
            config.checked 1 1000 100 (config.MaxLogFileSize (config.Log c));
          config.MaxLogFileBackup :=
            config.checked 1 100 10 (config.MaxLogFileBackup (config.Log c));
          config.MaxLogFileAge :=
            config.checked 1 365 90 (config.MaxLogFileAge (config.Log c));
          config.CompBakLogFile := config.CompBakLogFile (config.Log c) |} |}.

End config_checks.

(** ** Package cmd, continued: the start command (cmd/operation.go) *)

Module operation.

(** The shape of a PID file that [strconv.Atoi] can accept: an optional
    sign, then decimal digits and nothing else. *)
Fixpoint digits_only (s : string) : bool :=
  match s with
  | EmptyString => true
  | String c s' =>
      match strconv.digit c with
      | Some _ => digits_only s'
      | None => false
      end
  end.

Definition integer_syntax (s : string) : bool :=
  match s with
  | EmptyString => false
  | String c rest =>
      let body := if Ascii.eqb c "+" || Ascii.eqb c "-" then rest else s in
      match body with
      | EmptyString => false
      | _ => digits_only body
      end
  end.

(** What [start] asks of the outside, beyond what [IsRunning] and [stop]
    ask: the configuration file, [process.DaemonizeProcess], [os.Getpid],
    [file.WriteDataToTextFile], and the signal that arrives on the channel of
    [SetupSignal], if one ever does. *)
Record Host := mkHost {
  os : cmd.OS;
  env : config.Env;
  process_DaemonizeProcess : option error;
  os_Getpid : Z;
  file_WriteDataToTextFile : string -> Z -> bool -> option error;
  sigChan : option cmd.Signal
}.

(** The package variables of [config] that the command reads and writes. *)
Record Globals := mkGlobals {
  Conf : config.Config;
  RunConf : config.RunConfig
}.

Inductive Arg :=
| ArgString (s : string)
| ArgInt (z : Z)
| ArgSignal (sig : cmd.Signal)
| ArgError (e : error).

Inductive Event :=
| Fprintf_Stderr (format : string) (err : error)
| Fprintf_Stdout (format : string) (pid : Z)
| DaemonizeProcess
| WriteDataToTextFile (path : string) (data : Z) (flag : bool)
| DiscardStdStreams
| SetupSignal
| SignalStop
| NewGoroutineManager
| SetPanicHandler
| LoadConfig (filePath : string) (err : option error)
| InitializeLogger
| AddTask (name : string)
| LogInfo (format : string) (args : list Arg)
| LogError (format : string) (args : list Arg)
| StartAll
| Receive (sig : cmd.Signal)
| StopAll (timeout : Duration)
| FinalizeLogger
| SendSignal (pid : Z) (sig : cmd.Signal).

(** How a command ends: it returns its error, or it stays blocked on the
    signal channel. *)
Inductive Outcome :=
| Returns (err : option error)
| Blocked.

(** [func (u *unisysOperation) initialization(gm *goroutine.GoroutineManager)]:
    the error of [LoadConfig] is dropped. *)
Definition initialization (host : Host) (g : Globals) : Globals * list Event :=
  let '((Conf', _), err) :=
    config.LoadConfig (env host) config.RecvConf config.ConfFilePath (Conf g) in
  ({| Conf := Conf'; RunConf := RunConf g |},
   [LoadConfig config.ConfFilePath err; InitializeLogger; AddTask "server"]).

(** [func (u *unisysOperation) finalization(gm *goroutine.GoroutineManager)] *)
Definition finalization : list Event :=
  [StopAll (10 * Second); FinalizeLogger].

(** [func (u *unisysOperation) panicHandler(panicErr interface{})]; the
    result of [process.SendSignal] is dropped. *)
Definition panicHandler (g : Globals) (panicErr : error) : list Event :=
  [LogError "panic occurred: %v" [ArgError panicErr];
   SendSignal (config.Pid (RunConf g)) cmd.SIGUSR1].

(** [config.ModuleName] *)
Definition ModuleName : string := "unisys".

Definition mode_name (g : Globals) : string :=
  if config.DebugMode (RunConf g) then "debug" else "normal".

(** [func (u *unisysOperation) start(cmd *cobra.Command) error].  The two
    deferred calls run when the function returns, last registered first:
    [u.finalization(gm)], then [signal.Stop(sigChan)]. *)
Definition start (host : Host) (c : cmd.Command) (g : Globals)
  : Outcome * Globals * list Event :=
  match cmd.file_ChangeWorkPathToModulePath (os host) with
  | Some err => (Returns (Some err), g, [Fprintf_Stderr "[ERROR] %v\n" err])
  | None =>
      (* var pid int *)
      let '(running, pid') := cmd.IsRunning (os host) (Some 0) config.PidFilePath in
      let pid := default 0 pid' in
      if running then
        (Returns None, g,
         [Fprintf_Stdout "[INFO] there is already a process in operation (pid:%d)\n" pid])
      else
        match process_DaemonizeProcess host with
        | Some err =>
            (Returns (Some err), g,
             [DaemonizeProcess; Fprintf_Stderr "[ERROR] %v\n" err])
        | None =>
            let g1 := {| Conf := Conf g;
                         RunConf := {| config.DebugMode := config.DebugMode (RunConf g);
                                       config.Pid := os_Getpid host |} |} in
            let written :=
              WriteDataToTextFile config.PidFilePath (config.Pid (RunConf g1)) true in
            match file_WriteDataToTextFile host config.PidFilePath
                    (config.Pid (RunConf g1)) true with
            | Some err =>
                (Returns (Some err), g1,
                 [DaemonizeProcess; written; Fprintf_Stderr "[ERROR] %v\n" err])
            | None =>
                let '(g2, mode) :=
                  if String.eqb (cmd.Use c) "debug"
                  then ({| Conf := Conf g1;
                           RunConf := {| config.DebugMode := true;
                                         config.Pid := config.Pid (RunConf g1) |} |},
                        [])
                  else (g1, [DiscardStdStreams]) in
                let '(g3, init) := initialization host g2 in
                let started :=
                  [DaemonizeProcess; written] ++ mode
                  ++ [SetupSignal; NewGoroutineManager; SetPanicHandler]
                  ++ init
                  ++ [LogInfo "start %s (pid:%d, mode:%s)"
                        [ArgString ModuleName; ArgInt (config.Pid (RunConf g3));
                         ArgString (mode_name g3)];
                      StartAll] in
                match sigChan host with
                | None => (Blocked, g3, started)
                | Some sig =>
                    (Returns None, g3,
                     started
                     ++ [Receive sig;
                         LogInfo "received %s (signum:%d)" [ArgSignal sig; ArgSignal sig]]
                     ++ finalization ++ [SignalStop])
                end
            end
        end
  end.



Definition is_StartAll (e : Event) : bool :=
  match e with StartAll => true | _ => false end.

Definition is_DaemonizeProcess (e : Event) : bool :=
  match e with DaemonizeProcess => true | _ => false end.

(** The events by which [start] brings the daemon up. *)
Definition brings_up (e : Event) : bool :=
  match e with
  | LoadConfig _ _ | InitializeLogger | AddTask _ | StartAll
  | SetupSignal | NewGoroutineManager | SetPanicHandler => true
  | _ => false
  end.

End operation.

(** ** Package internal/server: [Run] and the logging middleware *)

Module server.

(** The gin engine that [newGinRouterEngine] builds: its mode, its
    middlewares in the order of the [Use] calls, and its routes in the order
    of the [GET] calls (path and handler name). *)
Inductive Middleware := GinLogger | GinRecovery | Version.

Record Engine := mkEngine {
  Mode : string;
  Middlewares : list Middleware;
  Routes : list (string * string)
}.

(** A value, or the value of the panic that ended the computation. *)
Inductive may_panic (A : Type) : Type :=
| Value (a : A)
| Panic (v : error).
Arguments Value {A} a.
Arguments Panic {A} v.

(** The TLS configuration of the server: none, certificates obtained by
    autocert for a host and kept in a directory, or a key pair loaded from
    two files, with the minimal version and protocols set beside it. *)
Inductive TLSSetup :=
| NoTLS
| AutoCert (host certPath : string)
| KeyPair (certFile keyFile : string) (minVersion : string) (nextProtos : list string).

Record HTTPServer := mkHTTPServer {
  Handler : Engine;
  Addr : string;
  ReadTimeout : Duration;
  WriteTimeout : Duration;
  MaxHeaderBytes : Z;
  TLSConfig : TLSSetup
}.

(** What [ListenAndServe] and [ListenAndServeTLS] return. *)
Inductive ListenResult :=
| ListenNil
| ErrServerClosed
| ListenError (e : error).

(** What [Run] asks of the outside: what gin does with the registration of
    a path, given the routes registered before it (it adds the route, or
    panics, as it does on a path that collides with a registered one); the
    loading of the key pair; the result of listening; whether the context is
    ever cancelled; and the result of [server.Shutdown] under a timeout. *)
Record Env := mkEnv {
  gin_GET : list (string * string) -> string -> option error;
  tls_LoadX509KeyPair : string -> string -> option error;
  listen : ListenResult;
  ctx_Done : bool;
  server_Shutdown : Duration -> option error
}.

(** [r.GET(path, handler)] on a router that has come so far. *)
Definition GET (env : Env) (r : may_panic (list (string * string)))
    (path handler : string) : may_panic (list (string * string)) :=
  match r with
  | Panic v => Panic v
  | Value routes =>
      match gin_GET env routes path with
      | Some v => Panic v
      | None => Value (routes ++ [(path, handler)])
      end
  end.

(** [func (s *Server) newGinRouterEngine() *gin.Engine]: the mode, the three
    middlewares, and the four routes, registered one after the other. *)
Definition newGinRouterEngine (env : Env) (Conf : config.Config)
    (RunConf : config.RunConfig) : may_panic Engine :=
  let mode : string := if config.DebugMode RunConf then "debug" else "release" in
  let r := Value [] in
  let r := GET env r (config.MetricURI (config.API Conf)) "metricsHandler" in
  let r := GET env r (config.HealthURI (config.API Conf)) "healthHandler" in
  let r := GET env r "/version" "versionHandler" in
  let r := GET env r "/" "rootHandler" in
  match r with
  | Panic v => Panic v
  | Value routes =>
      Value {| Mode := mode;
               Middlewares := [GinLogger; GinRecovery; Version];
               Routes := routes |}
  end.

Inductive Arg :=
| ArgString (s : string)
| ArgInt (z : Z)
| ArgError (e : error).

(** What the listening goroutine does. *)
Inductive Call :=
| ListenAndServeTLS (certFile keyFile : string)
| ListenAndServe
| GoLogError (format : string) (args : list Arg)
| GoSendSignal (pid : Z) (sig : cmd.Signal).

Inductive Event :=
| LogError (format : string) (args : list Arg)
| LogWarn (format : string) (args : list Arg)
| LogInfo (format : string) (args : list Arg)
| SendSignal (pid : Z) (sig : cmd.Signal)
| Go (srv : HTTPServer) (calls : list Call)
| CtxDone
| Shutdown (timeout : Duration).

Inductive Outcome :=
| Returned
| Blocked
| Panicked (v : error).

(** The value of a 64-bit signed integer after an operation that wraps. *)
Definition wrap64 (z : Z) : Z := (z + 2 ^ 63) mod 2 ^ 64 - 2 ^ 63.

(** The goroutine that serves: it reports an error other than
    [http.ErrServerClosed] and asks for SIGUSR1. *)
Definition serving (env : Env) (RunConf : config.RunConfig) (isTLS : bool)
  : list Call :=
  (if isTLS then ListenAndServeTLS "" "" else ListenAndServe)
  :: match listen env with
     | ListenError e =>
         [GoLogError "server error occurred: %v" [ArgError e];
          GoSendSignal (config.Pid RunConf) cmd.SIGUSR1]
     | _ => []
     end.

(** The end of [Run], from the launch of the serving goroutine on. *)
Definition serve (env : Env) (Conf : config.Config) (RunConf : config.RunConfig)
    (srv : HTTPServer) (isTLS : bool) (port : Z) : Outcome * list Event :=
  let launched :=
    [Go srv (serving env RunConf isTLS);
     LogInfo "server listening on port %d" [ArgInt port]] in
  if ctx_Done env then
    let timeout : Duration :=
      wrap64 (config.ShutdownTimeout (config.Server Conf) * Second) in
    match server_Shutdown env timeout with
    | Some err =>
        (Returned,
         launched ++ [CtxDone; Shutdown timeout;
                      LogWarn "server shutdown: %v" [ArgError err]])
    | None =>
        (Returned,
         launched ++ [CtxDone; Shutdown timeout;
                      LogInfo "server shutdown on port %d" [ArgInt port]])
    end
  else (Blocked, launched).

(** [func (s *Server) Run(ctx context.Context)]; [strconv.Itoa] is the
    decimal rendering [pretty].  The engine is built first, in the literal
    of the server: a panic of gin there ends [Run] before anything else. *)
Definition Run (env : Env) (Conf : config.Config) (RunConf : config.RunConfig)
  : Outcome * list Event :=
  let port := config.Port (config.Server Conf) in
  match newGinRouterEngine env Conf RunConf with
  | Panic v => (Panicked v, [])
  | Value engine =>
  let server :=
    {| Handler := engine;
       Addr := "";
       ReadTimeout := 10 * Second;
       WriteTimeout := 10 * Second;
       MaxHeaderBytes := Z.shiftl 1 20;
       TLSConfig := NoTLS |} in
  let with_addr (addr : string) (tls : TLSSetup) :=
    {| Handler := Handler server; Addr := addr;
       ReadTimeout := ReadTimeout server; WriteTimeout := WriteTimeout server;
       MaxHeaderBytes := MaxHeaderBytes server; TLSConfig := tls |} in
  let auto := config.AutoTLS (config.Server Conf) in
  let certFile := config.TLSCertificateFile (config.Server Conf) in
  let keyFile := config.TLSPrivateKeyFile (config.Server Conf) in
  if config.Enabled auto then
    if String.eqb (config.Host auto) "" || String.eqb (config.CertPath auto) "" then
      (Returned,
       [LogError "invalid auto TLS options (host:%s, cert path: %s)"
          [ArgString (config.Host auto); ArgString (config.CertPath auto)];
        SendSignal (config.Pid RunConf) cmd.SIGUSR1])
    else
      serve env Conf RunConf
        (with_addr ":https" (AutoCert (config.Host auto) (config.CertPath auto)))
        true 443
  else if config.TLSEnabled (config.Server Conf) then
    if String.eqb certFile "" || String.eqb keyFile "" then
      (Returned,
       [LogError "invalid TLS certificate files (cert: %s, private key: %s)"
          [ArgString certFile; ArgString keyFile];
        SendSignal (config.Pid RunConf) cmd.SIGUSR1])
    else
      match tls_LoadX509KeyPair env certFile keyFile with
      | Some err =>
          (Returned,
           [LogError "failed to load https cert file: %v" [ArgError err];
            SendSignal (config.Pid RunConf) cmd.SIGUSR1])
      | None =>
          serve env Conf RunConf
            (with_addr (":" +:+ pretty port)
               (KeyPair certFile keyFile "VersionTLS12" ["h2"; "http/1.1"]))
            true port
      end
  else
    serve env Conf RunConf (with_addr (":" +:+ pretty port) NoTLS) false port
  end.

(** A configuration with which [Run] cannot serve. *)
Definition unusable (env : Env) (Conf : config.Config) : bool :=
  let s := config.Server Conf in
  let auto := config.AutoTLS s in
  if config.Enabled auto then
    String.eqb (config.Host auto) "" || String.eqb (config.CertPath auto) ""
  else
    config.TLSEnabled s
    && (String.eqb (config.TLSCertificateFile s) ""
        || String.eqb (config.TLSPrivateKeyFile s) ""
        || match tls_LoadX509KeyPair env (config.TLSCertificateFile s)
                   (config.TLSPrivateKeyFile s) with
           | Some _ => true
           | None => false
           end).

Definition launches (e : Event) : option HTTPServer :=
  match e with Go srv _ => Some srv | _ => None end.

Definition shutdowns (e : Event) : option Duration :=
  match e with Shutdown d => Some d | _ => None end.

Definition own_signals (e : Event) : option (Z * cmd.Signal) :=
  match e with SendSignal pid sig => Some (pid, sig) | _ => None end.

(** *** The logging middleware *)

Record Request := mkRequest {
  Path : string;
  RawQuery : string;
  Method : string;
  ClientIP : string;
  UserAgent : string
}.

(** What the rest of the chain, run by [c.Next()], leaves in the context:
    the status and size written, the errors attached and their rendering by
    [c.Errors.String()]. *)
Record Served := mkServed {
  Status : Z;
  Size : Z;
  Errors : list error;
  Errors_String : string
}.

Inductive Level := LevelError | LevelWarn | LevelInfo.

Inductive LogArg :=
| LInt (z : Z)
| LString (s : string)
| LDuration (d : Duration).

Inductive Step :=
| Next
| Log (level : Level) (format : string) (args : list LogArg).

(** The handler that [ginLoggerMiddleware] returns, on one request;
    [latency] is what [end.Sub(start)] gives for the two readings of
    [time.Now()], which is taken only on a path that is logged. *)
Definition ginLoggerMiddleware (Conf : config.Config) (req : Request)
    (latency : Duration) (served : Served) : list Step :=
  let excludePath : gset string :=
    {[ config.MetricURI (config.API Conf) ]} ∪ {[ config.HealthURI (config.API Conf) ]} in
  let path :=
    if negb (String.eqb (RawQuery req) "")
    then (Path req +:+ "?" +:+ RawQuery req)
    else Path req in
  if bool_decide (path ∈ excludePath) then [Next]
  else
    let logMsg :=
      if (0 <? Z.of_nat (length (Errors served))) then Errors_String served
      else "Request" in
    let format := "[%d] %s %s (IP: %s, Latency: %v, UA: %s, ResSize: %d) %s" in
    let args := [LInt (Status served); LString (Method req); LString path;
                 LString (ClientIP req); LDuration latency;
                 LString (UserAgent req); LInt (Size served); LString logMsg] in
    if Status served >=? 500 then [Next; Log LevelError format args]
    else if Status served >=? 400 then [Next; Log LevelWarn format args]
    else [Next; Log LevelInfo format args].

End server.

(** * Sample inputs *)

Module samples.

(** A configuration file that sets the port to 0, the shutdown timeout to 70
    and the maximal log file size to 0, and leaves the rest alone. *)
Definition env_yaml : config.Env :=
  {| config.File := unit;
     config.os_Open := fun _ => Ok tt;
     config.yaml_Decode := fun _ c =>
       (config.set_Port 0
          (config.set_ShutdownTimeout 70 (config.set_MaxLogFileSize 0 c)), None) |}.

(** A host whose PID file holds 4242, with process 4242 running. *)
Definition os_running : cmd.OS :=
  {| cmd.FileHandle := unit;
     cmd.os_Open := fun path =>
       if String.eqb path config.PidFilePath then Ok tt
       else Err "no such file or directory";
     cmd.io_ReadAll := fun _ => Ok "4242"%string;
     cmd.process_IsProcessRun := fun pid => pid =? 4242;
     cmd.process_SendSignal := fun _ _ => None;
     cmd.file_ChangeWorkPathToModulePath := None |}.

(** The same host when the working directory cannot be changed. *)
Definition os_running_nochdir : cmd.OS :=
  {| cmd.FileHandle := unit;
     cmd.os_Open := cmd.os_Open os_running;
     cmd.io_ReadAll := fun _ => Ok "4242"%string;
     cmd.process_IsProcessRun := fun pid => pid =? 4242;
     cmd.process_SendSignal := fun _ _ => None;
     cmd.file_ChangeWorkPathToModulePath := Some "permission denied"%string |}.

(** A host without PID file on which the working directory cannot be
    changed. *)
Definition os_idle_nochdir : cmd.OS :=
  {| cmd.FileHandle := unit;
     cmd.os_Open := fun _ => Err "no such file or directory";
     cmd.io_ReadAll := fun _ => Ok ""%string;
     cmd.process_IsProcessRun := fun _ => false;
     cmd.process_SendSignal := fun _ _ => None;
     cmd.file_ChangeWorkPathToModulePath := Some "permission denied"%string |}.

Definition stopCmd : cmd.Command := {| cmd.Use := "stop" |}.

Definition t_eth0 : resource.NetworkTraffic := resource.mkNetworkTraffic "eth0" 8000 8000.
Definition t_lo : resource.NetworkTraffic := resource.mkNetworkTraffic "lo" 16 16.
Definition t_wlan0 : resource.NetworkTraffic := resource.mkNetworkTraffic "wlan0" 1 2.

(** A memory in which a caller holds a [Resource] whose traffic list has two
    elements in an array of three cells. *)
Definition st_caller : resourcecollecter.State :=
  {| resourcecollecter.heap := {[ 1%positive := [t_eth0; t_lo; resourcecollecter.zeroTraffic] ]};
     resourcecollecter.GlobalResource := resourcecollecter.zeroResource |}.

Definition r_caller : resourcecollecter.Resource :=
  {| resourcecollecter.CPUUsageRate := 50;
     resourcecollecter.MemUsageRate := 25;
     resourcecollecter.DiskUsageRate := 50;
     resourcecollecter.NetworkTraffic := resourcecollecter.MkSlice 1%positive 0 2 3 |}.

(** The caller (holder 0) overwrites and appends in place, a reader (holder
    1) takes a copy and does the same to it, the caller goes on, and a second
    reader (holder 2) takes over the caller's list and writes into it. *)
Definition meddling : list resourcecollecter.Action :=
  [resourcecollecter.Mutate 0 (resourcecollecter.SetElem 0 t_wlan0);
   resourcecollecter.Mutate 0 (resourcecollecter.AppendElems [t_wlan0]);
   resourcecollecter.Read;
   resourcecollecter.Mutate 1 (resourcecollecter.SetElem 1 t_wlan0);
   resourcecollecter.Mutate 1 (resourcecollecter.AppendElems [t_wlan0; t_wlan0]);
   resourcecollecter.Mutate 0 (resourcecollecter.SetCPUUsageRate 99);
   resourcecollecter.Mutate 0 (resourcecollecter.AppendElems [t_lo]);
   resourcecollecter.Mutate 0 (resourcecollecter.Reslice 1 3);
   resourcecollecter.Read;
   resourcecollecter.Share 2 0;
   resourcecollecter.Mutate 2 (resourcecollecter.SetElem 0 t_eth0)].

(** A runtime that grows a slice to exactly the length needed. *)
Definition exact_fit (old needed : nat) : nat := needed.

Definition eth0 (i o : N) : gmap string resource.ByteCounters :=
  {[ "eth0"%string := resource.mkByteCounters i o ]}.

(** Scenario B and Scenario C of the specification, with a memory at 25%
    and a disk at 50%. *)
Definition rd_ok : resourcecollecter.Readings :=
  {| resourcecollecter.cpuStat1 := Ok (resource.mkCPUStat 100 200);
     resourcecollecter.cpuStat2 := Ok (resource.mkCPUStat 150 300);
     resourcecollecter.memStat := Ok (resource.mkMemStat 1000 750);
     resourcecollecter.diskStat := fun _ => Ok (resource.mkDiskStat 400 200);
     resourcecollecter.netTraffic1 := Ok (eth0 1000 500);
     resourcecollecter.netTraffic2 := Ok (eth0 2000 1500) |}.

(** The same readings when the first CPU counter read fails. *)
Definition rd_cpu_fails : resourcecollecter.Readings :=
  {| resourcecollecter.cpuStat1 := Err "open /proc/stat: permission denied";
     resourcecollecter.cpuStat2 := Ok (resource.mkCPUStat 150 300);
     resourcecollecter.memStat := Ok (resource.mkMemStat 1000 750);
     resourcecollecter.diskStat := fun _ => Ok (resource.mkDiskStat 400 200);
     resourcecollecter.netTraffic1 := Ok (eth0 1000 500);
     resourcecollecter.netTraffic2 := Ok (eth0 2000 1500) |}.


End samples.

(** ** Further sample inputs *)

Module more_samples.

(** A host without PID file, on which daemonizing and writing the PID file
    succeed, the process has PID 777 and SIGTERM arrives; its configuration
    file is the one of [samples.env_yaml]. *)
Definition os_idle : cmd.OS :=
  {| cmd.FileHandle := unit;
     cmd.os_Open := fun _ => Err "no such file or directory";
     cmd.io_ReadAll := fun _ => Ok ""%string;
     cmd.process_IsProcessRun := fun _ => false;
     cmd.process_SendSignal := fun _ _ => None;
     cmd.file_ChangeWorkPathToModulePath := None |}.

Definition host_idle : operation.Host :=
  {| operation.os := os_idle;
     operation.env := samples.env_yaml;
     operation.process_DaemonizeProcess := None;
     operation.os_Getpid := 777;
     operation.file_WriteDataToTextFile := fun _ _ _ => None;
     operation.sigChan := Some cmd.SIGTERM |}.

(** The same host when the PID file cannot be written. *)
Definition host_readonly : operation.Host :=
  {| operation.os := os_idle;
     operation.env := samples.env_yaml;
     operation.process_DaemonizeProcess := None;
     operation.os_Getpid := 777;
     operation.file_WriteDataToTextFile := fun _ _ _ => Some "read-only file system"%string;
     operation.sigChan := Some cmd.SIGTERM |}.

Definition globals0 : operation.Globals :=
  {| operation.Conf := config.init;
     operation.RunConf := {| config.DebugMode := false; config.Pid := 0 |} |}.

Definition startCmd : cmd.Command := {| cmd.Use := "start" |}.

(** A configuration whose file is read into another [Config] than [Conf]. *)
Definition conf_odd : config.Config :=
  config.set_Port 70000 (config.set_MaxLogFileAge 0 config.init).

(** A server environment in which gin refuses a path that is registered
    already, the key pair loads, listening ends with [http.ErrServerClosed],
    the context is cancelled and the shutdown succeeds. *)
Definition senv : server.Env :=
  {| server.gin_GET := fun routes path =>
       if existsb (String.eqb path) (map fst routes)
       then Some ("handlers are already registered for path " +:+ path)
       else None;
     server.tls_LoadX509KeyPair := fun _ _ => None;
     server.listen := server.ErrServerClosed;
     server.ctx_Done := true;
     server.server_Shutdown := fun _ => None |}.

Definition runconf777 : config.RunConfig := {| config.DebugMode := false; config.Pid := 777 |}.

(** The engine built for the default configuration outside debug mode. *)
Definition engine_release : server.Engine :=
  {| server.Mode := "release";
     server.Middlewares := [server.GinLogger; server.GinRecovery; server.Version];
     server.Routes := [("/metrics", "metricsHandler"); ("/health", "healthHandler");
                       ("/version", "versionHandler"); ("/", "rootHandler")] |}.

(** The default configuration with the health path set to the metric path. *)
Definition conf_collision : config.Config :=
  {| config.Server := config.Server config.init;
     config.API := {| config.MetricURI := "/metrics"; config.HealthURI := "/metrics";
                      config.SysStatURI := "/sys/stats" |};
     config.Log := config.Log config.init |}.

(** A store after a publication: its traffic list is the whole of a
    two-cell array of its own, beside the array of a caller. *)
Definition st_stored : resourcecollecter.State :=
  {| resourcecollecter.heap :=
       {[ 1%positive := [samples.t_eth0; samples.t_lo; resourcecollecter.zeroTraffic];
          2%positive := [samples.t_eth0; samples.t_wlan0] ]};
     resourcecollecter.GlobalResource :=
       {| resourcecollecter.CPUUsageRate := 50;
          resourcecollecter.MemUsageRate := 25;
          resourcecollecter.DiskUsageRate := 50;
          resourcecollecter.NetworkTraffic := resourcecollecter.MkSlice 2%positive 0 2 2 |} |}.

End more_samples.

(** * Properties *)

(** Case analysis on the test of the first conditional of the goal. *)
Ltac case_if :=
  match goal with
  | |- context [if ?b then _ else _] => destruct b
  end.

(** Case analysis on a membership in an explicit list. *)
Ltac in_cases H :=
  repeat (destruct H as [H|H]; [try discriminate|]); try contradiction.

(** ** Configuration loading *)

Section LoadConfig_facts.
Import config.

Lemma validate_RecvConf (d : Config) :
  exists d',
    validate (d, RecvConf) = (d', RecvConf)
    /\ Port (Server d') = checked 0 65535 8443 (Port (Server d))
    /\ ShutdownTimeout (Server d') = checked 0 20 5 (ShutdownTimeout (Server d))
    /\ MaxLogFileSize (Log d') = checked 1 1000 100 (MaxLogFileSize (Log d))
    /\ MaxLogFileBackup (Log d') = checked 1 100 10 (MaxLogFileBackup (Log d))
    /\ MaxLogFileAge (Log d') = checked 1 365 90 (MaxLogFileAge (Log d)).
Proof.
  destruct d as [[p t e cf kf a] api [sz bk ag cz]].
  unfold validate, checked; cbn.
  destruct ((p <? 0) || (p >? 65535)); cbn;
    destruct ((t <? 0) || (t >? 20)); cbn;
    destruct ((sz <? 1) || (sz >? 1000)); cbn;
    destruct ((bk <? 1) || (bk >? 100)); cbn;
    destruct ((ag <? 1) || (ag >? 365)); cbn;
    eexists; repeat split; reflexivity.
Qed.

(** A receiver other than [&Conf] is the one that gets checked: [Conf] keeps
    what the decoder wrote. *)
Lemma validate_RecvOther (d v : Config) :
  fst (validate (d, RecvOther v)) = d.
Proof.
  unfold validate; cbn.
  repeat (case_if; cbn); reflexivity.
Qed.

Lemma checked_range (lo hi def v : Z) :
  lo <= def <= hi -> lo <= checked lo hi def v <= hi.
Proof.
  intros Hd. unfold checked.
  destruct (Z.ltb_spec v lo); cbn; [lia|].
  destruct (Z.gtb_spec v hi); cbn; lia.
Qed.

(** X24. If [Conf.LoadConfig] (the call of [cmd.initialization], receiver
    [&Conf]) returns nil, the file was opened and decoded without error, and
    afterwards [Conf.Server.Port] is in [0,65535], [Conf.Server.ShutdownTimeout]
    in [0,20], [Conf.Log.MaxLogFileSize] in [1,1000], [Conf.Log.MaxLogFileBackup]
    in [1,100] and [Conf.Log.MaxLogFileAge] in [1,365]; a decoded value outside
    its range has been replaced by its default (8443, 5, 100, 10, 90), a
    decoded value inside its range is kept, and in particular a decoded 0 is
    kept for [Port] and for [ShutdownTimeout]. *)
Theorem LoadConfig_nil_ranges (env : Env) (filePath : string)
    (Conf0 Conf1 : Config) (c1 : Receiver) :
  LoadConfig env RecvConf filePath Conf0 = ((Conf1, c1), None) ->
  exists (file : File env) (decoded : Config),
    os_Open env ConfFilePath = Ok file
    /\ yaml_Decode env file Conf0 = (decoded, None)
    /\ (0 <= Port (Server Conf1) <= 65535
        /\ 0 <= ShutdownTimeout (Server Conf1) <= 20
        /\ 1 <= MaxLogFileSize (Log Conf1) <= 1000
        /\ 1 <= MaxLogFileBackup (Log Conf1) <= 100
        /\ 1 <= MaxLogFileAge (Log Conf1) <= 365)
    /\ (Port (Server Conf1)
          = (if (Port (Server decoded) <? 0) || (Port (Server decoded) >? 65535)
             then 8443 else Port (Server decoded))
        /\ ShutdownTimeout (Server Conf1)
          = (if (ShutdownTimeout (Server decoded) <? 0)
                || (ShutdownTimeout (Server decoded) >? 20)
             then 5 else ShutdownTimeout (Server decoded))
        /\ MaxLogFileSize (Log Conf1)
          = (if (MaxLogFileSize (Log decoded) <? 1)
                || (MaxLogFileSize (Log decoded) >? 1000)
             then 100 else MaxLogFileSize (Log decoded))
        /\ MaxLogFileBackup (Log Conf1)
          = (if (MaxLogFileBackup (Log decoded) <? 1)
                || (MaxLogFileBackup (Log decoded) >? 100)
             then 10 else MaxLogFileBackup (Log decoded))
        /\ MaxLogFileAge (Log Conf1)
          = (if (MaxLogFileAge (Log decoded) <? 1)
                || (MaxLogFileAge (Log decoded) >? 365)
             then 90 else MaxLogFileAge (Log decoded)))
    /\ (Port (Server decoded) = 0 -> Port (Server Conf1) = 0)
    /\ (ShutdownTimeout (Server decoded) = 0 -> ShutdownTimeout (Server Conf1) = 0).
Proof.
  unfold LoadConfig.
  destruct (os_Open env ConfFilePath) as [file|e]; [|discriminate].
  destruct (yaml_Decode env file Conf0) as [decoded [e|]] eqn:Hdec; [discriminate|].
  destruct (validate_RecvConf decoded) as (d' & Hv & Hp & Ht & Hs & Hb & Ha).
  rewrite Hv. intros [= <- <-].
  exists file, decoded.
  split; [reflexivity|]. split; [exact Hdec|].
  split.
  { rewrite Hp, Ht, Hs, Hb, Ha.
    repeat split; apply checked_range; lia. }
  split.
  { rewrite Hp, Ht, Hs, Hb, Ha. unfold checked. repeat split; reflexivity. }
  split; intros H0.
  - rewrite Hp, H0. reflexivity.
  - rewrite Ht, H0. reflexivity.
Qed.

End LoadConfig_facts.

Lemma LoadConfig_nil_ranges_witness :
  config.LoadConfig samples.env_yaml config.RecvConf config.ConfFilePath config.init
    = ((config.set_Port 0
          (config.set_ShutdownTimeout 5
             (config.set_MaxLogFileSize 100 config.init)), config.RecvConf), None)
  /\ exists (file : config.File samples.env_yaml) (decoded : config.Config),
       config.os_Open samples.env_yaml config.ConfFilePath = Ok file
       /\ config.yaml_Decode samples.env_yaml file config.init = (decoded, None)
       /\ config.Port (config.Server decoded) = 0
       /\ config.ShutdownTimeout (config.Server decoded) = 70.
Proof.
  split; [reflexivity|].
  destruct (LoadConfig_nil_ranges samples.env_yaml config.ConfFilePath
              config.init _ _ eq_refl)
    as (file & decoded & Hopen & Hdec & _).
  exists file, decoded.
  split; [exact Hopen|]. split; [exact Hdec|].
  cbn in Hdec. injection Hdec as <-. split; reflexivity.
Defined.


(** ** The PID file and the stop command *)

Section cmd_facts.
Import cmd.

(** C9. [IsRunning] returns false when the pointer is nil, when the PID
    file cannot be opened, when it cannot be read, and when its contents are
    not an integer for [strconv.Atoi]; when it returns true, the file was
    opened and read, its contents parsed to an integer that names a running
    process, and [*pid] holds that integer. *)
Theorem IsRunning_false_cases_and_true (os : OS) (pid : option Z) (pidFilePath : string) :
  (pid = None -> IsRunning os pid pidFilePath = (false, None))
  /\ (forall e, os_Open os pidFilePath = Err e ->
        fst (IsRunning os pid pidFilePath) = false)
  /\ (forall file e, os_Open os pidFilePath = Ok file -> io_ReadAll os file = Err e ->
        fst (IsRunning os pid pidFilePath) = false)
  /\ (forall file pidStr n e,
        os_Open os pidFilePath = Ok file -> io_ReadAll os file = Ok pidStr ->
        strconv.Atoi pidStr = (n, Some e) ->
        fst (IsRunning os pid pidFilePath) = false)
  /\ (fst (IsRunning os pid pidFilePath) = true ->
        exists v file pidStr n,
          pid = Some v
          /\ os_Open os pidFilePath = Ok file
          /\ io_ReadAll os file = Ok pidStr
          /\ strconv.Atoi pidStr = (n, None)
          /\ process_IsProcessRun os n = true
          /\ snd (IsRunning os pid pidFilePath) = Some n).
Proof.
  unfold IsRunning.
  repeat split.
  - intros ->. reflexivity.
  - intros e He. destruct pid; [|reflexivity]. rewrite He. reflexivity.
  - intros file e Ho Hr. destruct pid; [|reflexivity]. rewrite Ho, Hr. reflexivity.
  - intros file pidStr n e Ho Hr Ha. destruct pid; [|reflexivity].
    rewrite Ho, Hr, Ha. reflexivity.
  - destruct pid as [v|]; [|discriminate].
    destruct (os_Open os pidFilePath) as [file|e]; [|discriminate].
    destruct (io_ReadAll os file) as [pidStr|e] eqn:Hr; [|discriminate].
    destruct (strconv.Atoi pidStr) as [n [e|]] eqn:Ha; [discriminate|].
    cbn. intros Hrun. exists v, file, pidStr, n. repeat split; assumption.
Qed.

(** On the sample host the PID file parses to 4242, which is running. *)
Example IsRunning_sample :
  IsRunning samples.os_running (Some 0) config.PidFilePath = (true, Some 4242).
Proof. reflexivity. Qed.

(** [Atoi] rejects a trailing newline, so such a PID file reads as "not
    running" and [*pid] is set to 0. *)
Example Atoi_samples :
  strconv.Atoi "4242" = (4242, None)
  /\ fst (strconv.Atoi "-17") = -17
  /\ strconv.Atoi "+" = (0, Some (strconv.numError "Atoi" "+" strconv.ErrSyntax))
  /\ fst (strconv.Atoi "99999999999999999999") = strconv.maxInt64
  /\ fst (strconv.Atoi "-9223372036854775808") = strconv.minInt64
  /\ snd (strconv.Atoi "-9223372036854775808") = None.
Proof. repeat split; reflexivity. Qed.

(** The stop command never checks the PID file when the working directory
    cannot be changed. *)
Lemma stop_chdir_failure (os : OS) (c : Command) (err : error) :
  file_ChangeWorkPathToModulePath os = Some err ->
  stop os c = (Some err, [Fprintf_Stderr "[ERROR] %v\n" err]).
Proof. intros H. unfold stop. rewrite H. reflexivity. Qed.

(** C10, as stated, fails: with no daemon running ([IsRunning] false) [stop]
    returns an error when the working directory cannot be changed; and with a
    daemon running it then sends no signal at all. *)
Lemma stop_not_nil_when_chdir_fails :
  (fst (IsRunning samples.os_idle_nochdir (Some 0) config.PidFilePath) = false
   /\ fst (stop samples.os_idle_nochdir samples.stopCmd) <> None)
  /\ (fst (IsRunning samples.os_running_nochdir (Some 0) config.PidFilePath) = true
      /\ signals (snd (stop samples.os_running_nochdir samples.stopCmd)) = []
      /\ fst (stop samples.os_running_nochdir samples.stopCmd) <> None
      /\ process_SendSignal samples.os_running_nochdir 4242 SIGTERM = None).
Proof.
  repeat split; try reflexivity; cbn; discriminate.
Qed.

(** C10, amended. If the working directory cannot be changed, [stop] returns
    that error and sends no signal.  Otherwise: when [IsRunning] returns
    false, [stop] returns nil and has no effect at all; when [IsRunning]
    returns true, [stop] asks for exactly one signal, SIGTERM, to the PID
    parsed from the PID file, and returns exactly the error of that
    sending (nil when it succeeds). *)
Theorem stop_after_chdir (os : OS) (c : Command) :
  (forall err, file_ChangeWorkPathToModulePath os = Some err ->
     fst (stop os c) = Some err /\ signals (snd (stop os c)) = [])
  /\ (file_ChangeWorkPathToModulePath os = None ->
      fst (IsRunning os (Some 0) config.PidFilePath) = false ->
      stop os c = (None, []))
  /\ (file_ChangeWorkPathToModulePath os = None ->
      fst (IsRunning os (Some 0) config.PidFilePath) = true ->
      exists file pidStr n,
        os_Open os config.PidFilePath = Ok file
        /\ io_ReadAll os file = Ok pidStr
        /\ strconv.Atoi pidStr = (n, None)
        /\ signals (snd (stop os c)) = [(n, SIGTERM)]
        /\ fst (stop os c) = process_SendSignal os n SIGTERM).
Proof.
  split; [|split].
  - intros err H. rewrite (stop_chdir_failure os c err H). split; reflexivity.
  - intros Hcd Hrun. unfold stop. rewrite Hcd.
    destruct (IsRunning os (Some 0) config.PidFilePath) as [running pid'].
    cbn in Hrun. subst running. reflexivity.
  - intros Hcd Hrun. unfold stop. rewrite Hcd.
    revert Hrun. unfold IsRunning.
    destruct (os_Open os config.PidFilePath) as [file|e]; [|discriminate].
    destruct (io_ReadAll os file) as [pidStr|e] eqn:Hr; [|discriminate].
    destruct (strconv.Atoi pidStr) as [n [e|]] eqn:Ha; [discriminate|].
    cbn. intros ->. cbn.
    exists file, pidStr, n.
    split; [reflexivity|]. split; [exact Hr|]. split; [exact Ha|].
    destruct (process_SendSignal os n SIGTERM); split; reflexivity.
Qed.

(** On the sample host, stop sends SIGTERM to 4242 once and returns nil. *)
Example stop_sample :
  stop samples.os_running samples.stopCmd = (None, [CallSendSignal 4242 SIGTERM]).
Proof. reflexivity. Qed.

End cmd_facts.

Lemma IsRunning_false_cases_and_true_witness :
  fst (cmd.IsRunning samples.os_running (Some 0) config.PidFilePath) = true
  /\ exists n : Z,
       strconv.Atoi "4242" = (n, None)
       /\ cmd.process_IsProcessRun samples.os_running n = true
       /\ snd (cmd.IsRunning samples.os_running (Some 0) config.PidFilePath) = Some n.
Proof.
  split; [reflexivity|].
  destruct (IsRunning_false_cases_and_true samples.os_running (Some 0) config.PidFilePath)
    as (_ & _ & _ & _ & Htrue).
  destruct (Htrue eq_refl) as (v & file & pidStr & n & _ & _ & Hread & Hatoi & Hrun & Hpid).
  exists n. injection Hread as <-.
  split; [exact Hatoi|]. split; [exact Hrun | exact Hpid].
Defined.

Lemma stop_after_chdir_witness :
  cmd.file_ChangeWorkPathToModulePath samples.os_running = None
  /\ fst (cmd.IsRunning samples.os_running (Some 0) config.PidFilePath) = true
  /\ exists n : Z,
       strconv.Atoi "4242" = (n, None)
       /\ cmd.signals (snd (cmd.stop samples.os_running samples.stopCmd))
          = [(n, cmd.SIGTERM)]
       /\ fst (cmd.stop samples.os_running samples.stopCmd)
          = cmd.process_SendSignal samples.os_running n cmd.SIGTERM.
Proof.
  split; [reflexivity|]. split; [reflexivity|].
  destruct (stop_after_chdir samples.os_running samples.stopCmd) as (_ & _ & Hrun).
  destruct (Hrun eq_refl eq_refl) as (file & pidStr & n & _ & Hread & Hatoi & Hsig & Hret).
  exists n. injection Hread as <-.
  split; [exact Hatoi|]. split; [exact Hsig | exact Hret].
Defined.

(** ** The snapshot store *)

Section store_facts.
Import resourcecollecter.

Variable growslice_cap : nat -> nat -> nat.

Implicit Types (h : gmap loc (list resource.NetworkTraffic)) (s : Slice).
Implicit Types (r : Resource) (st : State).

Lemma alloc_spec h cells h' l :
  alloc h cells = (h', l) ->
  (l ∉ dom h) /\ h' = <[l := cells]> h.
Proof.
  unfold alloc. intros [= <- <-]. split; [apply is_fresh | reflexivity].
Qed.

(** An empty array at a new address shows no element through any slice,
    exactly as no array does. *)
Lemma elems_insert_nil h l s :
  l ∉ dom h -> elems (<[l := []]> h) s = elems h s.
Proof.
  intros Hl. destruct s as [|a off len cap]; [reflexivity|]. cbn.
  destruct (decide (a = l)) as [->|Hne].
  - rewrite lookup_insert_eq. apply not_elem_of_dom in Hl. rewrite Hl. reflexivity.
  - rewrite lookup_insert_ne by congruence. reflexivity.
Qed.

(** [append([]T{}, vs...)]: the result shows exactly [vs], lives at an
    address that was not in use, and leaves every array in use as it was. *)
Lemma copy_spec h vs h1 e h2 s :
  empty_literal h = (h1, e) ->
  append growslice_cap h1 e vs = (h2, s) ->
  elems h2 s = vs
  /\ (exists a off len cap, s = MkSlice a off len cap /\ (a ∉ dom h) /\ (a ∈ dom h2))
  /\ (forall a, a ∈ dom h -> h2 !! a = h !! a /\ a ∈ dom h2)
  /\ (forall s0, elems h1 s0 = elems h s0).
Proof.
  unfold empty_literal.
  destruct (alloc h []) as [h1' l1] eqn:Ha1.
  apply alloc_spec in Ha1 as [Hl1 ->]. intros [= <- <-].
  unfold append; cbn [slice_len slice_cap Nat.add].
  destruct vs as [|v vs].
  - cbn. intros [= <- <-].
    split; [reflexivity|].
    split.
    { exists l1, 0%nat, 0%nat, 0%nat. split; [reflexivity|]. split; [exact Hl1|].
      rewrite dom_alter_L, dom_insert_L. set_solver. }
    split.
    { intros a Ha. assert (a <> l1) by (intros ->; contradiction).
      rewrite dom_alter_L, dom_insert_L.
      rewrite lookup_alter_ne, lookup_insert_ne by congruence.
      split; [reflexivity | set_solver]. }
    intros s0. apply elems_insert_nil, Hl1.
  - cbn [length Nat.leb].
    destruct (alloc _ _) as [h2' l2] eqn:Ha2.
    apply alloc_spec in Ha2 as [Hl2 ->]. intros [= <- <-].
    rewrite dom_insert_L in Hl2.
    split.
    { cbn [elems]. rewrite lookup_insert_eq. cbn [default drop id].
      cbn [take]. f_equal. apply take_app_length. }
    split.
    { exists l2, 0%nat, (S (length vs)), (growslice_cap 0 (S (length vs))).
      split; [reflexivity|]. split; [set_solver|].
      rewrite dom_insert_L. set_solver. }
    split.
    { intros a Ha. assert (a <> l1) by (intros ->; contradiction).
      assert (a <> l2) by (intros ->; set_solver).
      rewrite !dom_insert_L, !lookup_insert_ne by congruence.
      split; [reflexivity | set_solver]. }
    intros s0. apply elems_insert_nil, Hl1.
Qed.

(** What [SetGlobalResource] installs. *)
Lemma SetGlobalResource_spec r st :
  let st1 := SetGlobalResource growslice_cap r st in
  published st1 = view (heap st) r
  /\ (exists a off len cap,
        NetworkTraffic (GlobalResource st1) = MkSlice a off len cap
        /\ (a ∉ dom (heap st)) /\ (a ∈ dom (heap st1)))
  /\ (forall a, a ∈ dom (heap st) ->
        heap st1 !! a = heap st !! a /\ a ∈ dom (heap st1)).
Proof.
  unfold SetGlobalResource.
  destruct (empty_literal (heap st)) as [h1 e] eqn:He.
  destruct (append growslice_cap h1 e _) as [h2 s] eqn:Hap.
  destruct (copy_spec _ _ _ _ _ _ He Hap) as (Hel & Hfresh & Hkeep & Hsame).
  cbn. split.
  { unfold published, view. cbn. rewrite Hel, Hsame. reflexivity. }
  split; assumption.
Qed.

(** What [GetGlobalResource] returns. *)
Lemma GetGlobalResource_spec st :
  let '(c, st') := GetGlobalResource growslice_cap st in
  view (heap st') c = published st
  /\ GlobalResource st' = GlobalResource st
  /\ (exists a off len cap,
        NetworkTraffic c = MkSlice a off len cap
        /\ (a ∉ dom (heap st)) /\ (a ∈ dom (heap st')))
  /\ (forall a, a ∈ dom (heap st) ->
        heap st' !! a = heap st !! a /\ a ∈ dom (heap st')).
Proof.
  unfold GetGlobalResource.
  destruct (empty_literal (heap st)) as [h1 e] eqn:He.
  destruct (append growslice_cap h1 e _) as [h2 s] eqn:Hap.
  destruct (copy_spec _ _ _ _ _ _ He Hap) as (Hel & Hfresh & Hkeep & Hsame).
  cbn. split.
  { unfold published, view. cbn. rewrite Hel, Hsame. reflexivity. }
  split; [reflexivity|]. split; assumption.
Qed.

Lemma Get_after_Set_shape r st :
  let '(c, st') := GetGlobalResource growslice_cap (SetGlobalResource growslice_cap r st) in
  view (heap st') c = view (heap st) r
  /\ exists a off len cap, NetworkTraffic c = MkSlice a off len cap.
Proof.
  pose proof (GetGlobalResource_spec (SetGlobalResource growslice_cap r st)) as Hget.
  destruct (GetGlobalResource growslice_cap _) as [c st'].
  destruct Hget as (Hview & _ & (a & off & len & cap & Hc & _) & _).
  destruct (SetGlobalResource_spec r st) as (Hpub & _).
  split; [rewrite Hview; exact Hpub | eauto].
Qed.

(** C2. For every [Resource] [r] and every state of the store,
    [SetGlobalResource(&r)] followed by [GetGlobalResource()] returns a
    [Resource] with the CPU, memory and disk rates of [r] and a traffic list
    with the same elements, in the same order, as that of [r]. *)
Theorem Get_after_Set_returns_published r st :
  let '(c, st') := GetGlobalResource growslice_cap (SetGlobalResource growslice_cap r st) in
  CPUUsageRate c = CPUUsageRate r
  /\ MemUsageRate c = MemUsageRate r
  /\ DiskUsageRate c = DiskUsageRate r
  /\ elems (heap st') (NetworkTraffic c) = elems (heap st) (NetworkTraffic r).
Proof.
  pose proof (Get_after_Set_shape r st) as H.
  destruct (GetGlobalResource growslice_cap _) as [c st'].
  destruct H as (Hview & _).
  unfold view in Hview. injection Hview as Hc Hm Hd Hn.
  repeat split; assumption.
Qed.

(** Publishing the zero [Resource], whose traffic list is nil, and reading
    it back gives an empty list that is not nil: equal element by element. *)
Example Get_after_Set_nil :
  let '(c, st') := GetGlobalResource growslice_cap
                     (SetGlobalResource growslice_cap zeroResource initState) in
  NetworkTraffic c <> NilSlice /\ elems (heap st') (NetworkTraffic c) = [].
Proof.
  pose proof (Get_after_Set_shape zeroResource initState) as H.
  destruct (GetGlobalResource growslice_cap _) as [c st'].
  destruct H as (Hview & a & off & len & cap & Hc).
  split; [rewrite Hc; discriminate|].
  unfold view in Hview. injection Hview as _ _ _ Hn. exact Hn.
Qed.

(** One mutation by a holder whose slice is apart from the array at [g]
    leaves that array alone, and leaves the holder apart from it. *)
Lemma mutate_frame (m : Mutation) r h r' h' (g : loc) :
  mutate growslice_cap m (r, h) = Some (r', h') ->
  g ∈ dom h -> apart g (NetworkTraffic r) ->
  h' !! g = h !! g /\ apart g (NetworkTraffic r').
Proof.
  destruct r as [c m0 d s]. intros Hm Hg Hs. cbn in Hs. revert Hm.
  destruct m; cbn.
  - intros [= <- <-]. split; [reflexivity | exact Hs].
  - intros [= <- <-]. split; [reflexivity | exact Hs].
  - intros [= <- <-]. split; [reflexivity | exact Hs].
  - destruct s as [|a off len cap]; [discriminate|].
    case_if; [|discriminate].
    intros [= <- <-]. cbn in Hs.
    split; [apply lookup_alter_ne; exact Hs | exact Hs].
  - unfold append.
    case_if.
    + destruct s as [|a off len cap].
      * intros [= <- <-]. split; [reflexivity | exact I].
      * intros [= <- <-]. cbn in Hs.
        split; [apply lookup_alter_ne; exact Hs | exact Hs].
    + destruct (alloc h _) as [h2 l] eqn:Ha.
      apply alloc_spec in Ha as [Hl ->].
      intros [= <- <-].
      assert (l <> g) by (intros ->; contradiction).
      split; [apply lookup_insert_ne; assumption | assumption].
  - case_if; [|discriminate].
    destruct s as [|a off len cap]; intros [= <- <-];
      (split; [reflexivity | exact Hs]).
  - intros [= <- <-].
    assert (fresh (dom h) <> g).
    { intros Heq. apply (is_fresh (dom h)). rewrite Heq. exact Hg. }
    split; [apply lookup_insert_ne; assumption | assumption].
  - intros [= <- <-]. split; [reflexivity | exact I].
Qed.

Lemma act_isolated G g cells w (a : Action) :
  (exists off len cap, NetworkTraffic G = MkSlice g off len cap) ->
  isolated G g cells w -> isolated G g cells (act growslice_cap w a).
Proof.
  intros (off & len & cap & HG) (Hglob & Hcells & Hall).
  assert (Hdom : g ∈ dom (heap (store w))) by (apply elem_of_dom; eauto).
  destruct a as [who m|who from|]; unfold act; cbv beta iota.
  - destruct (holders w !! who) as [r|] eqn:Hwho;
      [|exact (conj Hglob (conj Hcells Hall))].
    destruct (mutate growslice_cap m (r, heap (store w))) as [[r' h']|] eqn:Hm;
      [|exact (conj Hglob (conj Hcells Hall))].
    assert (Hr : apart g (NetworkTraffic r)).
    { rewrite Forall_lookup in Hall. exact (Hall _ _ Hwho). }
    destruct (mutate_frame _ _ _ _ _ _ Hm Hdom Hr) as [Hkeep Hr'].
    split; [exact Hglob|]. split; [cbn; rewrite Hkeep; exact Hcells|].
    cbn. apply Forall_insert; assumption.
  - destruct (holders w !! who) as [r|]; [|exact (conj Hglob (conj Hcells Hall))].
    destruct (holders w !! from) as [r0|] eqn:Hfrom;
      [|exact (conj Hglob (conj Hcells Hall))].
    split; [exact Hglob|]. split; [exact Hcells|].
    cbn. apply Forall_insert; [exact Hall|].
    rewrite Forall_lookup in Hall. exact (Hall _ _ Hfrom).
  - pose proof (GetGlobalResource_spec (store w)) as Hget.
    destruct (GetGlobalResource growslice_cap (store w)) as [c st'].
    destruct Hget as (_ & Hsame & (a & o & l & k & Hc & Hfresh & _) & Hkeep).
    split; [cbn; congruence|].
    split; [cbn; rewrite (proj1 (Hkeep g Hdom)); exact Hcells|].
    cbn. apply Forall_app. split; [exact Hall|].
    constructor; [|constructor]. rewrite Hc. cbn. intros ->. contradiction.
Qed.

Lemma acts_isolated G g cells (l : list Action) w :
  (exists off len cap, NetworkTraffic G = MkSlice g off len cap) ->
  isolated G g cells w -> isolated G g cells (acts growslice_cap w l).
Proof.
  intros HG. revert w. induction l as [|a l IH]; intros w Hw; [exact Hw|].
  cbn. apply IH, act_isolated; assumption.
Qed.

Lemma isolated_published G g off len cap cells w :
  NetworkTraffic G = MkSlice g off len cap ->
  isolated G g cells w ->
  published (store w)
  = {| cpu := CPUUsageRate G; mem := MemUsageRate G; disk := DiskUsageRate G;
       net := take len (drop off cells) |}.
Proof.
  intros HN (HG & Hc & _). unfold published, view. rewrite HG, HN.
  cbn. rewrite Hc. reflexivity.
Qed.

(** C3. After [SetGlobalResource(&r)], whatever the party that holds [r]
    and the readers that received a copy from [GetGlobalResource] do to their
    own [Resource] (assigning fields, overwriting elements of its traffic
    list, appending to it, reslicing it, replacing it, sharing it with one
    another), in any order and interleaved with any number of further reads,
    the stored snapshot stays the one that was published, and the next
    [GetGlobalResource()] returns it. *)
Theorem published_snapshot_isolated r st (l : list Action) :
  allocated (heap st) (NetworkTraffic r) ->
  let w := acts growslice_cap
             {| store := SetGlobalResource growslice_cap r st; holders := [r] |} l in
  published (store w) = view (heap st) r
  /\ view (heap (snd (GetGlobalResource growslice_cap (store w))))
          (fst (GetGlobalResource growslice_cap (store w)))
     = view (heap st) r.
Proof.
  intros Halloc w.
  destruct (SetGlobalResource_spec r st) as (Hpub & (a & off & len & cap & HG & Hfresh & Hin) & _).
  set (st1 := SetGlobalResource growslice_cap r st) in *.
  apply elem_of_dom in Hin as [cells Hcells].
  assert (Hw0 : isolated (GlobalResource st1) a cells {| store := st1; holders := [r] |}).
  { split; [reflexivity|]. split; [exact Hcells|].
    constructor; [|constructor].
    destruct (NetworkTraffic r) as [|b ? ? ?]; [exact I|].
    cbn in *. intros ->. contradiction. }
  assert (Hw : isolated (GlobalResource st1) a cells w).
  { apply acts_isolated; [|exact Hw0]. eauto. }
  assert (Hsame : published (store w) = view (heap st) r).
  { rewrite (isolated_published _ _ _ _ _ _ _ HG Hw), <- Hpub.
    symmetry. apply (isolated_published _ _ _ _ _ _ _ HG Hw0). }
  split; [exact Hsame|].
  pose proof (GetGlobalResource_spec (store w)) as Hget.
  destruct (GetGlobalResource growslice_cap (store w)) as [c st'].
  destruct Hget as (Hview & _). cbn. rewrite Hview. exact Hsame.
Qed.

End store_facts.

Lemma published_snapshot_isolated_witness :
  resourcecollecter.allocated (resourcecollecter.heap samples.st_caller)
    (resourcecollecter.NetworkTraffic samples.r_caller)
  /\ resourcecollecter.published
       (resourcecollecter.store
          (resourcecollecter.acts samples.exact_fit
             {| resourcecollecter.store :=
                  resourcecollecter.SetGlobalResource samples.exact_fit
                    samples.r_caller samples.st_caller;
                resourcecollecter.holders := [samples.r_caller] |}
             samples.meddling))
     = resourcecollecter.view (resourcecollecter.heap samples.st_caller) samples.r_caller.
Proof.
  assert (H : resourcecollecter.allocated (resourcecollecter.heap samples.st_caller)
                (resourcecollecter.NetworkTraffic samples.r_caller)).
  { cbn. apply elem_of_dom. eexists. reflexivity. }
  split; [exact H|].
  exact (proj1 (published_snapshot_isolated samples.exact_fit samples.r_caller
                  samples.st_caller samples.meddling H)).
Defined.

(** The same actions do change what the three holders see of their own
    values (the write of holder 2 shows through the list it shares with
    holder 0): the mutations are real, only the store is out of their
    reach. *)
Example meddling_changes_the_holders :
  let w := resourcecollecter.acts samples.exact_fit
             {| resourcecollecter.store :=
                  resourcecollecter.SetGlobalResource samples.exact_fit
                    samples.r_caller samples.st_caller;
                resourcecollecter.holders := [samples.r_caller] |}
             samples.meddling in
  map (fun r => resourcecollecter.view (resourcecollecter.heap (resourcecollecter.store w)) r)
      (resourcecollecter.holders w)
  = [ {| resourcecollecter.cpu := 99; resourcecollecter.mem := 25;
         resourcecollecter.disk := 50;
         resourcecollecter.net := [samples.t_eth0; samples.t_wlan0] |};
      {| resourcecollecter.cpu := 50; resourcecollecter.mem := 25;
         resourcecollecter.disk := 50;
         resourcecollecter.net := [samples.t_eth0; samples.t_wlan0;
                                   samples.t_wlan0; samples.t_wlan0] |};
      {| resourcecollecter.cpu := 50; resourcecollecter.mem := 25;
         resourcecollecter.disk := 50;
         resourcecollecter.net := [samples.t_eth0; samples.t_wlan0] |} ]
  /\ resourcecollecter.published (resourcecollecter.store w)
     = {| resourcecollecter.cpu := 50; resourcecollecter.mem := 25;
          resourcecollecter.disk := 50;
          resourcecollecter.net := [samples.t_eth0; samples.t_lo] |}.
Proof. vm_compute. split; reflexivity. Qed.

(** ** The collection loop *)

Section loop_facts.
Import resourcecollecter collecting.

Variable growslice_cap : nat -> nat -> nat.

Lemma returned_slice_elems (h : gmap loc (list resource.NetworkTraffic)) l h' s :
  returned_slice h l = (h', s) -> elems h' s = default [] l.
Proof.
  destruct l as [cells|]; cbn.
  - intros [= <- <-]. cbn. rewrite lookup_insert_eq. cbn.
    apply firstn_all.
  - intros [= <- <-]. reflexivity.
Qed.

(** One cycle publishes what its samplers returned, and does, in this order:
    four launches, the join, the publication, the debug lines. *)
Lemma cycle_spec (rd : Readings) (debug : bool) (st : State) :
  published (snd (cycle growslice_cap rd debug st)) = assembled rd
  /\ exists c1 c2 c3 c4,
       fst (cycle growslice_cap rd debug st)
       = [Go CPU c1; Go Mem c2; Go Disk c3; Go Net c4; WgWait;
          Publish (assembled rd)]
         ++ (if debug then debug_lines (assembled rd) else []).
Proof.
  unfold cycle, assembled.
  destruct (getCPUUsageRate rd) as [[v1 e1] k1].
  destruct (getMemUsageRate rd) as [[v2 e2] k2].
  destruct (getDiskUsageRate rd) as [[v3 e3] k3].
  destruct (getNetworkTraffic rd) as [[l e4] k4].
  destruct (returned_slice (heap st) l) as [h s] eqn:Hs.
  apply returned_slice_elems in Hs.
  cbn [fst snd].
  match goal with
  | |- context [SetGlobalResource _ ?r ?st0] =>
      destruct (SetGlobalResource_spec growslice_cap r st0) as (Hpub & _)
  end.
  cbn [heap] in Hpub.
  split.
  - rewrite Hpub. unfold view; cbn. rewrite Hs. reflexivity.
  - eexists _, _, _, _. unfold view; cbn. rewrite Hs. reflexivity.
Qed.

Lemma waits_debug_lines (p : Snapshot) : waits (debug_lines p) = [].
Proof.
  unfold waits, debug_lines. cbn.
  induction (net p) as [|t l IH]; [reflexivity | exact IH].
Qed.

Lemma publishes_debug_lines (p : Snapshot) : publishes (debug_lines p) = 0%nat.
Proof.
  unfold publishes, debug_lines. cbn.
  induction (net p) as [|t l IH]; [reflexivity | exact IH].
Qed.

Lemma waits_app (a b : list Event) : waits (a ++ b) = waits a ++ waits b.
Proof. unfold waits. apply omap_app. Qed.

Lemma publishes_app (a b : list Event) :
  publishes (a ++ b) = (publishes a + publishes b)%nat.
Proof. unfold publishes. rewrite List.filter_app, length_app. reflexivity. Qed.

Lemma cycle_waits_publishes (rd : Readings) (debug : bool) (st : State) :
  waits (fst (cycle growslice_cap rd debug st)) = []
  /\ publishes (fst (cycle growslice_cap rd debug st)) = 1%nat.
Proof.
  destruct (cycle_spec rd debug st) as (_ & c1 & c2 & c3 & c4 & ->).
  rewrite waits_app, publishes_app.
  destruct debug.
  - rewrite waits_debug_lines, publishes_debug_lines. split; reflexivity.
  - split; reflexivity.
Qed.

Lemma loop_waits (script : list (WaitResult * Readings)) (debug : bool) :
  forall (timeout : Duration) (st : State),
    let tr := snd (fst (loop growslice_cap script debug timeout st)) in
    waits tr = timeout :: replicate (publishes tr) (3 * Second).
Proof.
  induction script as [|[w rd] rest IH]; intros timeout st; [reflexivity|].
  destruct w; [|reflexivity|reflexivity].
  cbn [loop].
  destruct (cycle_waits_publishes rd debug st) as [Hw Hp].
  destruct (cycle growslice_cap rd debug st) as [evs st'].
  specialize (IH (3 * Second) st').
  destruct (loop growslice_cap rest debug (3 * Second) st') as [[status evs'] st''].
  cbn [fst snd] in *.
  change (WaitCancelWithTimeout timeout :: evs ++ evs')
    with ([WaitCancelWithTimeout timeout] ++ evs ++ evs').
  rewrite !waits_app, !publishes_app, Hw, Hp, IH. reflexivity.
Qed.

(** The events of a cycle do not depend on the memory it runs in. *)
Lemma cycle_trace_eq (g : nat -> nat -> nat) (rd : Readings) (debug : bool) (st : State) :
  fst (cycle g rd debug st) = cycle_trace rd debug.
Proof.
  unfold cycle, cycle_trace, go_calls, assembled.
  destruct (getCPUUsageRate rd) as [[v1 e1] k1].
  destruct (getMemUsageRate rd) as [[v2 e2] k2].
  destruct (getDiskUsageRate rd) as [[v3 e3] k3].
  destruct (getNetworkTraffic rd) as [[l e4] k4].
  destruct (returned_slice (heap st) l) as [h s] eqn:Hs.
  apply returned_slice_elems in Hs.
  cbn [fst snd]. unfold view; cbn. rewrite Hs. reflexivity.
Qed.

(** The events of a run, read off the script: the wait with the timeout the
    loop starts with and then, for every wait that timed out before the
    first one that did not, the events of the cycle run on its readings and
    the wait after it, with the timeout 3 * [time.Second]. *)
Lemma loop_trace (script : list (WaitResult * Readings)) (debug : bool) :
  forall (timeout : Duration) (st : State),
    snd (fst (loop growslice_cap script debug timeout st))
    = WaitCancelWithTimeout timeout :: rounds (cycles_run script) debug.
Proof.
  induction script as [|[w rd] rest IH]; intros timeout st; [reflexivity|].
  destruct w; [|reflexivity|reflexivity].
  cbn [loop cycles_run]. unfold rounds. cbn [List.flat_map]. fold (rounds (cycles_run rest) debug).
  pose proof (cycle_trace_eq growslice_cap rd debug st) as Hc.
  destruct (cycle growslice_cap rd debug st) as [evs st']. cbn [fst] in Hc. subst evs.
  specialize (IH (3 * Second) st').
  destruct (loop growslice_cap rest debug (3 * Second) st') as [[status evs'] st''].
  cbn [fst snd] in *. rewrite IH, <- app_assoc. reflexivity.
Qed.

Lemma cycle_trace_waits_publishes (rd : Readings) (debug : bool) :
  waits (cycle_trace rd debug) = [] /\ publishes (cycle_trace rd debug) = 1%nat.
Proof.
  rewrite <- (cycle_trace_eq growslice_cap rd debug initState).
  apply cycle_waits_publishes.
Qed.

Lemma rounds_waits_publishes (rds : list Readings) (debug : bool) :
  waits (rounds rds debug) = replicate (length rds) (3 * Second)
  /\ publishes (rounds rds debug) = length rds.
Proof.
  induction rds as [|rd rds [IHw IHp]]; [split; reflexivity|].
  destruct (cycle_trace_waits_publishes rd debug) as [Hw Hp].
  unfold rounds in *. cbn [List.flat_map length replicate].
  rewrite !waits_app, !publishes_app, Hw, Hp, IHw, IHp. split; reflexivity.
Qed.

(** C4. The events of every run of [CollectResource] are: the first wait,
    given the timeout 0; then, for each wait that timed out (the first one
    included, so that the first cycle runs right after the wait of 0), the
    events of one cycle on the readings that come with that wait, followed
    by the next wait, given the timeout 3 * [time.Second], that is
    3 000 000 000 ns.  So the timeouts of the waits are 0 and then one
    3 000 000 000 per timed-out wait, and one snapshot is published between
    two successive waits. *)
Theorem CollectResource_wait_timeouts (script : list (WaitResult * Readings))
    (debug : bool) (st : State) :
  let tr := snd (fst (CollectResource growslice_cap script debug st)) in
  tr = WaitCancelWithTimeout 0
       :: List.flat_map
            (fun rd => cycle_trace rd debug ++ [WaitCancelWithTimeout 3000000000])
            (cycles_run script)
  /\ waits tr = 0 :: replicate (length (cycles_run script)) 3000000000
  /\ publishes tr = length (cycles_run script)
  /\ waits tr = 0 :: replicate (publishes tr) 3000000000.
Proof.
  cbv zeta. unfold CollectResource.
  split; [exact (loop_trace script debug 0 st)|].
  rewrite (loop_trace script debug 0 st).
  destruct (rounds_waits_publishes (cycles_run script) debug) as [Hw Hp].
  change (WaitCancelWithTimeout 0 :: rounds (cycles_run script) debug)
    with ([WaitCancelWithTimeout 0] ++ rounds (cycles_run script) debug).
  rewrite waits_app, publishes_app, Hw, Hp.
  repeat split; reflexivity.
Qed.

Lemma loop_cancelled (pre : list (WaitResult * Readings)) (w : WaitResult)
    (rd : Readings) (rest : list (WaitResult * Readings)) (debug : bool) :
  Forall (fun x => fst x = WaitTimeout) pre ->
  w <> WaitTimeout ->
  forall (timeout : Duration) (st : State),
    loop growslice_cap (pre ++ (w, rd) :: rest) debug timeout st
    = (Returned,
       snd (fst (loop growslice_cap pre debug timeout st)),
       snd (loop growslice_cap pre debug timeout st))
    /\ (exists tr d,
          snd (fst (loop growslice_cap pre debug timeout st))
          = tr ++ [WaitCancelWithTimeout d])
    /\ publishes (snd (fst (loop growslice_cap pre debug timeout st))) = length pre.
Proof.
  intros Hpre Hw. induction Hpre as [|[w0 rd0] pre Hw0 Hpre IH]; intros timeout st.
  - cbn. split; [destruct w; [contradiction|reflexivity|reflexivity]|].
    split; [exists [], timeout; reflexivity | reflexivity].
  - cbn in Hw0. subst w0. cbn [app loop].
    destruct (cycle_waits_publishes rd0 debug st) as [_ Hp].
    destruct (cycle growslice_cap rd0 debug st) as [evs st'].
    destruct (IH (3 * Second) st') as (Heq & (tr & d & Htr) & Hn).
    rewrite Heq.
    destruct (loop growslice_cap pre debug (3 * Second) st') as [[status evs'] st''].
    cbn [fst snd] in *.
    split; [reflexivity|]. split.
    + exists (WaitCancelWithTimeout timeout :: evs ++ tr), d.
      rewrite Htr. cbn. rewrite <- app_assoc. reflexivity.
    + change (WaitCancelWithTimeout timeout :: evs ++ evs')
        with ([WaitCancelWithTimeout timeout] ++ evs ++ evs').
      rewrite !publishes_app, Hp, Hn. reflexivity.
Qed.

(** C7. When, after any number of waits that timed out, a wait returns
    something other than [WaitTimeout] (cancellation), [CollectResource]
    returns; its trace and the memory are exactly those of the run that has
    completed the earlier cycles and has just called that wait: the wait is
    the last event, no sampler is launched and nothing is published after
    it, and the readings and answers that follow in the script are not
    consumed. *)
Theorem CollectResource_cancelled_wait (pre : list (WaitResult * Readings))
    (w : WaitResult) (rd : Readings) (rest : list (WaitResult * Readings))
    (debug : bool) (st : State) :
  Forall (fun x => fst x = WaitTimeout) pre ->
  w <> WaitTimeout ->
  CollectResource growslice_cap (pre ++ (w, rd) :: rest) debug st
  = (Returned,
     snd (fst (CollectResource growslice_cap pre debug st)),
     snd (CollectResource growslice_cap pre debug st))
  /\ (exists tr d,
        snd (fst (CollectResource growslice_cap (pre ++ (w, rd) :: rest) debug st))
        = tr ++ [WaitCancelWithTimeout d])
  /\ publishes (snd (fst (CollectResource growslice_cap (pre ++ (w, rd) :: rest) debug st)))
     = length pre.
Proof.
  intros Hpre Hw. unfold CollectResource.
  destruct (loop_cancelled pre w rd rest debug Hpre Hw 0 st) as (Heq & Hlast & Hn).
  rewrite Heq. cbn [fst snd]. repeat split; assumption.
Qed.

End loop_facts.

Lemma CollectResource_cancelled_wait_witness :
  Forall (fun x : resourcecollecter.WaitResult * resourcecollecter.Readings =>
            fst x = resourcecollecter.WaitTimeout)
         [(resourcecollecter.WaitTimeout, samples.rd_ok)]
  /\ resourcecollecter.WaitCancel <> resourcecollecter.WaitTimeout
  /\ resourcecollecter.CollectResource samples.exact_fit
       ([(resourcecollecter.WaitTimeout, samples.rd_ok)]
        ++ (resourcecollecter.WaitCancel, samples.rd_cpu_fails)
           :: [(resourcecollecter.WaitTimeout, samples.rd_ok)])
       true resourcecollecter.initState
     = (resourcecollecter.Returned,
        snd (fst (resourcecollecter.CollectResource samples.exact_fit
                    [(resourcecollecter.WaitTimeout, samples.rd_ok)] true
                    resourcecollecter.initState)),
        snd (resourcecollecter.CollectResource samples.exact_fit
               [(resourcecollecter.WaitTimeout, samples.rd_ok)] true
               resourcecollecter.initState)).
Proof.
  assert (H1 : Forall (fun x : resourcecollecter.WaitResult * resourcecollecter.Readings =>
                         fst x = resourcecollecter.WaitTimeout)
                      [(resourcecollecter.WaitTimeout, samples.rd_ok)]).
  { constructor; [reflexivity | constructor]. }
  assert (H2 : resourcecollecter.WaitCancel <> resourcecollecter.WaitTimeout)
    by discriminate.
  split; [exact H1|]. split; [exact H2|].
  exact (proj1 (CollectResource_cancelled_wait samples.exact_fit _
                  resourcecollecter.WaitCancel samples.rd_cpu_fails
                  [(resourcecollecter.WaitTimeout, samples.rd_ok)] true
                  resourcecollecter.initState H1 H2)).
Defined.

(** A run of two cycles that is then cancelled: the waits are given 0, 3 s
    and 3 s, and two snapshots are published. *)
Example CollectResource_sample_run :
  let '(status, tr, st) :=
    resourcecollecter.CollectResource samples.exact_fit
      [(resourcecollecter.WaitTimeout, samples.rd_ok);
       (resourcecollecter.WaitTimeout, samples.rd_cpu_fails);
       (resourcecollecter.WaitCancel, samples.rd_ok)]
      false resourcecollecter.initState in
  status = resourcecollecter.Returned
  /\ resourcecollecter.waits tr = [0; 3000000000; 3000000000]
  /\ resourcecollecter.publishes tr = 2%nat
  /\ last tr = Some (resourcecollecter.WaitCancelWithTimeout 3000000000).
Proof. vm_compute. repeat split; reflexivity. Qed.

(** ** Partial failure of a cycle *)

Section cycle_facts.
Import resourcecollecter.

Variable growslice_cap : nat -> nat -> nat.

(** A sampler that fails returns the zero value of its field. *)
Lemma failed_sampler_value (s : Sampler) (rd : Readings) :
  sampler_error s rd <> None -> sampler_value s rd = zero_field s.
Proof.
  destruct s; unfold sampler_error, sampler_value, zero_field.
  - unfold getCPUUsageRate.
    destruct (cpuStat1 rd); [destruct (cpuStat2 rd)|]; cbn; congruence.
  - unfold getMemUsageRate. destruct (memStat rd); cbn; congruence.
  - unfold getDiskUsageRate. destruct (diskStat rd "/"); cbn; congruence.
  - unfold getNetworkTraffic.
    destruct (netTraffic1 rd); [destruct (netTraffic2 rd)|]; cbn; congruence.
Qed.

(** A sampler that succeeds returns what package [resource] computes from
    the counters it read. *)
Lemma succeeded_sampler_value (s : Sampler) (rd : Readings) :
  sampler_error s rd = None ->
  match s with
  | CPU => exists a b, cpuStat1 rd = Ok a /\ cpuStat2 rd = Ok b
                       /\ sampler_value s rd = Rate (resource.CalculateCPURate a b)
  | Mem => exists m, memStat rd = Ok m
                     /\ sampler_value s rd = Rate (resource.CalculateMemRate m)
  | Disk => exists d, diskStat rd "/" = Ok d
                      /\ sampler_value s rd = Rate (resource.CalculateDiskRate d)
  | Net => exists a b l, netTraffic1 rd = Ok a /\ netTraffic2 rd = Ok b
                         /\ resource.CalculateNetworkTraffic a b 1 = Ok l
                         /\ sampler_value s rd = Traffic l
  end.
Proof.
  destruct s; unfold sampler_error, sampler_value.
  - unfold getCPUUsageRate.
    destruct (cpuStat1 rd) as [a|]; [destruct (cpuStat2 rd) as [b|]|]; cbn;
      try discriminate.
    intros _. exists a, b. repeat split.
  - unfold getMemUsageRate. destruct (memStat rd) as [m|]; cbn; try discriminate.
    intros _. exists m. repeat split.
  - unfold getDiskUsageRate. destruct (diskStat rd "/") as [d|]; cbn; try discriminate.
    intros _. exists d. repeat split.
  - unfold getNetworkTraffic.
    destruct (netTraffic1 rd) as [a|]; [destruct (netTraffic2 rd) as [b|]|]; cbn;
      try discriminate.
    intros _. exists a, b. eexists. repeat split.
Qed.

(** C1, amended. If exactly one of the four samplers fails during a cycle,
    the snapshot published at the end of the cycle holds, for each of the
    other three, the value that sampler returned, and holds the zero value
    (0.0, or the empty traffic list) in the field of the failed one,
    whatever the previously published snapshot was. *)
Theorem cycle_one_failure (rd : Readings) (debug : bool) (st : State) :
  length (failures rd) = 1%nat ->
  forall s : Sampler,
    match sampler_error s rd with
    | None =>
        field s (published (snd (cycle growslice_cap rd debug st))) = sampler_value s rd
    | Some _ =>
        field s (published (snd (cycle growslice_cap rd debug st))) = zero_field s
    end.
Proof.
  intros _ s.
  destruct (cycle_spec growslice_cap rd debug st) as [-> _].
  assert (Hf : field s (assembled rd) = sampler_value s rd) by (destruct s; reflexivity).
  rewrite Hf.
  destruct (sampler_error s rd) as [e|] eqn:He; [|reflexivity].
  apply failed_sampler_value. rewrite He. discriminate.
Qed.

End cycle_facts.

Lemma cycle_one_failure_witness :
  length (resourcecollecter.failures samples.rd_cpu_fails) = 1%nat
  /\ resourcecollecter.field resourcecollecter.CPU
       (resourcecollecter.published
          (snd (resourcecollecter.cycle samples.exact_fit samples.rd_cpu_fails false
                  resourcecollecter.initState)))
     = resourcecollecter.zero_field resourcecollecter.CPU
  /\ resourcecollecter.field resourcecollecter.Mem
       (resourcecollecter.published
          (snd (resourcecollecter.cycle samples.exact_fit samples.rd_cpu_fails false
                  resourcecollecter.initState)))
     = resourcecollecter.sampler_value resourcecollecter.Mem samples.rd_cpu_fails.
Proof.
  assert (H : length (resourcecollecter.failures samples.rd_cpu_fails) = 1%nat)
    by reflexivity.
  split; [exact H|]. split.
  - exact (cycle_one_failure samples.exact_fit samples.rd_cpu_fails false
             resourcecollecter.initState H resourcecollecter.CPU).
  - exact (cycle_one_failure samples.exact_fit samples.rd_cpu_fails false
             resourcecollecter.initState H resourcecollecter.Mem).
Defined.

(** C1, as stated, fails: a first cycle publishes a CPU rate of 50; in the
    second cycle the CPU sampler alone fails, and the snapshot then published
    has the CPU rate 0, not the 50 of the previously published snapshot.  The
    other three fields hold the values sampled. *)
Lemma failed_field_is_reset_not_kept :
  let st1 := snd (resourcecollecter.CollectResource samples.exact_fit
                    [(resourcecollecter.WaitTimeout, samples.rd_ok)] false
                    resourcecollecter.initState) in
  let st2 := snd (resourcecollecter.CollectResource samples.exact_fit
                    [(resourcecollecter.WaitTimeout, samples.rd_ok);
                     (resourcecollecter.WaitTimeout, samples.rd_cpu_fails)] false
                    resourcecollecter.initState) in
  resourcecollecter.failures samples.rd_cpu_fails = [resourcecollecter.CPU]
  /\ (resourcecollecter.cpu (resourcecollecter.published st1) == 50)%Q
  /\ resourcecollecter.cpu (resourcecollecter.published st2) = 0%Q
  /\ ~ (resourcecollecter.cpu (resourcecollecter.published st2)
        == resourcecollecter.cpu (resourcecollecter.published st1))%Q
  /\ resourcecollecter.mem (resourcecollecter.published st2)
     = resourcecollecter.mem (resourcecollecter.published st1)
  /\ resourcecollecter.net (resourcecollecter.published st2)
     = [samples.t_eth0].
Proof.
  vm_compute. repeat split; try reflexivity. discriminate.
Qed.

(** ** The rates *)

Section rate_facts.
Import resourcecollecter.

(** C5. When the first CPU counter read gives A and the second, made after
    a sleep of one second, gives B, [getCPUUsageRate] returns, without error,
    (busyTimeB - busyTimeA) / (totalTimeB - totalTimeA) x 100 clamped to
    [0,100]; its calls are the read, a sleep of 1 000 000 000 ns, the read;
    and for A = (busy 100, total 200), B = (busy 150, total 300) the rate is
    50. *)
Theorem getCPUUsageRate_formula (rd : Readings) (A B : resource.CPUStat) :
  cpuStat1 rd = Ok A ->
  cpuStat2 rd = Ok B ->
  getCPUUsageRate rd
  = ((resource.clamp
        ((resource.counter (resource.busyTime B) - resource.counter (resource.busyTime A))
         / (resource.counter (resource.totalTime B) - resource.counter (resource.totalTime A))
         * 100)%Q,
      None),
     [GetCPUStat; Sleep 1000000000; GetCPUStat])
  /\ (A = resource.mkCPUStat 100 200 -> B = resource.mkCPUStat 150 300 ->
      (fst (fst (getCPUUsageRate rd)) == 50)%Q).
Proof.
  intros HA HB. unfold getCPUUsageRate. rewrite HA, HB.
  split; [reflexivity|].
  intros -> ->. reflexivity.
Qed.







End rate_facts.

Lemma getCPUUsageRate_formula_witness :
  resourcecollecter.cpuStat1 samples.rd_ok = Ok (resource.mkCPUStat 100 200)
  /\ resourcecollecter.cpuStat2 samples.rd_ok = Ok (resource.mkCPUStat 150 300)
  /\ (fst (fst (resourcecollecter.getCPUUsageRate samples.rd_ok)) == 50)%Q
  /\ snd (resourcecollecter.getCPUUsageRate samples.rd_ok)
     = [resourcecollecter.GetCPUStat; resourcecollecter.Sleep 1000000000;
        resourcecollecter.GetCPUStat].
Proof.
  split; [reflexivity|]. split; [reflexivity|].
  destruct (getCPUUsageRate_formula samples.rd_ok _ _ eq_refl eq_refl) as [Heq H50].
  split; [exact (H50 eq_refl eq_refl)|].
  rewrite Heq. reflexivity.
Defined.

Section bound_facts.
Import resourcecollecter.

Variable growslice_cap : nat -> nat -> nat.


End bound_facts.



(** Scenario C of the specification: 1000 then 2000 bytes in, 500 then 1500
    bytes out over one second are 8000 and 8000 bits per second. *)
Example getNetworkTraffic_scenario_C :
  fst (resourcecollecter.getNetworkTraffic samples.rd_ok)
  = (Some [resource.mkNetworkTraffic "eth0" 8000 8000], None).
Proof. vm_compute. reflexivity. Qed.

(** * Further properties *)

(** ** The store under publication and collection *)

Section collecting_facts.
Import resourcecollecter collecting.

Variable growslice_cap : nat -> nat -> nat.

Implicit Types (h : gmap loc (list resource.NetworkTraffic)) (s : Slice).
Implicit Types (r : Resource) (st : State).

Lemma extends_refl h : extends h h.
Proof. intros a Ha. split; [reflexivity | exact Ha]. Qed.

Lemma extends_trans h1 h2 h3 : extends h1 h2 -> extends h2 h3 -> extends h1 h3.
Proof.
  intros H12 H23 a Ha.
  destruct (H12 a Ha) as [E1 D1]. destruct (H23 a D1) as [E2 D2].
  split; [congruence | exact D2].
Qed.

Lemma elems_extends h h' s :
  extends h h' -> allocated h s -> elems h' s = elems h s.
Proof.
  intros He Hs. destruct s as [|a off len cap]; [reflexivity|].
  cbn in *. rewrite (proj1 (He a Hs)). reflexivity.
Qed.

Lemma allocated_extends h h' s : extends h h' -> allocated h s -> allocated h' s.
Proof.
  intros He Hs. destruct s as [|a off len cap]; [exact I|].
  cbn in *. exact (proj2 (He a Hs)).
Qed.

Lemma alloc_extends h cells h' l : alloc h cells = (h', l) -> extends h h'.
Proof.
  intros Ha. apply alloc_spec in Ha as [Hl ->]. intros a Hin.
  assert (a <> l) by (intros ->; contradiction).
  rewrite lookup_insert_ne by congruence. rewrite dom_insert_L.
  split; [reflexivity | set_solver].
Qed.

Lemma SetGlobalResource_extends r st :
  extends (heap st) (heap (SetGlobalResource growslice_cap r st)).
Proof.
  destruct (SetGlobalResource_spec growslice_cap r st) as (_ & _ & Hkeep). exact Hkeep.
Qed.

Lemma SetGlobalResource_ok r st : store_ok (SetGlobalResource growslice_cap r st).
Proof.
  destruct (SetGlobalResource_spec growslice_cap r st)
    as (_ & (a & off & len & cap & HG & _ & Hin) & _).
  unfold store_ok. rewrite HG. exact Hin.
Qed.

Lemma GetGlobalResource_extends st :
  extends (heap st) (heap (snd (GetGlobalResource growslice_cap st))).
Proof.
  pose proof (GetGlobalResource_spec growslice_cap st) as H.
  destruct (GetGlobalResource growslice_cap st) as [c st'].
  destruct H as (_ & _ & _ & Hkeep). exact Hkeep.
Qed.

(** A read leaves the store as it was, for whoever reads next. *)
Lemma GetGlobalResource_keeps st :
  store_ok st ->
  store_ok (snd (GetGlobalResource growslice_cap st))
  /\ published (snd (GetGlobalResource growslice_cap st)) = published st.
Proof.
  intros Hok.
  pose proof (GetGlobalResource_extends st) as Hext.
  pose proof (GetGlobalResource_spec growslice_cap st) as H.
  destruct (GetGlobalResource growslice_cap st) as [c st'].
  destruct H as (_ & HG & _). cbn [snd] in *.
  unfold store_ok, published, view in *. rewrite HG.
  split; [exact (allocated_extends _ _ _ Hext Hok)|].
  rewrite (elems_extends _ _ _ Hext Hok). reflexivity.
Qed.

Lemma cycle_extends (rd : Readings) (debug : bool) st :
  extends (heap st) (heap (snd (cycle growslice_cap rd debug st)))
  /\ store_ok (snd (cycle growslice_cap rd debug st)).
Proof.
  unfold cycle.
  destruct (getCPUUsageRate rd) as [[v1 e1] k1].
  destruct (getMemUsageRate rd) as [[v2 e2] k2].
  destruct (getDiskUsageRate rd) as [[v3 e3] k3].
  destruct (getNetworkTraffic rd) as [[l e4] k4].
  destruct (returned_slice (heap st) l) as [h s] eqn:Hs.
  cbn [snd].
  assert (Hext : extends (heap st) h).
  { destruct l as [cells|]; unfold returned_slice in Hs.
    - destruct (alloc (heap st) cells) as [h' a] eqn:Ha.
      injection Hs as <- <-. exact (alloc_extends _ _ _ _ Ha).
    - injection Hs as <- <-. apply extends_refl. }
  split; [|apply SetGlobalResource_ok].
  eapply extends_trans; [exact Hext|].
  match goal with
  | |- context [SetGlobalResource _ ?r ?st0] =>
      exact (SetGlobalResource_extends r st0)
  end.
Qed.

Lemma loop_extends (script : list (WaitResult * Readings)) (debug : bool) :
  forall (timeout : Duration) st,
    extends (heap st) (heap (snd (loop growslice_cap script debug timeout st)))
    /\ (store_ok st -> store_ok (snd (loop growslice_cap script debug timeout st))).
Proof.
  induction script as [|[w rd] rest IH]; intros timeout st.
  - cbn. split; [apply extends_refl | tauto].
  - destruct w; cbn [loop]; try (cbn; split; [apply extends_refl | tauto]).
    destruct (cycle_extends rd debug st) as [Hc Hok].
    destruct (cycle growslice_cap rd debug st) as [evs st'].
    specialize (IH (3 * Second) st'). cbn [snd] in *.
    destruct (loop growslice_cap rest debug (3 * Second) st') as [[status evs'] st''].
    cbn [snd] in *. destruct IH as [IHe IHok].
    split; [exact (extends_trans _ _ _ Hc IHe) | intros _; exact (IHok Hok)].
Qed.

(** X1. A snapshot copy handed out by [GetGlobalResource] stays what it was,
    whatever run of [CollectResource] follows (any number of cycles and
    publications, with or without debug lines): it still shows the snapshot
    that was published when it was taken. *)
Theorem reader_copy_survives_collection st
    (script : list (WaitResult * Readings)) (debug : bool) :
  let '(c, st1) := GetGlobalResource growslice_cap st in
  view (heap (snd (CollectResource growslice_cap script debug st1))) c = published st.
Proof.
  pose proof (GetGlobalResource_spec growslice_cap st) as H.
  destruct (GetGlobalResource growslice_cap st) as [c st1].
  destruct H as (Hview & _ & (a & off & len & cap & Hc & _ & Hin) & _).
  destruct (loop_extends script debug 0 st1) as [Hext _].
  rewrite <- Hview. unfold view. f_equal.
  unfold CollectResource. apply elems_extends; [exact Hext|].
  rewrite Hc. exact Hin.
Qed.

Lemma publish_all_extends (rs : list Resource) :
  forall st,
    extends (heap st)
      (heap (foldl (fun st0 r0 => SetGlobalResource growslice_cap r0 st0) st rs)).
Proof.
  induction rs as [|r0 rs IH]; intros st; [apply extends_refl|].
  cbn. eapply extends_trans; [apply SetGlobalResource_extends | apply IH].
Qed.

(** X2. The store holds the last value published and nothing of the
    earlier ones: after any sequence of [SetGlobalResource] calls followed
    by [SetGlobalResource(&r)], the stored snapshot is [r] as it was when the
    sequence began, provided the traffic list of [r] points into allocated
    memory. *)
Theorem last_publication_wins (rs : list Resource) r st :
  allocated (heap st) (NetworkTraffic r) ->
  published (foldl (fun st0 r0 => SetGlobalResource growslice_cap r0 st0) st (rs ++ [r]))
  = view (heap st) r.
Proof.
  intros Hr. rewrite foldl_app. cbn [foldl].
  destruct (SetGlobalResource_spec growslice_cap r
              (foldl (fun st0 r0 => SetGlobalResource growslice_cap r0 st0) st rs))
    as (Hpub & _).
  rewrite Hpub. unfold view. f_equal.
  apply elems_extends; [apply publish_all_extends | exact Hr].
Qed.

Lemma after_reads_keeps (n : nat) :
  forall st, store_ok st ->
    store_ok (after_reads growslice_cap n st)
    /\ published (after_reads growslice_cap n st) = published st.
Proof.
  induction n as [|n IH]; intros st Hok; [split; [exact Hok | reflexivity]|].
  cbn [after_reads]. destruct (GetGlobalResource_keeps st Hok) as [Hok' Hp'].
  destruct (IH _ Hok') as [Hok'' Hp''].
  split; [exact Hok'' | rewrite Hp''; exact Hp'].
Qed.

(** X3. Reading is repeatable: on a store whose traffic list points into
    allocated memory, after any number of [GetGlobalResource] calls the stored
    snapshot is unchanged and the next call returns it again. *)
Theorem reads_are_repeatable (n : nat) st :
  store_ok st ->
  published (after_reads growslice_cap n st) = published st
  /\ (let '(c, st') := GetGlobalResource growslice_cap (after_reads growslice_cap n st) in
      view (heap st') c = published st).
Proof.
  intros Hok. destruct (after_reads_keeps n st Hok) as [_ Hp].
  split; [exact Hp|].
  pose proof (GetGlobalResource_spec growslice_cap (after_reads growslice_cap n st)) as H.
  destruct (GetGlobalResource growslice_cap _) as [c st'].
  destruct H as (Hview & _). congruence.
Qed.

End collecting_facts.

(** ** Runs of the collection loop *)

Section run_facts.
Import resourcecollecter collecting.

Variable growslice_cap : nat -> nat -> nat.

Lemma loop_last_cycle (script : list (WaitResult * Readings)) (debug : bool) :
  forall (timeout : Duration) (st : State),
    published (snd (loop growslice_cap script debug timeout st))
    = match last (cycles_run script) with
      | Some rd => assembled rd
      | None => published st
      end
    /\ publishes (snd (fst (loop growslice_cap script debug timeout st)))
       = length (cycles_run script).
Proof.
  induction script as [|[w rd] rest IH]; intros timeout st; [split; reflexivity|].
  destruct w; [|split; reflexivity|split; reflexivity].
  cbn [loop cycles_run].
  destruct (cycle_spec growslice_cap rd debug st) as [Hpub _].
  destruct (cycle_waits_publishes growslice_cap rd debug st) as [_ Hp].
  destruct (cycle growslice_cap rd debug st) as [evs st'].
  destruct (IH (3 * Second) st') as [IHs IHn].
  destruct (loop growslice_cap rest debug (3 * Second) st') as [[status evs'] st''].
  cbn [fst snd] in *. split.
  - rewrite IHs, last_cons. destruct (last (cycles_run rest)); [reflexivity | exact Hpub].
  - change (WaitCancelWithTimeout timeout :: evs ++ evs')
      with ([WaitCancelWithTimeout timeout] ++ evs ++ evs').
    rewrite !publishes_app, Hp, IHn. reflexivity.
Qed.

(** X4. The snapshot in the store after a run of [CollectResource] is the
    one assembled from the readings of the last cycle that ran (one cycle per
    wait that timed out, up to the first wait that did not), whatever the
    earlier cycles and the initial store were; it is the initial one when no
    cycle ran.  The run published once per cycle that ran. *)
Theorem snapshot_is_last_cycle (script : list (WaitResult * Readings))
    (debug : bool) (st : State) :
  published (snd (CollectResource growslice_cap script debug st))
  = match last (cycles_run script) with
    | Some rd => assembled rd
    | None => published st
    end
  /\ publishes (snd (fst (CollectResource growslice_cap script debug st)))
     = length (cycles_run script).
Proof. exact (loop_last_cycle script debug 0 st). Qed.

Lemma loop_status (script : list (WaitResult * Readings)) (debug : bool) :
  forall (timeout : Duration) (st : State),
    fst (fst (loop growslice_cap script debug timeout st)) = Returned
    <-> Exists (fun x => fst x <> WaitTimeout) script.
Proof.
  induction script as [|[w rd] rest IH]; intros timeout st.
  - cbn. split; [discriminate | intros H; inversion H].
  - destruct w; cbn [loop].
    + specialize (IH (3 * Second) (snd (cycle growslice_cap rd debug st))).
      destruct (cycle growslice_cap rd debug st) as [evs st']. cbn [snd] in IH.
      destruct (loop growslice_cap rest debug (3 * Second) st') as [[status evs'] st''].
      cbn [fst snd] in *. rewrite IH. split.
      * intros H. right. exact H.
      * intros H. inversion H as [x l Hx|x l Hx]; subst; [|exact Hx].
        cbn in Hx. contradiction.
    + cbn. split; [intros _; left; discriminate | reflexivity].
    + cbn. split; [intros _; left; discriminate | reflexivity].
Qed.

(** One more wait that times out, after waits that all timed out, adds one
    cycle and one wait to the run. *)
Lemma loop_snoc (script : list (WaitResult * Readings)) (rd : Readings) (debug : bool) :
  Forall (fun x => fst x = WaitTimeout) script ->
  forall (timeout : Duration) (st : State),
    loop growslice_cap (script ++ [(WaitTimeout, rd)]) debug timeout st
    = (Waiting,
       snd (fst (loop growslice_cap script debug timeout st))
       ++ cycle_trace rd debug ++ [WaitCancelWithTimeout (3 * Second)],
       snd (cycle growslice_cap rd debug
              (snd (loop growslice_cap script debug timeout st)))).
Proof.
  intros Hall. induction Hall as [|[w rd0] rest Hw Hall IH]; intros timeout st.
  - cbn [app loop fst snd].
    pose proof (cycle_trace_eq growslice_cap rd debug st) as Hc.
    destruct (cycle growslice_cap rd debug st) as [evs st']. cbn [fst snd] in *.
    subst evs. reflexivity.
  - cbn in Hw. subst w. cbn [app loop].
    destruct (cycle growslice_cap rd0 debug st) as [evs st'].
    rewrite (IH (3 * Second) st').
    destruct (loop growslice_cap rest debug (3 * Second) st') as [[status evs'] st''].
    cbn [fst snd]. rewrite app_comm_cons, app_assoc. reflexivity.
Qed.

(** X5. [CollectResource] returns exactly when some wait answers something
    other than [WaitTimeout], and is still waiting exactly when every wait
    so far timed out.  As long as every wait times out it goes on with one
    more cycle and one more wait: one more wait that times out, with its
    readings, extends the run by the four launches, the join, the
    publication and the debug lines of one cycle on these readings and by a
    wait of 3 * [time.Second], and leaves the memory that this cycle leaves. *)
Theorem CollectResource_returns_iff (script : list (WaitResult * Readings))
    (debug : bool) (st : State) :
  (fst (fst (CollectResource growslice_cap script debug st)) = Returned
   <-> Exists (fun x => fst x <> WaitTimeout) script)
  /\ (fst (fst (CollectResource growslice_cap script debug st)) = Waiting
      <-> Forall (fun x => fst x = WaitTimeout) script)
  /\ (Forall (fun x => fst x = WaitTimeout) script ->
      forall rd : Readings,
        CollectResource growslice_cap (script ++ [(WaitTimeout, rd)]) debug st
        = (Waiting,
           snd (fst (CollectResource growslice_cap script debug st))
           ++ cycle_trace rd debug ++ [WaitCancelWithTimeout 3000000000],
           snd (cycle growslice_cap rd debug
                  (snd (CollectResource growslice_cap script debug st))))).
Proof.
  pose proof (loop_status script debug 0 st) as H.
  unfold CollectResource. split; [exact H|].
  split; [|intros Hall rd; exact (loop_snoc script rd debug Hall 0 st)].
  destruct (fst (fst (loop growslice_cap script debug 0 st))) eqn:Hs.
  - split; [discriminate|]. intros Hall.
    destruct (proj1 H eq_refl) as [x l Hx|x l Hx]; [inversion Hall; subst; contradiction|].
    exfalso. apply Exists_exists in Hx as (y & Hy & Hny).
    rewrite Forall_forall in Hall. apply Hny, Hall. right. exact Hy.
  - split; [intros _|reflexivity].
    apply Forall_forall. intros x Hx.
    destruct (fst x) eqn:Hw; [reflexivity| |];
      (assert (Hex : Exists (fun x => fst x <> WaitTimeout) script)
         by (apply Exists_exists; exists x; split; [exact Hx | rewrite Hw; discriminate]);
       apply H in Hex; discriminate).
Qed.

Lemma loop_trace_independent (g' : nat -> nat -> nat)
    (script : list (WaitResult * Readings)) (debug : bool) :
  forall (timeout : Duration) (st st' : State),
    fst (loop growslice_cap script debug timeout st)
    = fst (loop g' script debug timeout st').
Proof.
  induction script as [|[w rd] rest IH]; intros timeout st st'; [reflexivity|].
  destruct w; [|reflexivity|reflexivity].
  cbn [loop].
  pose proof (cycle_trace_eq growslice_cap rd debug st) as H1.
  destruct (cycle growslice_cap rd debug st) as [evs st1].
  pose proof (cycle_trace_eq g' rd debug st') as H2.
  destruct (cycle g' rd debug st') as [evs' st1'].
  cbn [fst] in H1, H2. subst evs evs'.
  specialize (IH (3 * Second) st1 st1').
  destruct (loop growslice_cap rest debug (3 * Second) st1) as [[s1 t1] x1].
  destruct (loop g' rest debug (3 * Second) st1') as [[s2 t2] x2].
  cbn [fst] in *. injection IH as -> ->. reflexivity.
Qed.

(** X6. What [CollectResource] does (how it ends, and its events with the
    snapshots it publishes) is decided by the answers it gets from the waits
    and the counter reads alone: the same script gives the same trace from
    any initial store and under any growth policy of the runtime. *)
Theorem CollectResource_trace_independent (g' : nat -> nat -> nat)
    (script : list (WaitResult * Readings)) (debug : bool) (st st' : State) :
  fst (CollectResource growslice_cap script debug st)
  = fst (CollectResource g' script debug st').
Proof. apply loop_trace_independent. Qed.

End run_facts.

(** ** The order of events, the warnings and the debug lines *)

Section trace_facts.
Import resourcecollecter collecting.

Variable growslice_cap : nat -> nat -> nat.

Lemma steps_app (p : Phase) (a b : list Event) :
  steps p (a ++ b) = match steps p a with Some q => steps q b | None => None end.
Proof.
  revert p. induction a as [|e a IH]; intros p; [reflexivity|].
  cbn. destruct (step p e); [apply IH | reflexivity].
Qed.

Lemma steps_debug_lines (snap : Snapshot) :
  steps Published (debug_lines snap) = Some Published.
Proof.
  unfold debug_lines. cbn. induction (net snap) as [|t l IH]; [reflexivity | exact IH].
Qed.

Lemma steps_cycle_trace (rd : Readings) (debug : bool) :
  steps Waited (cycle_trace rd debug) = Some Published.
Proof.
  unfold cycle_trace. rewrite steps_app. cbn [steps step].
  destruct debug; [apply steps_debug_lines | reflexivity].
Qed.

Lemma loop_follows_protocol (script : list (WaitResult * Readings)) (debug : bool) :
  forall (p : Phase) (timeout : Duration) (st : State),
    p = Idle \/ p = Published ->
    steps p (snd (fst (loop growslice_cap script debug timeout st))) = Some Waited.
Proof.
  induction script as [|[w rd] rest IH]; intros p timeout st Hp.
  - destruct Hp as [-> | ->]; reflexivity.
  - destruct w; cbn [loop]; try (destruct Hp as [-> | ->]; reflexivity).
    pose proof (cycle_trace_eq growslice_cap rd debug st) as Hc.
    destruct (cycle growslice_cap rd debug st) as [evs st']. cbn [fst] in Hc. subst evs.
    specialize (IH Published (3 * Second) st' (or_intror eq_refl)).
    destruct (loop growslice_cap rest debug (3 * Second) st') as [[status evs'] st''].
    cbn [fst snd] in *.
    assert (Hw : step p (WaitCancelWithTimeout timeout) = Some Waited)
      by (destruct Hp as [-> | ->]; reflexivity).
    cbn [steps]. rewrite Hw, steps_app, steps_cycle_trace. exact IH.
Qed.

Lemma publications_app (a b : list Event) :
  publications (a ++ b) = publications a ++ publications b.
Proof. unfold publications. apply omap_app. Qed.

Lemma launched_app (a b : list Event) : launched (a ++ b) = launched a ++ launched b.
Proof. unfold launched. apply omap_app. Qed.

Lemma projections_debug_lines (snap : Snapshot) :
  publications (debug_lines snap) = [] /\ launched (debug_lines snap) = [].
Proof.
  unfold publications, launched, debug_lines. cbn.
  induction (net snap) as [|t l [IH1 IH2]]; [split; reflexivity | split; assumption].
Qed.

Lemma projections_cycle_trace (rd : Readings) (debug : bool) :
  publications (cycle_trace rd debug) = [assembled rd]
  /\ launched (cycle_trace rd debug)
     = map (fun s => (s, go_calls s rd)) [CPU; Mem; Disk; Net].
Proof.
  unfold cycle_trace. rewrite publications_app, launched_app.
  assert (Hd : publications (if debug then debug_lines (assembled rd) else []) = []
               /\ launched (if debug then debug_lines (assembled rd) else []) = [])
    by (destruct debug; [apply projections_debug_lines | split; reflexivity]).
  destruct Hd as [-> ->]. split; reflexivity.
Qed.

Lemma projections_rounds (rds : list Readings) (debug : bool) :
  publications (rounds rds debug) = map assembled rds
  /\ launched (rounds rds debug)
     = List.flat_map (fun rd => map (fun s => (s, go_calls s rd)) [CPU; Mem; Disk; Net]) rds.
Proof.
  induction rds as [|rd rds [IHp IHl]]; [split; reflexivity|].
  destruct (projections_cycle_trace rd debug) as [Hp Hl].
  unfold rounds in *. cbn [List.flat_map map].
  rewrite !publications_app, !launched_app, Hp, Hl, IHp, IHl. split; reflexivity.
Qed.

(** X7. Every run of [CollectResource] keeps one order of events: a wait;
    then, for each wait that timed out, the four launches in the order CPU,
    memory, disk, network, the join [wg.Wait()], one publication, the debug
    lines if any, and the next wait.  The rounds are those of the script:
    the goroutines launched are, cycle by cycle, the four samplers on the
    readings that come with each wait that timed out, the snapshots
    published are the ones assembled from these readings, in this order, and
    there is one wait more than there are cycles.  In particular nothing is
    published before the four samplers were joined, and a run always ends in
    a wait. *)
Theorem CollectResource_follows_protocol (script : list (WaitResult * Readings))
    (debug : bool) (st : State) :
  let tr := snd (fst (CollectResource growslice_cap script debug st)) in
  steps Idle tr = Some Waited
  /\ launched tr
     = List.flat_map (fun rd => map (fun s => (s, go_calls s rd)) [CPU; Mem; Disk; Net])
         (cycles_run script)
  /\ publications tr = map assembled (cycles_run script)
  /\ length (waits tr) = S (length (cycles_run script)).
Proof.
  cbv zeta. split; [apply loop_follows_protocol; left; reflexivity|].
  unfold CollectResource. rewrite (loop_trace growslice_cap script debug 0 st).
  destruct (projections_rounds (cycles_run script) debug) as [Hp Hl].
  destruct (rounds_waits_publishes growslice_cap (cycles_run script) debug) as [Hw _].
  change (WaitCancelWithTimeout 0 :: rounds (cycles_run script) debug)
    with ([WaitCancelWithTimeout 0] ++ rounds (cycles_run script) debug).
  rewrite launched_app, publications_app, waits_app, Hp, Hl, Hw.
  rewrite length_app, length_replicate. repeat split; reflexivity.
Qed.

Lemma warnings_app (a b : list Event) :
  warnings (a ++ b) = (warnings a + warnings b)%nat.
Proof.
  induction a as [|e a IH]; [reflexivity|].
  destruct e; cbn; rewrite IH; lia.
Qed.

Lemma warnings_debug_lines (snap : Snapshot) : warnings (debug_lines snap) = 0%nat.
Proof.
  unfold debug_lines. cbn. induction (net snap) as [|t l IH]; [reflexivity | exact IH].
Qed.

Lemma warnings_cycle_trace (rd : Readings) (debug : bool) :
  warnings (cycle_trace rd debug) = length (failures rd).
Proof.
  unfold cycle_trace. rewrite warnings_app.
  assert (Hd : warnings (if debug then debug_lines (assembled rd) else []) = 0%nat)
    by (destruct debug; [apply warnings_debug_lines | reflexivity]).
  rewrite Hd.
  unfold failures, sampler_error, go_calls,
    getCPUUsageRate, getMemUsageRate, getDiskUsageRate, getNetworkTraffic.
  destruct (cpuStat1 rd); [destruct (cpuStat2 rd)|];
    destruct (memStat rd); destruct (diskStat rd "/");
    (destruct (netTraffic1 rd); [destruct (netTraffic2 rd)|]); reflexivity.
Qed.

Lemma loop_warnings (script : list (WaitResult * Readings)) (debug : bool) :
  forall (timeout : Duration) (st : State),
    warnings (snd (fst (loop growslice_cap script debug timeout st)))
    = sum_list (map (fun rd => length (failures rd)) (cycles_run script)).
Proof.
  induction script as [|[w rd] rest IH]; intros timeout st; [reflexivity|].
  destruct w; [|reflexivity|reflexivity].
  cbn [loop cycles_run].
  pose proof (cycle_trace_eq growslice_cap rd debug st) as Hc.
  destruct (cycle growslice_cap rd debug st) as [evs st']. cbn [fst] in Hc. subst evs.
  specialize (IH (3 * Second) st').
  destruct (loop growslice_cap rest debug (3 * Second) st') as [[status evs'] st''].
  cbn [fst snd] in *.
  cbn [warnings map sum_list]. rewrite warnings_app, warnings_cycle_trace, IH.
  reflexivity.
Qed.

(** X8. A run of [CollectResource] logs exactly one warning for each
    sampler failure: the number of [LogWarn] calls made by its goroutines is
    the total, over the cycles that ran, of the samplers that returned an
    error; a cycle in which no sampler fails logs none. *)
Theorem one_warning_per_failure (script : list (WaitResult * Readings))
    (debug : bool) (st : State) :
  warnings (snd (fst (CollectResource growslice_cap script debug st)))
  = sum_list (map (fun rd => length (failures rd)) (cycles_run script)).
Proof. apply loop_warnings. Qed.

Lemma cycle_state_debug (rd : Readings) (st : State) :
  snd (cycle growslice_cap rd true st) = snd (cycle growslice_cap rd false st).
Proof.
  unfold cycle.
  destruct (getCPUUsageRate rd) as [[v1 e1] k1].
  destruct (getMemUsageRate rd) as [[v2 e2] k2].
  destruct (getDiskUsageRate rd) as [[v3 e3] k3].
  destruct (getNetworkTraffic rd) as [[l e4] k4].
  destruct (returned_slice (heap st) l) as [h s]. reflexivity.
Qed.

Lemma filter_debug_lines (snap : Snapshot) :
  List.filter (fun e => negb (is_debug e)) (debug_lines snap) = [].
Proof.
  unfold debug_lines. cbn. induction (net snap) as [|t l IH]; [reflexivity | exact IH].
Qed.

Lemma filter_cycle_trace (rd : Readings) (debug : bool) :
  List.filter (fun e => negb (is_debug e)) (cycle_trace rd debug) = cycle_trace rd false.
Proof.
  unfold cycle_trace. rewrite List.filter_app. cbn [List.filter is_debug negb app].
  destruct debug; [rewrite filter_debug_lines|]; reflexivity.
Qed.

Lemma loop_debug (script : list (WaitResult * Readings)) :
  forall (timeout : Duration) (st : State),
    fst (fst (loop growslice_cap script true timeout st))
    = fst (fst (loop growslice_cap script false timeout st))
    /\ List.filter (fun e => negb (is_debug e))
         (snd (fst (loop growslice_cap script true timeout st)))
       = snd (fst (loop growslice_cap script false timeout st))
    /\ snd (loop growslice_cap script true timeout st)
       = snd (loop growslice_cap script false timeout st).
Proof.
  induction script as [|[w rd] rest IH]; intros timeout st;
    [repeat split|].
  destruct w; [|repeat split|repeat split].
  cbn [loop].
  pose proof (cycle_trace_eq growslice_cap rd true st) as Ht.
  pose proof (cycle_trace_eq growslice_cap rd false st) as Hf.
  pose proof (cycle_state_debug rd st) as Hs.
  destruct (cycle growslice_cap rd true st) as [evs1 st1].
  destruct (cycle growslice_cap rd false st) as [evs2 st2].
  cbn [fst snd] in *. subst evs1 evs2 st2.
  specialize (IH (3 * Second) st1).
  destruct (loop growslice_cap rest true (3 * Second) st1) as [[s1 t1] x1].
  destruct (loop growslice_cap rest false (3 * Second) st1) as [[s2 t2] x2].
  cbn [fst snd] in *. destruct IH as (-> & <- & ->).
  split; [reflexivity|]. split; [|reflexivity].
  cbn [List.filter is_debug negb]. rewrite List.filter_app, filter_cycle_trace.
  reflexivity.
Qed.

(** X9. Debug mode changes nothing but the log: with
    [config.RunConf.DebugMode] set, a run of [CollectResource] ends the same
    way and leaves the same memory (the same snapshots in the store) as
    without it, and its events are those of the run without it once the
    [LogDebug] lines are taken out. *)
Theorem debug_mode_only_adds_lines (script : list (WaitResult * Readings)) (st : State) :
  fst (fst (CollectResource growslice_cap script true st))
  = fst (fst (CollectResource growslice_cap script false st))
  /\ List.filter (fun e => negb (is_debug e))
       (snd (fst (CollectResource growslice_cap script true st)))
     = snd (fst (CollectResource growslice_cap script false st))
  /\ snd (CollectResource growslice_cap script true st)
     = snd (CollectResource growslice_cap script false st).
Proof. apply loop_debug. Qed.

End trace_facts.

(** ** The start command *)

Lemma IsRunning_pid_is_Some (os : cmd.OS) (v : Z) (path : string) :
  exists n, snd (cmd.IsRunning os (Some v) path) = Some n.
Proof.
  unfold cmd.IsRunning.
  destruct (cmd.os_Open os path) as [file|e]; [|eauto].
  destruct (cmd.io_ReadAll os file) as [pidStr|e]; [|eauto].
  destruct (strconv.Atoi pidStr) as [n [e|]]; eauto.
Qed.

(** All the paths of [start], one goal each. *)
Ltac start_paths host c g :=
  unfold operation.start, operation.initialization;
  destruct (cmd.file_ChangeWorkPathToModulePath (operation.os host)) as [?err|] eqn:?Hcd;
  [|let n := fresh "n" in
    let Hn := fresh "Hn" in
    destruct (IsRunning_pid_is_Some (operation.os host) 0 config.PidFilePath) as [n Hn];
    destruct (cmd.IsRunning (operation.os host) (Some 0) config.PidFilePath)
      as [[|] ?pid'] eqn:?Hrun;
    cbn [snd] in Hn; subst; cbn [default];
    [|destruct (operation.process_DaemonizeProcess host) as [?err|] eqn:?Hdm;
      [|destruct (operation.file_WriteDataToTextFile host config.PidFilePath _ true)
          as [?err|] eqn:?Hwr;
        [|destruct (String.eqb (cmd.Use c) "debug") eqn:?Huse;
          destruct (config.LoadConfig (operation.env host) config.RecvConf config.ConfFilePath _)
            as [[?Conf' ?r'] ?lerr] eqn:?Hload;
          destruct (operation.sigChan host) as [?sig|] eqn:?Hsig]]]].

Section start_facts.
Import operation.

Lemma ParseUint_loop_range (s : string) :
  forall n v, strconv.ParseUint_loop s n = (v, Some strconv.ErrRange) ->
              v = strconv.maxUint64.
Proof.
  induction s as [|d s IH]; intros n v; cbn [strconv.ParseUint_loop]; [discriminate|].
  destruct (strconv.digit d); [|discriminate].
  case_if; [intros [= <-]; reflexivity|].
  case_if; [intros [= <-]; reflexivity|].
  apply IH.
Qed.

Lemma ParseUint_loop_digits (s : string) :
  forall n v, strconv.ParseUint_loop s n = (v, None) -> digits_only s = true.
Proof.
  induction s as [|d s IH]; intros n v; cbn [strconv.ParseUint_loop digits_only];
    [reflexivity|].
  destruct (strconv.digit d); [|discriminate].
  case_if; [discriminate|].
  case_if; [discriminate|].
  apply IH.
Qed.

Lemma ParseInt_syntax (s : string) (n : Z) :
  strconv.ParseInt s = (n, None) -> integer_syntax s = true.
Proof.
  unfold strconv.ParseInt, integer_syntax.
  destruct s as [|c rest]; [discriminate|]. cbv zeta.
  set (body := if (Ascii.eqb c "+" || Ascii.eqb c "-")%bool then rest else String c rest).
  destruct (strconv.ParseUint body) as [un [k|]] eqn:Hu.
  - destruct k; [discriminate|].
    assert (un = strconv.maxUint64) as ->.
    { unfold strconv.ParseUint in Hu. destruct body; [discriminate|].
      exact (ParseUint_loop_range _ _ _ Hu). }
    destruct (Ascii.eqb c "-"); cbn; discriminate.
  - intros _. unfold strconv.ParseUint in Hu. destruct body; [discriminate|].
    exact (ParseUint_loop_digits _ _ _ Hu).
Qed.

(** X10. [IsRunning] answers true only for a PID file whose whole content
    is an optional sign followed by decimal digits: a file with a trailing
    newline, blanks or any other byte reads as "not running". *)
Theorem IsRunning_true_needs_integer_syntax (os : cmd.OS) (pid : option Z)
    (pidFilePath : string) :
  fst (cmd.IsRunning os pid pidFilePath) = true ->
  exists file pidStr,
    cmd.os_Open os pidFilePath = Ok file
    /\ cmd.io_ReadAll os file = Ok pidStr
    /\ integer_syntax pidStr = true.
Proof.
  unfold cmd.IsRunning.
  destruct pid as [v|]; [|discriminate].
  destruct (cmd.os_Open os pidFilePath) as [file|e]; [|discriminate].
  destruct (cmd.io_ReadAll os file) as [pidStr|e] eqn:Hr; [|discriminate].
  destruct (strconv.Atoi pidStr) as [n [e|]] eqn:Ha; [discriminate|].
  intros _. exists file, pidStr. split; [reflexivity|]. split; [exact Hr|].
  unfold strconv.Atoi in Ha.
  destruct (strconv.ParseInt pidStr) as [m [k|]] eqn:Hp; [discriminate|].
  exact (ParseInt_syntax _ _ Hp).
Qed.

(** X11. [start] and [stop] never both act on one host.  When the working
    directory cannot be changed neither does anything but report the error;
    otherwise [stop] asks for a signal exactly when [start] refrains from
    daemonizing (a daemon is running), and [start] then returns nil, leaves
    the package variables alone and only prints the PID it found. *)
Theorem start_and_stop_are_exclusive (host : Host) (c c' : cmd.Command) (g : Globals) :
  (forall err, cmd.file_ChangeWorkPathToModulePath (os host) = Some err ->
     cmd.signals (snd (cmd.stop (os host) c')) = []
     /\ start host c g = (Returns (Some err), g, [Fprintf_Stderr "[ERROR] %v\n" err]))
  /\ (cmd.file_ChangeWorkPathToModulePath (os host) = None ->
      (cmd.signals (snd (cmd.stop (os host) c')) <> []
       <-> existsb is_DaemonizeProcess (snd (start host c g)) = false)
      /\ (existsb is_DaemonizeProcess (snd (start host c g)) = false ->
          exists n,
            snd (cmd.IsRunning (os host) (Some 0) config.PidFilePath) = Some n
            /\ start host c g
               = (Returns None, g,
                  [Fprintf_Stdout
                     "[INFO] there is already a process in operation (pid:%d)\n" n]))).
Proof.
  split.
  - intros err Hcd. unfold cmd.stop, start. rewrite Hcd. split; reflexivity.
  - intros Hcd0. unfold cmd.stop. rewrite Hcd0.
    start_paths host c g; try discriminate; cbn.
    + split; [|intros _; exists n; split; reflexivity].
      split; [reflexivity|]. intros _.
      destruct (cmd.process_SendSignal (os host) n cmd.SIGTERM); cbn; discriminate.
    + split; [split; [congruence | discriminate] | discriminate].
    + split; [split; [congruence | discriminate] | discriminate].
    + split; [split; [congruence | discriminate] | discriminate].
    + split; [split; [congruence | discriminate] | discriminate].
    + split; [split; [congruence | discriminate] | discriminate].
    + split; [split; [congruence | discriminate] | discriminate].
Qed.

(** X12. Every error that [start] returns is returned before the daemon is
    brought up: no signal handling is set up, the configuration is not
    loaded, the logger is not initialised, no task is registered or started,
    [Conf] is as it was, and the last thing done is to print that error. *)
Theorem start_error_before_bring_up (host : Host) (c : cmd.Command) (g : Globals)
    (err : error) :
  fst (fst (start host c g)) = Returns (Some err) ->
  existsb brings_up (snd (start host c g)) = false
  /\ Conf (snd (fst (start host c g))) = Conf g
  /\ last (snd (start host c g)) = Some (Fprintf_Stderr "[ERROR] %v\n" err).
Proof.
  start_paths host c g; cbn; try discriminate;
    intros [= <-]; repeat split; reflexivity.
Qed.

(** X13. Once [start] has started the tasks, the PID file was asked to hold
    the PID of this process, which is also [RunConf.Pid]; debug mode is on
    if it was on or the command is "debug"; and [start] ends in one of two
    ways: no signal arrives and it stays blocked with [StartAll] as its last
    event, or a signal arrives and it returns nil after [StopAll] with a
    10 s timeout, [FinalizeLogger] and [signal.Stop], in this order. *)
Theorem started_tasks_are_stopped (host : Host) (c : cmd.Command) (g : Globals) :
  existsb is_StartAll (snd (start host c g)) = true ->
  In (WriteDataToTextFile config.PidFilePath (os_Getpid host) true) (snd (start host c g))
  /\ config.Pid (RunConf (snd (fst (start host c g)))) = os_Getpid host
  /\ config.DebugMode (RunConf (snd (fst (start host c g))))
     = (config.DebugMode (RunConf g) || String.eqb (cmd.Use c) "debug")%bool
  /\ ((sigChan host = None
       /\ fst (fst (start host c g)) = Blocked
       /\ last (snd (start host c g)) = Some StartAll)
      \/ (exists sig pre,
            sigChan host = Some sig
            /\ fst (fst (start host c g)) = Returns None
            /\ snd (start host c g)
               = pre ++ [StartAll; Receive sig;
                         LogInfo "received %s (signum:%d)" [ArgSignal sig; ArgSignal sig];
                         StopAll 10000000000; FinalizeLogger; SignalStop])).
Proof.
  start_paths host c g; cbn; try discriminate; intros _.
  - split; [tauto|]. split; [reflexivity|].
    split; [rewrite orb_true_r; reflexivity|].
    right. exists sig. eexists [_; _; _; _; _; _; _; _; _].
    split; [reflexivity|]. split; reflexivity.
  - split; [tauto|]. split; [reflexivity|].
    split; [rewrite orb_true_r; reflexivity|].
    left. split; [reflexivity|]. split; reflexivity.
  - split; [tauto|]. split; [reflexivity|].
    split; [rewrite orb_false_r; reflexivity|].
    right. exists sig. eexists [_; _; _; _; _; _; _; _; _; _].
    split; [reflexivity|]. split; reflexivity.
  - split; [tauto|]. split; [reflexivity|].
    split; [rewrite orb_false_r; reflexivity|].
    left. split; [reflexivity|]. split; reflexivity.
Qed.


End start_facts.

(** ** Configuration loading, continued *)

Section config_facts.
Import config config_checks.

Lemma validate_closed_form (Conf0 : Config) (c : Receiver) :
  validate (Conf0, c)
  = match c with
    | RecvConf => (clamp_to_defaults Conf0, RecvConf)
    | RecvOther v => (Conf0, RecvOther (clamp_to_defaults v))
    end.
Proof.
  destruct c as [|v].
  - destruct Conf0 as [[p t e cf kf a] api [sz bk ag cz]].
    unfold validate, clamp_to_defaults, checked; cbn.
    destruct ((p <? 0) || (p >? 65535)); cbn;
      destruct ((t <? 0) || (t >? 20)); cbn;
      destruct ((sz <? 1) || (sz >? 1000)); cbn;
      destruct ((bk <? 1) || (bk >? 100)); cbn;
      destruct ((ag <? 1) || (ag >? 365)); reflexivity.
  - destruct v as [[p t e cf kf a] api [sz bk ag cz]].
    unfold validate, clamp_to_defaults, checked; cbn.
    destruct ((p <? 0) || (p >? 65535)); cbn;
      destruct ((t <? 0) || (t >? 20)); cbn;
      destruct ((sz <? 1) || (sz >? 1000)); cbn;
      destruct ((bk <? 1) || (bk >? 100)); cbn;
      destruct ((ag <? 1) || (ag >? 365)); reflexivity.
Qed.

Lemma checked_fixed (lo hi def v : Z) :
  lo <= def <= hi -> checked lo hi def (checked lo hi def v) = checked lo hi def v.
Proof.
  intros Hd. pose proof (checked_range lo hi def v Hd) as Hr.
  generalize dependent (checked lo hi def v). intros w Hw. unfold checked.
  destruct (Z.ltb_spec w lo); cbn; [lia|].
  destruct (Z.gtb_spec w hi); cbn; [lia | reflexivity].
Qed.

Lemma checked_inside (lo hi def v : Z) :
  lo <= v <= hi -> checked lo hi def v = v.
Proof.
  intros Hv. unfold checked.
  destruct (Z.ltb_spec v lo); cbn; [lia|].
  destruct (Z.gtb_spec v hi); cbn; [lia | reflexivity].
Qed.

Lemma clamp_to_defaults_in_range (c : Config) : in_range (clamp_to_defaults c).
Proof. unfold in_range, clamp_to_defaults; cbn. repeat split; apply checked_range; lia. Qed.

(** X15. The range checks of [LoadConfig] settle in one pass: applied to
    their own result they change nothing, for either kind of receiver, and
    the receiver's five numbers are then within their ranges (Port [0,65535],
    ShutdownTimeout [0,20], MaxLogFileSize [1,1000], MaxLogFileBackup [1,100],
    MaxLogFileAge [1,365]). *)
Theorem range_checks_settle (Conf0 : Config) (c : Receiver) :
  validate (validate (Conf0, c)) = validate (Conf0, c)
  /\ in_range (deref (fst (validate (Conf0, c))) (snd (validate (Conf0, c)))).
Proof.
  rewrite (validate_closed_form Conf0 c).
  destruct c as [|v]; rewrite validate_closed_form; cbn [deref fst snd]; split;
    try apply clamp_to_defaults_in_range;
    unfold clamp_to_defaults; cbn;
    rewrite !checked_fixed by lia; reflexivity.
Qed.

(** X16. When [LoadConfig] returns nil on the receiver [&Conf], nothing but
    the five checked numbers differs from what the decoder wrote: the TLS
    switches and file names, the AutoTLS options, the three API paths and
    the compression flag are exactly as decoded. *)
Theorem LoadConfig_keeps_unchecked_fields (env : Env) (filePath : string)
    (Conf0 Conf1 : Config) (c1 : Receiver) :
  LoadConfig env RecvConf filePath Conf0 = ((Conf1, c1), None) ->
  exists (file : File env) (decoded : Config),
    os_Open env ConfFilePath = Ok file
    /\ yaml_Decode env file Conf0 = (decoded, None)
    /\ TLSEnabled (Server Conf1) = TLSEnabled (Server decoded)
    /\ TLSCertificateFile (Server Conf1) = TLSCertificateFile (Server decoded)
    /\ TLSPrivateKeyFile (Server Conf1) = TLSPrivateKeyFile (Server decoded)
    /\ AutoTLS (Server Conf1) = AutoTLS (Server decoded)
    /\ API Conf1 = API decoded
    /\ CompBakLogFile (Log Conf1) = CompBakLogFile (Log decoded)
    /\ (in_range decoded -> Conf1 = decoded).
Proof.
  unfold LoadConfig.
  destruct (os_Open env ConfFilePath) as [file|e]; [|discriminate].
  destruct (yaml_Decode env file Conf0) as [decoded [e|]] eqn:Hdec; [discriminate|].
  rewrite validate_closed_form. intros [= <- <-].
  exists file, decoded. split; [reflexivity|]. split; [exact Hdec|].
  repeat (split; [reflexivity|]).
  intros (Hp & Ht & Hs & Hb & Ha).
  destruct decoded as [[p t e cf kf a] api [sz bk ag cz]]. cbn in *.
  unfold clamp_to_defaults; cbn.
  rewrite !checked_inside by assumption. reflexivity.
Qed.

(** X17. Called on a receiver other than [&Conf], a [LoadConfig] that
    returns nil has put the decoded file into [Conf] without any range check
    and has range-checked the receiver's own earlier values: nothing of the
    file reaches the receiver. *)
Theorem LoadConfig_on_other_receiver (env : Env) (filePath : string)
    (Conf0 Conf1 v : Config) (c1 : Receiver) :
  LoadConfig env (RecvOther v) filePath Conf0 = ((Conf1, c1), None) ->
  exists file : File env,
    os_Open env ConfFilePath = Ok file
    /\ yaml_Decode env file Conf0 = (Conf1, None)
    /\ c1 = RecvOther (clamp_to_defaults v).
Proof.
  unfold LoadConfig.
  destruct (os_Open env ConfFilePath) as [file|e]; [|discriminate].
  destruct (yaml_Decode env file Conf0) as [decoded [e|]] eqn:Hdec; [discriminate|].
  rewrite validate_closed_form. intros [= <- <-].
  exists file. split; [reflexivity|]. split; [exact Hdec | reflexivity].
Qed.

End config_facts.

(** ** Initialisation, the server and its middleware *)

Section server_facts.
Import server.

(** X18. [initialization] cannot fail and always does the same three
    things in the same order (load the configuration, initialise the logger,
    register the task "server"); it leaves [RunConf] alone; and [Conf]
    afterwards is: what it was, if the file cannot be opened; what the
    decoder wrote, unchecked, if decoding fails; the decoded values with the
    five range checks applied, otherwise. *)
Theorem initialization_outcomes (host : operation.Host) (g : operation.Globals) :
  let cenv := operation.env host in
  let g' := fst (operation.initialization host g) in
  (exists err,
     snd (operation.initialization host g)
     = [operation.LoadConfig config.ConfFilePath err; operation.InitializeLogger;
        operation.AddTask "server"])
  /\ operation.RunConf g' = operation.RunConf g
  /\ match config.os_Open cenv config.ConfFilePath with
     | Err _ => operation.Conf g' = operation.Conf g
     | Ok file =>
         match config.yaml_Decode cenv file (operation.Conf g) with
         | (decoded, Some _) => operation.Conf g' = decoded
         | (decoded, None) =>
             operation.Conf g' = config_checks.clamp_to_defaults decoded
         end
     end.
Proof.
  unfold operation.initialization, config.LoadConfig. cbv zeta.
  destruct (config.os_Open (operation.env host) config.ConfFilePath) as [file|e]; cbn.
  - destruct (config.yaml_Decode (operation.env host) file (operation.Conf g))
      as [decoded [e|]]; cbn.
    + split; [eauto|]. split; reflexivity.
    + rewrite validate_closed_form. cbn. split; [eauto|]. split; reflexivity.
  - split; [eauto|]. split; reflexivity.
Qed.

Lemma serve_events (env : Env) (Conf : config.Config) (RunConf : config.RunConfig)
    (srv : HTTPServer) (isTLS : bool) (port : Z) :
  omap launches (snd (serve env Conf RunConf srv isTLS port)) = [srv]
  /\ omap own_signals (snd (serve env Conf RunConf srv isTLS port)) = []
  /\ (forall d, In (Shutdown d) (snd (serve env Conf RunConf srv isTLS port)) ->
        d = wrap64 (config.ShutdownTimeout (config.Server Conf) * Second))
  /\ (forall srv' calls, In (Go srv' calls) (snd (serve env Conf RunConf srv isTLS port)) ->
        srv' = srv /\ calls = serving env RunConf isTLS).
Proof.
  unfold serve. destruct (ctx_Done env); [destruct (server_Shutdown env _)|]; cbn;
    (split; [reflexivity|]); (split; [reflexivity|]);
    (split;
     [intros d Hd; in_cases Hd; injection Hd as <-; reflexivity
     |intros srv' calls Hin; in_cases Hin; injection Hin as <- <-; split; reflexivity]).
Qed.

(** The engine is built when gin accepts the four paths, each on top of the
    routes registered before it, and the first refusal is the panic. *)
Lemma newGinRouterEngine_cases (env : Env) (Conf : config.Config)
    (RunConf : config.RunConfig) :
  let m := config.MetricURI (config.API Conf) in
  let h := config.HealthURI (config.API Conf) in
  let r1 := [(m, "metricsHandler")] in
  let r2 := r1 ++ [(h, "healthHandler")] in
  let r3 := r2 ++ [("/version", "versionHandler")] in
  let r4 := r3 ++ [("/", "rootHandler")] in
  match newGinRouterEngine env Conf RunConf with
  | Value engine =>
      gin_GET env [] m = None /\ gin_GET env r1 h = None
      /\ gin_GET env r2 "/version" = None /\ gin_GET env r3 "/" = None
      /\ engine = {| Mode := if config.DebugMode RunConf then "debug" else "release";
                     Middlewares := [GinLogger; GinRecovery; Version];
                     Routes := r4 |}
  | Panic v =>
      gin_GET env [] m = Some v
      \/ (gin_GET env [] m = None /\ gin_GET env r1 h = Some v)
      \/ (gin_GET env [] m = None /\ gin_GET env r1 h = None
          /\ gin_GET env r2 "/version" = Some v)
      \/ (gin_GET env [] m = None /\ gin_GET env r1 h = None
          /\ gin_GET env r2 "/version" = None /\ gin_GET env r3 "/" = Some v)
  end.
Proof.
  cbv zeta. unfold newGinRouterEngine, GET. cbv zeta. cbn [app].
  destruct (gin_GET env [] _) as [v|]; cbv beta iota; cbn [app];
    [left; reflexivity|].
  destruct (gin_GET env [_] _) as [v|]; cbv beta iota; cbn [app];
    [right; left; split; reflexivity|].
  destruct (gin_GET env [_; _] _) as [v|]; cbv beta iota; cbn [app];
    [right; right; left; repeat split; reflexivity|].
  destruct (gin_GET env [_; _; _] _) as [v|]; cbv beta iota; cbn [app];
    [right; right; right; repeat split; reflexivity|].
  repeat split; reflexivity.
Qed.

(** X19. [Run] serves exactly when gin accepts the routes and the
    configuration is usable.  [Run] builds the gin engine first: when gin
    panics on the registration of one of the four paths (the metric path, the
    health path, "/version", "/", each on top of those registered before it),
    [Run] panics with that value and has logged, signalled and launched
    nothing.  When the engine is built: with AutoTLS enabled but no host or
    no certificate path, or with TLS enabled but a missing file name or a
    key pair that does not load, it launches no server: it logs one error,
    sends SIGUSR1 to [RunConf.Pid] and returns.  Otherwise it launches
    exactly one server, with the engine built as its handler, and sends no
    signal itself. *)
Theorem Run_serves_iff_usable (env : Env) (Conf : config.Config)
    (RunConf : config.RunConfig) :
  let m := config.MetricURI (config.API Conf) in
  let h := config.HealthURI (config.API Conf) in
  let r1 := [(m, "metricsHandler")] in
  let r2 := r1 ++ [(h, "healthHandler")] in
  let r3 := r2 ++ [("/version", "versionHandler")] in
  match newGinRouterEngine env Conf RunConf with
  | Panic v =>
      Run env Conf RunConf = (Panicked v, [])
      /\ (gin_GET env [] m = Some v \/ gin_GET env r1 h = Some v
          \/ gin_GET env r2 "/version" = Some v \/ gin_GET env r3 "/" = Some v)
  | Value engine =>
      (gin_GET env [] m = None /\ gin_GET env r1 h = None
       /\ gin_GET env r2 "/version" = None /\ gin_GET env r3 "/" = None)
      /\ (unusable env Conf = true ->
          exists format args,
            Run env Conf RunConf
            = (Returned,
               [LogError format args; SendSignal (config.Pid RunConf) cmd.SIGUSR1]))
      /\ (unusable env Conf = false ->
          (exists srv,
             omap launches (snd (Run env Conf RunConf)) = [srv]
             /\ Handler srv = engine)
          /\ omap own_signals (snd (Run env Conf RunConf)) = [])
  end.
Proof.
  cbv zeta. pose proof (newGinRouterEngine_cases env Conf RunConf) as Hgin.
  cbv zeta in Hgin. unfold unusable, Run. cbv zeta.
  destruct (newGinRouterEngine env Conf RunConf) as [engine|v].
  2:{ split; [reflexivity|].
      destruct Hgin as [H|[[_ H]|[(_ & _ & H)|(_ & _ & _ & H)]]]; auto. }
  destruct Hgin as (G1 & G2 & G3 & G4 & _).
  split; [repeat split; assumption|].
  assert (Hserve : forall srv isTLS port,
            Handler srv = engine ->
            (exists srv0,
               omap launches (snd (serve env Conf RunConf srv isTLS port)) = [srv0]
               /\ Handler srv0 = engine)
            /\ omap own_signals (snd (serve env Conf RunConf srv isTLS port)) = []).
  { intros srv isTLS port Hh.
    destruct (serve_events env Conf RunConf srv isTLS port) as (Hl & Hs & _).
    split; [exists srv; split; assumption | exact Hs]. }
  destruct (config.Enabled (config.AutoTLS (config.Server Conf))).
  - destruct (_ || _)%bool; split; try discriminate; intros _.
    + eauto.
    + apply Hserve. reflexivity.
  - destruct (config.TLSEnabled (config.Server Conf)); cbn [andb].
    + destruct (String.eqb (config.TLSCertificateFile (config.Server Conf)) "" ||
                String.eqb (config.TLSPrivateKeyFile (config.Server Conf)) "")%bool;
        cbn [orb].
      * split; [intros _; eauto | discriminate].
      * destruct (tls_LoadX509KeyPair env _ _); split; try discriminate; intros _.
        -- eauto.
        -- apply Hserve. reflexivity.
    + split; [discriminate|]. intros _. apply Hserve. reflexivity.
Qed.

(** X20. Where [Run] listens.  With AutoTLS enabled the server it launches
    has the address ":https", takes its certificates from autocert, and the
    configured port and TLS switch play no part; otherwise the address is
    ":" followed by the decimal port, with the loaded key pair if TLS is
    enabled and without TLS if not.  The server always has read and write
    timeouts of 10 s and a header limit of 1 MiB, and the goroutine calls
    [ListenAndServe] only in the case without TLS. *)
Theorem Run_listen_address (env : Env) (Conf : config.Config)
    (RunConf : config.RunConfig) (srv : HTTPServer) (calls : list Call) :
  In (Go srv calls) (snd (Run env Conf RunConf)) ->
  let s := config.Server Conf in
  ReadTimeout srv = 10000000000 /\ WriteTimeout srv = 10000000000
  /\ MaxHeaderBytes srv = 1048576
  /\ (if config.Enabled (config.AutoTLS s) then
        Addr srv = ":https"
        /\ TLSConfig srv = AutoCert (config.Host (config.AutoTLS s))
                                    (config.CertPath (config.AutoTLS s))
        /\ head calls = Some (ListenAndServeTLS "" "")
      else if config.TLSEnabled s then
        Addr srv = ":" +:+ pretty (config.Port s)
        /\ TLSConfig srv = KeyPair (config.TLSCertificateFile s)
                                   (config.TLSPrivateKeyFile s)
                                   "VersionTLS12" ["h2"; "http/1.1"]
        /\ head calls = Some (ListenAndServeTLS "" "")
      else
        Addr srv = ":" +:+ pretty (config.Port s)
        /\ TLSConfig srv = NoTLS
        /\ head calls = Some ListenAndServe).
Proof.
  unfold Run. cbv zeta.
  destruct (newGinRouterEngine env Conf RunConf) as [engine|v]; [|intros []].
  destruct (config.Enabled (config.AutoTLS (config.Server Conf))).
  - destruct (_ || _)%bool.
    + cbn. intros [H|[H|[]]]; discriminate.
    + intros Hin. apply serve_events in Hin as [-> ->]. cbn. repeat split.
  - destruct (config.TLSEnabled (config.Server Conf)).
    + destruct (_ || _)%bool.
      * cbn. intros [H|[H|[]]]; discriminate.
      * destruct (tls_LoadX509KeyPair env _ _).
        -- cbn. intros [H|[H|[]]]; discriminate.
        -- intros Hin. apply serve_events in Hin as [-> ->]. cbn. repeat split.
    + intros Hin. apply serve_events in Hin as [-> ->]. cbn. repeat split.
Qed.

Lemma wrap64_small (z : Z) : - 2 ^ 63 <= z < 2 ^ 63 -> wrap64 z = z.
Proof. intros H. unfold wrap64. rewrite Z.mod_small; lia. Qed.

Lemma Run_shutdown (env : Env) (Conf : config.Config) (RunConf : config.RunConfig)
    (d : Duration) :
  In (Shutdown d) (snd (Run env Conf RunConf)) ->
  d = wrap64 (config.ShutdownTimeout (config.Server Conf) * Second).
Proof.
  unfold Run. cbv zeta.
  destruct (newGinRouterEngine env Conf RunConf) as [engine|v]; [|intros []].
  repeat case_if; try (cbn; intros [H|[H|[]]]; discriminate);
    try apply serve_events.
  destruct (tls_LoadX509KeyPair env _ _);
    [cbn; intros [H|[H|[]]]; discriminate | apply serve_events].
Qed.

(** X21. After a [LoadConfig] that returned nil, [Run] on the loaded
    configuration gives [server.Shutdown] a timeout of [ShutdownTimeout]
    seconds, between 0 s and 20 s (0 s when the file says 0), and, unless
    AutoTLS is enabled, listens on ":" followed by a decimal port between 0
    and 65535. *)
Theorem Run_after_LoadConfig (cenv : config.Env) (filePath : string)
    (Conf0 Conf1 : config.Config) (c1 : config.Receiver)
    (env : Env) (RunConf : config.RunConfig) :
  config.LoadConfig cenv config.RecvConf filePath Conf0 = ((Conf1, c1), None) ->
  (forall d, In (Shutdown d) (snd (Run env Conf1 RunConf)) ->
     d = config.ShutdownTimeout (config.Server Conf1) * 1000000000
     /\ 0 <= d <= 20000000000)
  /\ (forall srv calls, In (Go srv calls) (snd (Run env Conf1 RunConf)) ->
        config.Enabled (config.AutoTLS (config.Server Conf1)) = false ->
        exists port, 0 <= port <= 65535 /\ Addr srv = ":" +:+ pretty port).
Proof.
  unfold config.LoadConfig.
  destruct (config.os_Open cenv config.ConfFilePath) as [file|e]; [|discriminate].
  destruct (config.yaml_Decode cenv file Conf0) as [decoded [e|]]; [discriminate|].
  rewrite validate_closed_form. intros [= <- <-].
  destruct (clamp_to_defaults_in_range decoded) as (Hp & Ht & _).
  split.
  - intros d Hd. apply Run_shutdown in Hd. subst d.
    rewrite wrap64_small by (unfold Second, Nanosecond; lia).
    unfold Second, Nanosecond. split; lia.
  - intros srv calls Hin Hauto.
    exists (config.Port (config.Server (config_checks.clamp_to_defaults decoded))).
    split; [exact Hp|].
    revert Hin. unfold Run. cbv zeta.
    destruct (newGinRouterEngine env _ RunConf) as [engine|v]; [|intros []].
    rewrite Hauto.
    destruct (config.TLSEnabled _).
    + destruct (_ || _)%bool; [cbn; intros [H|[H|[]]]; discriminate|].
      destruct (tls_LoadX509KeyPair env _ _);
        [cbn; intros [H|[H|[]]]; discriminate|].
      intros Hin. apply serve_events in Hin as [-> _]. reflexivity.
    + intros Hin. apply serve_events in Hin as [-> _]. reflexivity.
Qed.

(** X22. The logging middleware always runs the rest of the chain first and
    exactly once, and then logs at most one line.  It logs none exactly when
    the request path, with "?" and the query appended if there is a query,
    is the metric path or the health path; otherwise it logs one line, at
    error level for a status of 500 or more, at warning level from 400 to
    499, at info level below 400. *)
Theorem ginLoggerMiddleware_levels (Conf : config.Config) (req : Request)
    (latency : Duration) (served : Served) :
  let path := if negb (String.eqb (RawQuery req) "")
              then (Path req +:+ "?" +:+ RawQuery req) else Path req in
  let steps := ginLoggerMiddleware Conf req latency served in
  head steps = Some Next
  /\ ((path = config.MetricURI (config.API Conf)
       \/ path = config.HealthURI (config.API Conf)) <-> steps = [Next])
  /\ (path <> config.MetricURI (config.API Conf) ->
      path <> config.HealthURI (config.API Conf) ->
      exists format args,
        steps = [Next;
                 Log (if Status served >=? 500 then LevelError
                      else if Status served >=? 400 then LevelWarn
                      else LevelInfo) format args]
        /\ nth_error args 0 = Some (LInt (Status served))
        /\ nth_error args 2 = Some (LString path)
        /\ nth_error args 4 = Some (LDuration latency)).
Proof.
  intros path steps. subst steps. unfold ginLoggerMiddleware. cbv zeta. fold path.
  destruct (bool_decide_reflect
              (path ∈ ({[config.MetricURI (config.API Conf)]}
                        ∪ {[config.HealthURI (config.API Conf)]} : gset string)))
    as [Hin|Hout].
  - split; [reflexivity|]. split.
    + split; [reflexivity|]. intros _. set_solver.
    + intros H1 H2. apply elem_of_union in Hin as [Hin|Hin];
        apply elem_of_singleton in Hin; contradiction.
  - assert (H1 : path <> config.MetricURI (config.API Conf)) by set_solver.
    assert (H2 : path <> config.HealthURI (config.API Conf)) by set_solver.
    split; [repeat case_if; reflexivity|]. split.
    + split; [intros [?|?]; contradiction|].
      repeat case_if; discriminate.
    + intros _ _. destruct (Status served >=? 500); [|destruct (Status served >=? 400)];
        eexists _, _; repeat split; reflexivity.
Qed.

End server_facts.

(** ** Requests for termination *)

Section signal_facts.
Import server.

Lemma start_up_pid (host : operation.Host) (c : cmd.Command) (g : operation.Globals) :
  existsb operation.is_StartAll (snd (operation.start host c g)) = true ->
  config.Pid (operation.RunConf (snd (fst (operation.start host c g))))
  = operation.os_Getpid host.
Proof.
  start_paths host c g; cbn; try discriminate; reflexivity.
Qed.

Lemma Run_signals (env : Env) (Conf : config.Config) (RunConf : config.RunConfig) :
  (forall pid sig, In (SendSignal pid sig) (snd (Run env Conf RunConf)) ->
     pid = config.Pid RunConf /\ sig = cmd.SIGUSR1)
  /\ (forall srv calls pid sig,
        In (Go srv calls) (snd (Run env Conf RunConf)) ->
        In (GoSendSignal pid sig) calls ->
        pid = config.Pid RunConf /\ sig = cmd.SIGUSR1).
Proof.
  assert (Hfail : forall format args,
            (forall pid sig,
               In (SendSignal pid sig)
                  [LogError format args; SendSignal (config.Pid RunConf) cmd.SIGUSR1] ->
               pid = config.Pid RunConf /\ sig = cmd.SIGUSR1)
            /\ (forall srv calls pid sig,
                  In (Go srv calls)
                     [LogError format args; SendSignal (config.Pid RunConf) cmd.SIGUSR1] ->
                  In (GoSendSignal pid sig) calls ->
                  pid = config.Pid RunConf /\ sig = cmd.SIGUSR1)).
  { intros format args. split.
    - intros pid sig H. in_cases H. injection H as <- <-. split; reflexivity.
    - intros srv calls pid sig H. in_cases H. }
  assert (Hserve : forall srv isTLS port,
            (forall pid sig,
               In (SendSignal pid sig) (snd (serve env Conf RunConf srv isTLS port)) ->
               pid = config.Pid RunConf /\ sig = cmd.SIGUSR1)
            /\ (forall srv' calls pid sig,
                  In (Go srv' calls) (snd (serve env Conf RunConf srv isTLS port)) ->
                  In (GoSendSignal pid sig) calls ->
                  pid = config.Pid RunConf /\ sig = cmd.SIGUSR1)).
  { intros srv isTLS port.
    destruct (serve_events env Conf RunConf srv isTLS port) as (_ & Hnone & _ & Hgo).
    split.
    - intros pid sig H.
      assert (Hin : (pid, sig) ∈ omap own_signals (snd (serve env Conf RunConf srv isTLS port))).
      { apply list_elem_of_omap. exists (SendSignal pid sig).
        split; [apply list_elem_of_In; exact H | reflexivity]. }
      rewrite Hnone in Hin. inversion Hin.
    - intros srv' calls pid sig H Hc. apply Hgo in H as [_ ->].
      unfold serving in Hc. destruct isTLS; destruct (listen env);
        in_cases Hc; injection Hc as <- <-; split; reflexivity. }
  unfold Run. cbv zeta.
  destruct (newGinRouterEngine env Conf RunConf) as [engine|v];
    [|split; [intros pid sig [] | intros srv calls pid sig []]].
  repeat case_if; try apply Hfail; try apply Hserve.
  destruct (tls_LoadX509KeyPair env _ _); [apply Hfail | apply Hserve].
Qed.

(** X23. Once [start] has started the tasks, every request for termination
    that the daemon makes goes to its own process with SIGUSR1: the signal
    of [panicHandler], the one [Run] sends when it cannot serve, and the one
    its serving goroutine sends when listening fails all go to
    [os.Getpid()], the PID that [start] recorded. *)
Theorem termination_requests_go_to_own_pid (host : operation.Host) (c : cmd.Command)
    (g : operation.Globals) (env : Env) (panicErr : error) :
  existsb operation.is_StartAll (snd (operation.start host c g)) = true ->
  let g' := snd (fst (operation.start host c g)) in
  operation.panicHandler g' panicErr
  = [operation.LogError "panic occurred: %v" [operation.ArgError panicErr];
     operation.SendSignal (operation.os_Getpid host) cmd.SIGUSR1]
  /\ (forall pid sig,
        In (SendSignal pid sig)
           (snd (Run env (operation.Conf g') (operation.RunConf g'))) ->
        pid = operation.os_Getpid host /\ sig = cmd.SIGUSR1)
  /\ (forall srv calls pid sig,
        In (Go srv calls) (snd (Run env (operation.Conf g') (operation.RunConf g'))) ->
        In (GoSendSignal pid sig) calls ->
        pid = operation.os_Getpid host /\ sig = cmd.SIGUSR1).
Proof.
  intros Hup g'. pose proof (start_up_pid host c g Hup) as Hpid. fold g' in Hpid.
  destruct (Run_signals env (operation.Conf g') (operation.RunConf g')) as [H1 H2].
  rewrite Hpid in H1, H2.
  split; [unfold operation.panicHandler; rewrite Hpid; reflexivity|].
  split; assumption.
Qed.

End signal_facts.

(** ** Instances *)

Lemma last_publication_wins_witness :
  resourcecollecter.allocated (resourcecollecter.heap samples.st_caller)
    (resourcecollecter.NetworkTraffic samples.r_caller)
  /\ resourcecollecter.published
       (foldl (fun st0 r0 => resourcecollecter.SetGlobalResource samples.exact_fit r0 st0)
          samples.st_caller ([resourcecollecter.zeroResource] ++ [samples.r_caller]))
     = resourcecollecter.view (resourcecollecter.heap samples.st_caller) samples.r_caller.
Proof.
  assert (H : resourcecollecter.allocated (resourcecollecter.heap samples.st_caller)
                (resourcecollecter.NetworkTraffic samples.r_caller)).
  { cbn. apply elem_of_dom. eexists. reflexivity. }
  split; [exact H|].
  exact (last_publication_wins samples.exact_fit [resourcecollecter.zeroResource]
           samples.r_caller samples.st_caller H).
Defined.

Lemma reads_are_repeatable_witness :
  collecting.store_ok more_samples.st_stored
  /\ resourcecollecter.published more_samples.st_stored
     = {| resourcecollecter.cpu := 50; resourcecollecter.mem := 25;
          resourcecollecter.disk := 50;
          resourcecollecter.net := [samples.t_eth0; samples.t_wlan0] |}
  /\ resourcecollecter.published
       (collecting.after_reads samples.exact_fit 3 more_samples.st_stored)
     = resourcecollecter.published more_samples.st_stored
  /\ (let '(c, st') :=
        resourcecollecter.GetGlobalResource samples.exact_fit
          (collecting.after_reads samples.exact_fit 3 more_samples.st_stored) in
      resourcecollecter.view (resourcecollecter.heap st') c
      = resourcecollecter.published more_samples.st_stored).
Proof.
  assert (H : collecting.store_ok more_samples.st_stored).
  { unfold collecting.store_ok. cbn. apply elem_of_dom. eexists. reflexivity. }
  split; [exact H|]. split; [reflexivity|].
  exact (reads_are_repeatable samples.exact_fit 3 more_samples.st_stored H).
Defined.

Lemma IsRunning_true_needs_integer_syntax_witness :
  fst (cmd.IsRunning samples.os_running (Some 0) config.PidFilePath) = true
  /\ exists pidStr,
       cmd.io_ReadAll samples.os_running tt = Ok pidStr
       /\ operation.integer_syntax pidStr = true.
Proof.
  split; [reflexivity|].
  destruct (IsRunning_true_needs_integer_syntax samples.os_running (Some 0)
              config.PidFilePath eq_refl)
    as (file & pidStr & _ & Hread & Hsyn).
  destruct file. exists pidStr. split; assumption.
Defined.

(** A PID file that ends in a newline is not an integer for [Atoi]. *)
Example integer_syntax_newline :
  operation.integer_syntax (String "4" (String "2" (String (ascii_of_nat 10) EmptyString)))
  = false
  /\ snd (strconv.Atoi (String "4" (String "2" (String (ascii_of_nat 10) EmptyString))))
     <> None.
Proof. split; [reflexivity | discriminate]. Qed.

Lemma start_error_before_bring_up_witness :
  fst (fst (operation.start more_samples.host_readonly more_samples.startCmd
              more_samples.globals0))
  = operation.Returns (Some "read-only file system"%string)
  /\ existsb operation.brings_up
       (snd (operation.start more_samples.host_readonly more_samples.startCmd
               more_samples.globals0)) = false.
Proof.
  assert (H : fst (fst (operation.start more_samples.host_readonly more_samples.startCmd
                          more_samples.globals0))
              = operation.Returns (Some "read-only file system"%string)) by reflexivity.
  split; [exact H|].
  exact (proj1 (start_error_before_bring_up more_samples.host_readonly
                  more_samples.startCmd more_samples.globals0 _ H)).
Defined.

Lemma started_tasks_are_stopped_witness :
  existsb operation.is_StartAll
    (snd (operation.start more_samples.host_idle more_samples.startCmd
            more_samples.globals0)) = true
  /\ config.Pid (operation.RunConf
                   (snd (fst (operation.start more_samples.host_idle
                                more_samples.startCmd more_samples.globals0))))
     = 777.
Proof.
  assert (H : existsb operation.is_StartAll
                (snd (operation.start more_samples.host_idle more_samples.startCmd
                        more_samples.globals0)) = true) by reflexivity.
  split; [exact H|].
  exact (proj1 (proj2 (started_tasks_are_stopped more_samples.host_idle
                         more_samples.startCmd more_samples.globals0 H))).
Defined.

(** The whole run of [start] on the sample host. *)
Example start_sample_run :
  operation.start more_samples.host_idle more_samples.startCmd more_samples.globals0
  = (operation.Returns None,
     {| operation.Conf :=
          config.set_Port 0
            (config.set_ShutdownTimeout 5 (config.set_MaxLogFileSize 100 config.init));
        operation.RunConf := {| config.DebugMode := false; config.Pid := 777 |} |},
     [operation.DaemonizeProcess;
      operation.WriteDataToTextFile config.PidFilePath 777 true;
      operation.DiscardStdStreams;
      operation.SetupSignal; operation.NewGoroutineManager; operation.SetPanicHandler;
      operation.LoadConfig config.ConfFilePath None;
      operation.InitializeLogger; operation.AddTask "server";
      operation.LogInfo "start %s (pid:%d, mode:%s)"
        [operation.ArgString "unisys"; operation.ArgInt 777; operation.ArgString "normal"];
      operation.StartAll;
      operation.Receive cmd.SIGTERM;
      operation.LogInfo "received %s (signum:%d)"
        [operation.ArgSignal cmd.SIGTERM; operation.ArgSignal cmd.SIGTERM];
      operation.StopAll 10000000000; operation.FinalizeLogger; operation.SignalStop]).
Proof. reflexivity. Qed.

Lemma LoadConfig_keeps_unchecked_fields_witness :
  config.LoadConfig samples.env_yaml config.RecvConf config.ConfFilePath config.init
  = ((config.set_Port 0
        (config.set_ShutdownTimeout 5 (config.set_MaxLogFileSize 100 config.init)),
      config.RecvConf), None)
  /\ exists decoded : config.Config,
       config.yaml_Decode samples.env_yaml tt config.init = (decoded, None)
       /\ config.API (config.set_Port 0
            (config.set_ShutdownTimeout 5 (config.set_MaxLogFileSize 100 config.init)))
          = config.API decoded.
Proof.
  split; [reflexivity|].
  destruct (LoadConfig_keeps_unchecked_fields samples.env_yaml config.ConfFilePath
              config.init _ _ eq_refl)
    as (file & decoded & _ & Hdec & _ & _ & _ & _ & Hapi & _).
  destruct file. exists decoded. split; assumption.
Defined.

Lemma LoadConfig_on_other_receiver_witness :
  config.LoadConfig samples.env_yaml (config.RecvOther more_samples.conf_odd)
    config.ConfFilePath config.init
  = ((config.set_Port 0
        (config.set_ShutdownTimeout 70 (config.set_MaxLogFileSize 0 config.init)),
      config.RecvOther (config.set_Port 8443 (config.set_MaxLogFileAge 90 config.init))),
     None)
  /\ config.RecvOther (config.set_Port 8443 (config.set_MaxLogFileAge 90 config.init))
     = config.RecvOther (config_checks.clamp_to_defaults more_samples.conf_odd).
Proof.
  split; [reflexivity|].
  destruct (LoadConfig_on_other_receiver samples.env_yaml config.ConfFilePath
              config.init _ more_samples.conf_odd _ eq_refl)
    as (file & _ & _ & Hc).
  exact Hc.
Defined.

Lemma Run_listen_address_witness :
  In (server.Go
        {| server.Handler := more_samples.engine_release;
           server.Addr := ":8443";
           server.ReadTimeout := 10000000000;
           server.WriteTimeout := 10000000000;
           server.MaxHeaderBytes := 1048576;
           server.TLSConfig := server.NoTLS |}
        [server.ListenAndServe])
     (snd (server.Run more_samples.senv config.init more_samples.runconf777))
  /\ server.Addr
       {| server.Handler := more_samples.engine_release;
          server.Addr := ":8443";
          server.ReadTimeout := 10000000000;
          server.WriteTimeout := 10000000000;
          server.MaxHeaderBytes := 1048576;
          server.TLSConfig := server.NoTLS |}
     = ":" +:+ pretty (config.Port (config.Server config.init)).
Proof.
  assert (H : In (server.Go
        {| server.Handler := more_samples.engine_release;
           server.Addr := ":8443";
           server.ReadTimeout := 10000000000;
           server.WriteTimeout := 10000000000;
           server.MaxHeaderBytes := 1048576;
           server.TLSConfig := server.NoTLS |}
        [server.ListenAndServe])
     (snd (server.Run more_samples.senv config.init more_samples.runconf777))).
  { left. reflexivity. }
  split; [exact H|].
  pose proof (Run_listen_address more_samples.senv config.init more_samples.runconf777
                _ _ H) as (_ & _ & _ & Haddr).
  cbn in Haddr. exact (proj1 Haddr).
Defined.

Lemma Run_after_LoadConfig_witness :
  config.LoadConfig samples.env_yaml config.RecvConf config.ConfFilePath config.init
  = ((config.set_Port 0
        (config.set_ShutdownTimeout 5 (config.set_MaxLogFileSize 100 config.init)),
      config.RecvConf), None)
  /\ In (server.Shutdown 5000000000)
        (snd (server.Run more_samples.senv
                (config.set_Port 0
                   (config.set_ShutdownTimeout 5
                      (config.set_MaxLogFileSize 100 config.init)))
                more_samples.runconf777))
  /\ 0 <= 5000000000 <= 20000000000.
Proof.
  split; [reflexivity|].
  assert (H : In (server.Shutdown 5000000000)
        (snd (server.Run more_samples.senv
                (config.set_Port 0
                   (config.set_ShutdownTimeout 5
                      (config.set_MaxLogFileSize 100 config.init)))
                more_samples.runconf777))).
  { right. right. right. left. reflexivity. }
  split; [exact H|].
  exact (proj2 (proj1 (Run_after_LoadConfig samples.env_yaml config.ConfFilePath
                         config.init _ _ more_samples.senv more_samples.runconf777
                         eq_refl) _ H)).
Defined.

Lemma termination_requests_go_to_own_pid_witness :
  existsb operation.is_StartAll
    (snd (operation.start more_samples.host_idle more_samples.startCmd
            more_samples.globals0)) = true
  /\ operation.panicHandler
       (snd (fst (operation.start more_samples.host_idle more_samples.startCmd
                    more_samples.globals0)))
       "index out of range"
     = [operation.LogError "panic occurred: %v" [operation.ArgError "index out of range"];
        operation.SendSignal 777 cmd.SIGUSR1].
Proof.
  assert (H : existsb operation.is_StartAll
                (snd (operation.start more_samples.host_idle more_samples.startCmd
                        more_samples.globals0)) = true) by reflexivity.
  split; [exact H|].
  exact (proj1 (termination_requests_go_to_own_pid more_samples.host_idle
                  more_samples.startCmd more_samples.globals0 more_samples.senv
                  "index out of range" H)).
Defined.

(** With the health path set to the metric path, gin refuses the second
    registration and [Run] panics before it does anything; with the default
    paths the engine is built and [Run] serves. *)
Example Run_route_collision :
  server.Run more_samples.senv more_samples.conf_collision more_samples.runconf777
  = (server.Panicked "handlers are already registered for path /metrics", [])
  /\ server.newGinRouterEngine more_samples.senv config.init more_samples.runconf777
     = server.Value more_samples.engine_release
  /\ fst (server.Run more_samples.senv config.init more_samples.runconf777)
     = server.Returned.
Proof. repeat split; reflexivity. Qed.
